(** * AP FRQ essay grader: classification, routing, score extraction, rendering

    A shallow embedding of [ap-env-plus-router.py] and [ap-frq-grader.py].

    Conventions.
    - A Python [str] is a Rocq [string] holding its UTF-8 bytes.  The string
      operations below ([strip], [lower], the character classes of [re]) are
      the Python ones on ASCII text; bytes above 127 are passed through
      unchanged, so non-ASCII case mapping, non-ASCII white space and
      non-ASCII decimal digits are outside the model.
    - A Python exception is a value of [exn]; code that may raise returns a
      [result].
    - Calls to the outside world (HTTP posts, SDK calls, sleeps) are recorded
      in a trace and answered by an arbitrary deterministic environment. *)

From Stdlib Require Import String Ascii List ZArith Bool Lia Arith SpecFloat.
From Stdlib Require Import DecimalString DecimalPos ZifyNat ZifyN ZifyBool.
Import ListNotations.

Set Warnings "-register-all,-abstract-large-number".

Local Open Scope list_scope.
Local Open Scope string_scope.

(* ================================================================== *)
(** * Part I.  The model                                                *)
(* ================================================================== *)

(** ** Python strings *)

Module PyStr.

(** The double-quote character and the line feed, as one-character strings. *)
Definition dq : string := String (ascii_of_nat 34) EmptyString.
Definition nl : string := String (ascii_of_nat 10) EmptyString.

(** [str.isspace] on ASCII: TAB, LF, VT, FF, CR, FS, GS, RS, US, SPACE. *)
Definition is_space (c : ascii) : bool :=
  let n := nat_of_ascii c in
  (((9 <=? n) && (n <=? 13)) || ((28 <=? n) && (n <=? 32)))%nat.

Definition is_digit (c : ascii) : bool :=
  let n := nat_of_ascii c in ((48 <=? n) && (n <=? 57))%nat.

Definition is_upper (c : ascii) : bool :=
  let n := nat_of_ascii c in ((65 <=? n) && (n <=? 90))%nat.

Definition lower_char (c : ascii) : ascii :=
  if is_upper c then ascii_of_nat (nat_of_ascii c + 32) else c.

(** [s.lower()] *)
Fixpoint lower (s : string) : string :=
  match s with
  | EmptyString => EmptyString
  | String c s' => String (lower_char c) (lower s')
  end.

Fixpoint rev_onto (s acc : string) : string :=
  match s with
  | EmptyString => acc
  | String c s' => rev_onto s' (String c acc)
  end.

Definition rev (s : string) : string := rev_onto s EmptyString.

(** Removal of leading, trailing and surrounding characters of a class. *)
Fixpoint lstrip_by (p : ascii -> bool) (s : string) : string :=
  match s with
  | EmptyString => EmptyString
  | String c s' => if p c then lstrip_by p s' else s
  end.

Definition rstrip_by (p : ascii -> bool) (s : string) : string :=
  rev (lstrip_by p (rev s)).

Definition strip_by (p : ascii -> bool) (s : string) : string :=
  rstrip_by p (lstrip_by p s).

(** [s.strip()] *)
Definition strip (s : string) : string := strip_by is_space s.

(** White space for the numeric conversions: TAB, LF, VT, FF, CR, SPACE. *)
Definition is_c_space (c : ascii) : bool :=
  let n := nat_of_ascii c in
  (((9 <=? n) && (n <=? 13)) || (n =? 32))%nat.

(** [strip_prefix p s] is [Some rest] when [s = p ++ rest]: the test
    [s.startswith(p)] together with the slice [s[len(p):]]. *)
Fixpoint strip_prefix (p s : string) : option string :=
  match p, s with
  | EmptyString, _ => Some s
  | String a p', String b s' => if Ascii.eqb a b then strip_prefix p' s' else None
  | String _ _, EmptyString => None
  end.

Definition startswith (s p : string) : bool :=
  match strip_prefix p s with Some _ => true | None => false end.

(** [s[n:]] *)
Fixpoint drop (n : nat) (s : string) : string :=
  match n, s with
  | O, _ => s
  | S n', String _ s' => drop n' s'
  | S _, EmptyString => EmptyString
  end.

(** [s[:n]] *)
Fixpoint take (n : nat) (s : string) : string :=
  match n, s with
  | O, _ => EmptyString
  | S n', String c s' => String c (take n' s')
  | S _, EmptyString => EmptyString
  end.

(** [sub in s] for strings. *)
Fixpoint contains (s sub : string) : bool :=
  if startswith s sub then true
  else match s with
       | EmptyString => false
       | String _ s' => contains s' sub
       end.

(** [s] has [sub] as a contiguous part. *)
Definition occurs (sub s : string) : Prop :=
  exists pre post, s = pre ++ sub ++ post.

(** ["".join] of a list of pieces: how an f-string is assembled. *)
Fixpoint cat (l : list string) : string :=
  match l with
  | [] => EmptyString
  | x :: l' => x ++ cat l'
  end.

End PyStr.

(** ** Python's [re] module, for the patterns the program uses *)

Module Re.
Import PyStr.

(** The fragment of the pattern language that occurs in the source.
    Repetition is only ever applied to a single character class. *)
Inductive regex : Type :=
| Lit (l : string)                (* literal text *)
| Star (p : ascii -> bool)        (* [c*], greedy *)
| StarLazy (p : ascii -> bool)    (* [c*?] *)
| Plus (p : ascii -> bool)        (* [c+], greedy *)
| Cat (r1 r2 : regex)             (* [r1 r2] *)
| Alt (r1 r2 : regex)             (* [r1|r2] *)
| Group (r : regex)               (* [(r)], capturing *)
| Ahead (r : regex)               (* [(?=r)] *)
| Eos.                            (* [$] without MULTILINE *)

(** Character classes. *)
Definition any (_ : ascii) : bool := true.              (* [[\s\S]], [.] with DOTALL *)
Definition digit : ascii -> bool := is_digit.            (* [\d] *)
Definition space : ascii -> bool := is_space.            (* [\s] *)
Definition not_dq (c : ascii) : bool :=                  (* any but the double quote *)
  negb (Ascii.eqb c (ascii_of_nat 34)).

(** [$] matches at the end of the text and just before a final line feed. *)
Definition at_eos (s : string) : bool :=
  match s with
  | EmptyString => true
  | String c EmptyString => Ascii.eqb c (ascii_of_nat 10)
  | _ => false
  end.

(** Greedy repetition: take a character when possible, and give it back when
    the rest of the pattern fails. *)
Fixpoint star_greedy {A : Type} (p : ascii -> bool) (s : string)
         (k : string -> option A) : option A :=
  match s with
  | String c s' =>
      if p c then
        match star_greedy p s' k with
        | Some x => Some x
        | None => k s
        end
      else k s
  | EmptyString => k s
  end.

(** Lazy repetition: try the rest of the pattern first. *)
Fixpoint star_lazy {A : Type} (p : ascii -> bool) (s : string)
         (k : string -> option A) : option A :=
  match k s with
  | Some x => Some x
  | None =>
      match s with
      | String c s' => if p c then star_lazy p s' k else None
      | EmptyString => None
      end
  end.

(** The backtracking matcher.  [run r s caps k] matches [r] at the front of
    [s], having already closed the groups [caps], and hands the unread text
    and the groups to the continuation [k]; alternatives are tried in the
    order of the [re] module, and the first overall success wins. *)
Fixpoint run {A : Type} (r : regex) (s : string) (caps : list string)
         (k : string -> list string -> option A) {struct r} : option A :=
  match r with
  | Lit l =>
      match strip_prefix l s with
      | Some rest => k rest caps
      | None => None
      end
  | Star p => star_greedy p s (fun rest => k rest caps)
  | StarLazy p => star_lazy p s (fun rest => k rest caps)
  | Plus p =>
      match s with
      | String c s' => if p c then star_greedy p s' (fun rest => k rest caps) else None
      | EmptyString => None
      end
  | Cat r1 r2 => run r1 s caps (fun rest caps' => run r2 rest caps' k)
  | Alt r1 r2 =>
      match run r1 s caps k with
      | Some x => Some x
      | None => run r2 s caps k
      end
  | Group r' =>
      run r' s caps
          (fun rest caps' =>
             k rest (caps' ++ [take (String.length s - String.length rest) s])%list)
  | Ahead r' =>
      match run r' s caps (fun _ caps' => Some caps') with
      | Some caps' => k s caps'
      | None => None
      end
  | Eos => if at_eos s then k s caps else None
  end.

(** A match object: the text before the match, [group(0)], the numbered
    groups, and the text after the match. *)
Record match_obj : Type := MatchObj {
  m_pre : string;
  group0 : string;
  groups : list string;
  m_post : string
}.

(** [m.group(i)] for [i >= 1]. *)
Definition group (m : match_obj) (i : nat) : string :=
  nth (i - 1) (groups m) EmptyString.

(** [re.match]-like attempt at one start position. *)
Definition match_here (r : regex) (pre s : string) : option match_obj :=
  run r s [] (fun rest caps =>
    Some (MatchObj pre (take (String.length s - String.length rest) s) caps rest)).

(** [re.search]: the start positions are tried from left to right. *)
Fixpoint search_from (r : regex) (pre_rev s : string) : option match_obj :=
  match match_here r (rev pre_rev) s with
  | Some m => Some m
  | None =>
      match s with
      | String c s' => search_from r (String c pre_rev) s'
      | EmptyString => None
      end
  end.

Definition search (r : regex) (s : string) : option match_obj :=
  search_from r EmptyString s.

(** Sequence of several pieces. *)
Fixpoint seq (l : list regex) : regex :=
  match l with
  | [] => Lit EmptyString
  | [r] => r
  | r :: l' => Cat r (seq l')
  end.

End Re.

(** ** Exceptions and results *)

Module Py.
Import PyStr.

(** The exceptions the program can meet.  [JSONDecodeError] keeps the
    document and the offset, from which its text is built; [Exception_] is
    any other exception class, raised by the transport or an SDK. *)
Inductive exn : Type :=
| JSONDecodeError (msg doc : string) (pos : nat)
| AttributeError (msg : string)
| TypeError (msg : string)
| KeyError (key_repr : string)
| ValueError (msg : string)
| OverflowError (msg : string)
| ZeroDivisionError (msg : string)
| RecursionError (msg : string)
| HTTPException (status_code : Z) (detail : string)
| Exception_ (cls msg : string).

Inductive result (A : Type) : Type :=
| Ok (a : A)
| Raise (e : exn).
Arguments Ok {A} a.
Arguments Raise {A} e.

Definition bind {A B} (m : result A) (f : A -> result B) : result B :=
  match m with
  | Ok a => f a
  | Raise e => Raise e
  end.

(** [try: body  except Exception as e: handler(e)] *)
Definition try_except {A} (body : result A) (handler : exn -> result A) : result A :=
  match body with
  | Ok a => Ok a
  | Raise e => handler e
  end.

(** [try: body  except SomeError as e: handler(e)] for the exceptions
    selected by [p]; the others propagate. *)
Definition try_when {A} (p : exn -> bool) (body : result A) (handler : exn -> result A)
  : result A :=
  match body with
  | Ok a => Ok a
  | Raise e => if p e then handler e else Raise e
  end.

Definition is_JSONDecodeError (e : exn) : bool :=
  match e with JSONDecodeError _ _ _ => true | _ => false end.

Definition is_HTTPException (e : exn) : bool :=
  match e with HTTPException _ _ => true | _ => false end.

(** ** Numbers *)

(** A Python [float] is an IEEE 754 binary64 number. *)
Definition float : Type := spec_float.
Definition prec : Z := 53.
Definition emax : Z := 1024.

Definition fadd : float -> float -> float := SFadd prec emax.
Definition fmul : float -> float -> float := SFmul prec emax.
Definition fdiv : float -> float -> float := SFdiv prec emax.
Definition fcmp : float -> float -> option comparison := SFcompare.

(** The float nearest to an integer (ties to even); infinite when the
    integer is beyond the range. *)
Definition round_Z (z : Z) : float := binary_normalize prec emax z 0 false.

Definition is_finite (f : float) : bool :=
  match f with
  | S754_zero _ | S754_finite _ _ _ => true
  | _ => false
  end.

(** [float(n)] for an [int]: the conversion raises beyond the range. *)
Definition float_of_int (z : Z) : result float :=
  let f := round_Z z in
  if is_finite f then Ok f
  else Raise (OverflowError "int too large to convert to float").

(** The float nearest to [m * 10^e], the value of a decimal numeral. *)
Definition float_of_decimal (neg : bool) (m : Z) (e : Z) : float :=
  match m with
  | Zpos p =>
      if (0 <=? e)%Z then binary_normalize prec emax (if neg then - (m * 10 ^ e) else m * 10 ^ e)%Z 0 false
      else
        match (10 ^ (- e))%Z with
        | Zpos d =>
            let '(q, e', l) := SFdiv_core_binary prec emax (Zpos p) 0 (Zpos d) 0 in
            binary_round_aux prec emax neg q e' l
        | _ => S754_nan
        end
  | _ => S754_zero neg
  end.

(** The exact value of a run of decimal digits. *)
Fixpoint digits_value_from (acc : Z) (s : string) : Z :=
  match s with
  | EmptyString => acc
  | String c s' => digits_value_from (10 * acc + (Z.of_nat (nat_of_ascii c) - 48))%Z s'
  end.

Definition digits_value (s : string) : Z := digits_value_from 0%Z s.

(** [str(n)] for an [int]: its decimal numeral. *)
Definition str_int (z : Z) : string := NilZero.string_of_int (Z.to_int z).

(** [float(s)] for [s] a non-empty run of decimal digits, as produced by a
    [(\d+)] group. *)
Definition float_of_digits (s : string) : float := round_Z (digits_value s).

(** ** Values *)

(** The Python objects a JSON document decodes to. *)
Inductive pyval : Type :=
| PNone
| PBool (b : bool)
| PInt (z : Z)
| PFloat (f : float)
| PStr (s : string)
| PList (l : list pyval)
| PDict (d : list (string * pyval)).

(** A [dict] keeps its keys in order of first insertion. *)
Fixpoint dict_set (k : string) (v : pyval) (d : list (string * pyval))
  : list (string * pyval) :=
  match d with
  | [] => [(k, v)]
  | (k', v') :: d' =>
      if String.eqb k k' then (k, v) :: d' else (k', v') :: dict_set k v d'
  end.

Fixpoint dict_lookup (k : string) (d : list (string * pyval)) : option pyval :=
  match d with
  | [] => None
  | (k', v) :: d' => if String.eqb k k' then Some v else dict_lookup k d'
  end.

Definition type_name (v : pyval) : string :=
  match v with
  | PNone => "NoneType"
  | PBool _ => "bool"
  | PInt _ => "int"
  | PFloat _ => "float"
  | PStr _ => "str"
  | PList _ => "list"
  | PDict _ => "dict"
  end.

End Py.

(** ** Python's [json.loads] *)

Module Json.
Import PyStr Py.

Local Open Scope char_scope.

(** Outcome of a scanning step: a value, a decoding error at an offset
    (turned into [JSONDecodeError] by [loads]), or another exception. *)
Inductive scan (A : Type) : Type :=
| SOk (a : A)
| SErr (msg : string) (pos : nat)
| SRaise (e : exn).
Arguments SOk {A} a.
Arguments SErr {A} msg pos.
Arguments SRaise {A} e.

Definition sbind {A B} (m : scan A) (f : A -> scan B) : scan B :=
  match m with
  | SOk a => f a
  | SErr msg pos => SErr msg pos
  | SRaise e => SRaise e
  end.

(** White space between tokens: space, TAB, LF, CR. *)
Definition is_ws (c : ascii) : bool :=
  let n := nat_of_ascii c in
  ((n =? 32) || (n =? 9) || (n =? 10) || (n =? 13))%nat.

Fixpoint skip_ws (s : string) (i : nat) : string * nat :=
  match s with
  | String c s' => if is_ws c then skip_ws s' (S i) else (s, i)
  | EmptyString => (s, i)
  end.

Definition hex_val (c : ascii) : option N :=
  let n := N_of_ascii c in
  if ((48 <=? n) && (n <=? 57))%N then Some (n - 48)%N
  else if ((97 <=? n) && (n <=? 102))%N then Some (n - 87)%N
  else if ((65 <=? n) && (n <=? 70))%N then Some (n - 55)%N
  else None.

Definition hex4 (a b c d : ascii) : option N :=
  match hex_val a, hex_val b, hex_val c, hex_val d with
  | Some x, Some y, Some z, Some w => Some (((x * 16 + y) * 16 + z) * 16 + w)%N
  | _, _, _, _ => None
  end.

(** The UTF-8 bytes of a code point. *)
Definition utf8 (cp : N) : string :=
  let b (n : N) := ascii_of_N n in
  if (cp <? 128)%N then String (b cp) EmptyString
  else if (cp <? 2048)%N then
    String (b (192 + cp / 64)%N) (String (b (128 + cp mod 64)%N) EmptyString)
  else if (cp <? 65536)%N then
    String (b (224 + cp / 4096)%N)
      (String (b (128 + (cp / 64) mod 64)%N)
         (String (b (128 + cp mod 64)%N) EmptyString))
  else
    String (b (240 + cp / 262144)%N)
      (String (b (128 + (cp / 4096) mod 64)%N)
         (String (b (128 + (cp / 64) mod 64)%N)
            (String (b (128 + cp mod 64)%N) EmptyString))).

(** What a string literal is made of: a byte copied from the document, or
    the 16-bit unit of a [\uXXXX] escape. *)
Inductive item : Type :=
| Byte (c : ascii)
| Unit16 (n : N).

Definition simple_escape (e : ascii) : option ascii :=
  if Ascii.eqb e (ascii_of_nat 34) then Some (ascii_of_nat 34)
  else if Ascii.eqb e "\" then Some "\"
  else if Ascii.eqb e "/" then Some "/"
  else if Ascii.eqb e "b" then Some (ascii_of_nat 8)
  else if Ascii.eqb e "f" then Some (ascii_of_nat 12)
  else if Ascii.eqb e "n" then Some (ascii_of_nat 10)
  else if Ascii.eqb e "r" then Some (ascii_of_nat 13)
  else if Ascii.eqb e "t" then Some (ascii_of_nat 9)
  else None.

(** [scanstring] in strict mode.  [s] is the text after the opening quote,
    [i] its offset, [start] the offset of the opening quote. *)
Fixpoint scan_str (s : string) (i start : nat) (acc : list item)
  : scan (list item * string * nat) :=
  match s with
  | EmptyString => SErr "Unterminated string starting at" start
  | String c s' =>
      if Ascii.eqb c (ascii_of_nat 34) then SOk (List.rev acc, s', S i)
      else if Ascii.eqb c "\" then
        match s' with
        | EmptyString => SErr "Unterminated string starting at" start
        | String e s'' =>
            if Ascii.eqb e "u" then
              match s'' with
              | String h1 (String h2 (String h3 (String h4 ((String _ _) as r)))) =>
                  match hex4 h1 h2 h3 h4 with
                  | Some n => scan_str r (i + 6) start (Unit16 n :: acc)
                  | None => SErr "Invalid \uXXXX escape" (S i)
                  end
              | _ => SErr "Invalid \uXXXX escape" (S i)
              end
            else
              match simple_escape e with
              | Some x => scan_str s'' (i + 2) start (Byte x :: acc)
              | None => SErr "Invalid \escape" i
              end
        end
      else if (nat_of_ascii c <? 32)%nat then SErr "Invalid control character at" i
      else scan_str s' (S i) start (Byte c :: acc)
  end.

Definition is_high (n : N) : bool := ((55296 <=? n) && (n <=? 56319))%N.
Definition is_low (n : N) : bool := ((56320 <=? n) && (n <=? 57343))%N.

(** The decoded text; a high surrogate escape directly followed by a low
    surrogate escape is one code point. *)
Fixpoint decode_items (l : list item) : string :=
  match l with
  | [] => EmptyString
  | Byte c :: l' => String c (decode_items l')
  | Unit16 hi :: l' =>
      match l' with
      | Unit16 lo :: l'' =>
          if is_high hi && is_low lo
          then (utf8 (65536 + (hi - 55296) * 1024 + (lo - 56320))%N ++ decode_items l'')%string
          else (utf8 hi ++ decode_items l')%string
      | _ => (utf8 hi ++ decode_items l')%string
      end
  end.

Fixpoint span (p : ascii -> bool) (s : string) : string * string :=
  match s with
  | String c s' =>
      if p c then let '(a, b) := span p s' in (String c a, b)
      else (EmptyString, s)
  | EmptyString => (EmptyString, EmptyString)
  end.

(** A number as the scanner splits it: an optional minus sign and an
    integer part without leading zero, an optional point with digits, an
    optional exponent with optional sign and digits. *)
Record numeral : Type := Numeral {
  n_neg : bool;
  n_int : string;
  n_frac : string;                      (* digits after the point, or empty *)
  n_exp : option (bool * string)        (* sign and digits of the exponent *)
}.

Definition match_int_part (s : string) : option (string * string) :=
  match s with
  | String c t =>
      if Ascii.eqb c "0" then Some (String c EmptyString, t)
      else if is_digit c then let '(ds, r) := span is_digit t in Some (String c ds, r)
      else None
  | EmptyString => None
  end.

Definition match_frac (s : string) : string * string :=
  match s with
  | String "." t =>
      let '(ds, r) := span is_digit t in
      match ds with EmptyString => (EmptyString, s) | _ => (ds, r) end
  | _ => (EmptyString, s)
  end.

Definition match_exp (s : string) : option (bool * string) * string :=
  match s with
  | String c t =>
      if Ascii.eqb c "e" || Ascii.eqb c "E" then
        let '(neg, t') :=
          match t with
          | String "+" u => (false, u)
          | String "-" u => (true, u)
          | _ => (false, t)
          end in
        let '(ds, r) := span is_digit t' in
        match ds with EmptyString => (None, s) | _ => (Some (neg, ds), r) end
      else (None, s)
  | EmptyString => (None, s)
  end.

Definition match_number (s : string) : option (numeral * string) :=
  let '(neg, s1) := match s with String "-" t => (true, t) | _ => (false, s) end in
  match match_int_part s1 with
  | None => None
  | Some (ip, r1) =>
      let '(fr, r2) := match_frac r1 in
      let '(ex, r3) := match_exp r2 in
      Some (Numeral neg ip fr ex, r3)
  end.

Definition int_max_str_digits : nat := 4300.

(** The value of a numeral: an [int] when it has neither fraction nor
    exponent (with the interpreter's limit on the number of digits), a
    [float] otherwise. *)
Definition number_value (n : numeral) : scan pyval :=
  match n_frac n, n_exp n with
  | EmptyString, None =>
      if (int_max_str_digits <? String.length (n_int n))%nat then
        SRaise (ValueError
          ("Exceeds the limit (4300 digits) for integer string conversion: value has "
           ++ str_int (Z.of_nat (String.length (n_int n)))
           ++ " digits; use sys.set_int_max_str_digits() to increase the limit"))
      else
        let v := digits_value (n_int n) in
        SOk (PInt (if n_neg n then - v else v)%Z)
  | fr, ex =>
      let e := match ex with
               | Some (neg, ds) => if neg then (- digits_value ds)%Z else digits_value ds
               | None => 0%Z
               end in
      SOk (PFloat (float_of_decimal (n_neg n) (digits_value (n_int n ++ fr))
                     (e - Z.of_nat (String.length fr))%Z))
  end.

(** A keyword at the front of the text. *)
Definition keyword (kw : string) (v : pyval) (s : string) (i : nat)
  : option (pyval * string * nat) :=
  match strip_prefix kw s with
  | Some r => Some (v, r, (i + String.length kw)%nat)
  | None => None
  end.

Definition recursion_error {A} : scan A :=
  SRaise (RecursionError "maximum recursion depth exceeded while decoding a JSON document").

(** The scanner proper.  [scan_once fuel s i] reads one value at the front
    of [s], whose offset in the document is [i]; [elems] reads the items of
    an array after its first bracket and [members] the pairs of an object
    from the quote of a key.  [fuel] bounds the number of nested calls;
    [loads] gives twice the length of the document, which is never used
    up, so the recursion limit of the interpreter, which a document nested
    about a thousand levels deep would hit, is outside the model. *)
Fixpoint scan_once (fuel : nat) (s : string) (i : nat) {struct fuel}
  : scan (pyval * string * nat) :=
  match fuel with
  | O => recursion_error
  | S fuel' =>
      match s with
      | EmptyString => SErr "Expecting value" i
      | String c s' =>
          if Ascii.eqb c (ascii_of_nat 34) then
            sbind (scan_str s' (S i) i [])
                  (fun '(items, r, j) => SOk (PStr (decode_items items), r, j))
          else if Ascii.eqb c "{" then
            let '(s1, i1) := skip_ws s' (S i) in
            match s1 with
            | String "}" r => SOk (PDict [], r, S i1)
            | _ => members fuel' s1 i1 []
            end
          else if Ascii.eqb c "[" then
            let '(s1, i1) := skip_ws s' (S i) in
            match s1 with
            | String "]" r => SOk (PList [], r, S i1)
            | _ => elems fuel' s1 i1 []
            end
          else
            match keyword "null" PNone s i with
            | Some x => SOk x
            | None =>
            match keyword "true" (PBool true) s i with
            | Some x => SOk x
            | None =>
            match keyword "false" (PBool false) s i with
            | Some x => SOk x
            | None =>
            match keyword "NaN" (PFloat S754_nan) s i with
            | Some x => SOk x
            | None =>
            match keyword "Infinity" (PFloat (S754_infinity false)) s i with
            | Some x => SOk x
            | None =>
            match keyword "-Infinity" (PFloat (S754_infinity true)) s i with
            | Some x => SOk x
            | None =>
            match match_number s with
            | Some (n, r) =>
                sbind (number_value n)
                      (fun v => SOk (v, r, (i + (String.length s - String.length r))%nat))
            | None => SErr "Expecting value" i
            end end end end end end end
      end
  end

with elems (fuel : nat) (s : string) (i : nat) (acc : list pyval) {struct fuel}
  : scan (pyval * string * nat) :=
  match fuel with
  | O => recursion_error
  | S fuel' =>
      sbind (scan_once fuel' s i) (fun '(v, r, j) =>
        let '(r1, j1) := skip_ws r j in
        match r1 with
        | String "]" r2 => SOk (PList (acc ++ [v])%list, r2, S j1)
        | String "," r2 =>
            let '(r3, j3) := skip_ws r2 (S j1) in
            elems fuel' r3 j3 (acc ++ [v])%list
        | _ => SErr "Expecting ',' delimiter" j1
        end)
  end

with members (fuel : nat) (s : string) (i : nat) (acc : list (string * pyval))
             {struct fuel} : scan (pyval * string * nat) :=
  match fuel with
  | O => recursion_error
  | S fuel' =>
      match s with
      | String c s' =>
          if Ascii.eqb c (ascii_of_nat 34) then
            sbind (scan_str s' (S i) i []) (fun '(items, r, j) =>
              let key := decode_items items in
              let '(r1, j1) := skip_ws r j in
              match r1 with
              | String ":" r2 =>
                  let '(r3, j3) := skip_ws r2 (S j1) in
                  sbind (scan_once fuel' r3 j3) (fun '(v, r4, j4) =>
                    let '(r5, j5) := skip_ws r4 j4 in
                    match r5 with
                    | String "}" r6 => SOk (PDict (dict_set key v acc), r6, S j5)
                    | String "," r6 =>
                        let '(r7, j7) := skip_ws r6 (S j5) in
                        members fuel' r7 j7 (dict_set key v acc)
                    | _ => SErr "Expecting ',' delimiter" j5
                    end)
              | _ => SErr "Expecting ':' delimiter" j1
              end)
          else SErr "Expecting property name enclosed in double quotes" i
      | EmptyString => SErr "Expecting property name enclosed in double quotes" i
      end
  end.

(** The byte order mark U+FEFF in UTF-8. *)
Definition bom : string :=
  String (ascii_of_nat 239) (String (ascii_of_nat 187) (String (ascii_of_nat 191) EmptyString)).

(** [json.loads(doc)] for a [str] document. *)
Definition loads (doc : string) : result pyval :=
  if startswith doc bom then
    Raise (JSONDecodeError "Unexpected UTF-8 BOM (decode using utf-8-sig)" doc 0)
  else
    let '(s0, i0) := skip_ws doc 0 in
    match scan_once (2 * String.length doc + 2) s0 i0 with
    | SOk (v, r, j) =>
        let '(r1, j1) := skip_ws r j in
        match r1 with
        | EmptyString => Ok v
        | _ => Raise (JSONDecodeError "Extra data" doc j1)
        end
    | SErr msg pos => Raise (JSONDecodeError msg doc pos)
    | SRaise e => Raise e
    end.

End Json.

(** ** Text of numbers: [repr] of a float, [round(x, 1)], [float(str)] *)

Module PyNum.
Import PyStr Py.

Local Open Scope Z_scope.

(** A positive rational [num / den]. *)
Definition ratio : Type := (Z * Z)%type.

Definition ratio_of (m : positive) (e : Z) : ratio :=
  if 0 <=? e then (Zpos m * 2 ^ e, 1) else (Zpos m, 2 ^ (- e)).

(** [x * 10^(-k)] *)
Definition scale10 (x : ratio) (k : Z) : ratio :=
  let '(n, d) := x in
  if 0 <=? k then (n, d * 10 ^ k) else (n * 10 ^ (- k), d).

(** [1 <= x] *)
Definition ge_one (x : ratio) : bool := let '(n, d) := x in d <=? n.

(** The largest [k] with [10^k <= x], searched upwards from a lower
    estimate obtained from the binary sizes. *)
Fixpoint log10_up (fuel : nat) (x : ratio) (k : Z) : Z :=
  match fuel with
  | O => k
  | S fuel' => if ge_one (scale10 x (k + 1)) then log10_up fuel' x (k + 1) else k
  end.

Definition floor_log10 (x : ratio) : Z :=
  let '(n, d) := x in
  let l := Z.log2 n - Z.log2 d - 1 in
  let k0 := (l * 30102) / 100000 - 1 in
  log10_up 8 x k0.

Definition same_float (f g : float) : bool :=
  match f, g with
  | S754_finite s m e, S754_finite s' m' e' => Bool.eqb s s' && Pos.eqb m m' && Z.eqb e e'
  | S754_zero s, S754_zero s' => Bool.eqb s s'
  | S754_infinity s, S754_infinity s' => Bool.eqb s s'
  | S754_nan, S754_nan => true
  | _, _ => false
  end.

(** The decimal with [n] significant digits nearest to [x] on each side:
    [(near, far, k)], for the candidates [near * 10^k] and [far * 10^k]. *)
Definition candidates (x : ratio) (fl : Z) (n : Z) : Z * Z * Z :=
  let k := fl - (n - 1) in
  let '(a, b) := scale10 x k in
  let lo := a / b in
  let r := a mod b in
  if r =? 0 then (lo, lo, k)
  else
    match (2 * r ?= b) with
    | Lt => (lo, lo + 1, k)
    | Gt => (lo + 1, lo, k)
    | Eq => if Z.even lo then (lo, lo + 1, k) else (lo + 1, lo, k)
    end.

(** The shortest decimal that reads back as the float [m * 2^e]: the
    digits are tried by increasing length, 17 always being enough. *)
Fixpoint shortest_from (fuel : nat) (n : Z) (x : ratio) (fl : Z) (target : float)
  : Z * Z :=
  let '(near, far, k) := candidates x fl n in
  match fuel with
  | O => (near, k)
  | S fuel' =>
      if same_float (float_of_decimal false near k) target then (near, k)
      else if same_float (float_of_decimal false far k) target then (far, k)
      else shortest_from fuel' (n + 1) x fl target
  end.

Fixpoint strip_zeros (fuel : nat) (d k : Z) : Z * Z :=
  match fuel with
  | O => (d, k)
  | S fuel' => if (d mod 10 =? 0) && negb (d =? 0) then strip_zeros fuel' (d / 10) (k + 1) else (d, k)
  end.

(** Digits and position of the decimal point: the float is
    [0.DIGITS * 10^decpt]. *)
Definition shortest_digits (m : positive) (e : Z) : string * Z :=
  let x := ratio_of m e in
  let fl := floor_log10 x in
  let '(d, k) := shortest_from 16 1 x fl (S754_finite false m e) in
  let '(d', k') := strip_zeros 18 d k in
  let ds := str_int d' in
  (ds, Z.of_nat (String.length ds) + k').

Fixpoint zeros (n : nat) : string :=
  match n with
  | O => EmptyString
  | S n' => String "0" (zeros n')
  end.

(** [repr(x)] for a finite non-zero magnitude, in the interpreter's short
    style: positional when the point falls within [-4 < decpt <= 16]. *)
Definition repr_finite (m : positive) (e : Z) : string :=
  let '(ds, decpt) := shortest_digits m e in
  let nd := Z.of_nat (String.length ds) in
  if (decpt <=? -4) || (16 <? decpt) then
    let ex := decpt - 1 in
    let mant := match ds with
                | String c EmptyString => String c EmptyString
                | String c rest => (String c (String "." rest))
                | EmptyString => EmptyString
                end in
    let es := str_int (Z.abs ex) in
    let sign : string := if ex <? 0 then "-" else "+" in
    let pad : string := if Z.abs ex <? 10 then "0" else "" in
    (mant ++ "e" ++ sign ++ pad ++ es)%string
  else if decpt <=? 0 then
    ("0." ++ zeros (Z.to_nat (- decpt)) ++ ds)%string
  else if nd <=? decpt then
    (ds ++ zeros (Z.to_nat (decpt - nd)) ++ ".0")%string
  else
    (take (Z.to_nat decpt) ds ++ "." ++ drop (Z.to_nat decpt) ds)%string.

(** [repr(x)], which is also [str(x)], for a float. *)
Definition repr_float (f : float) : string :=
  match f with
  | S754_nan => "nan"
  | S754_infinity s => if s then "-inf" else "inf"
  | S754_zero s => if s then "-0.0" else "0.0"
  | S754_finite s m e =>
      let sign : string := if s then "-" else "" in
      (sign ++ repr_finite m e)%string
  end.

(** [round(x, 1)] for a float: the float nearest to the one-decimal
    numeral nearest to [x], ties to the even digit. *)
Definition round1 (f : float) : float :=
  match f with
  | S754_finite s m e =>
      let '(a, b) := scale10 (ratio_of m e) (-1) in
      let lo := a / b in
      let r := a mod b in
      let d := match (2 * r ?= b) with
               | Lt => lo
               | Gt => lo + 1
               | Eq => if Z.even lo then lo else lo + 1
               end in
      float_of_decimal s d (-1)
  | _ => f
  end.

(** [a / b] for two [int]s: the float nearest to the exact quotient. *)
Definition int_truediv (a b : Z) : result float :=
  match a, b with
  | _, Z0 => Raise (ZeroDivisionError "division by zero")
  | Z0, _ => Ok (S754_zero (b <? 0))
  | _, _ =>
      let s := xorb (a <? 0) (b <? 0) in
      let '(q, e', l) := SFdiv_core_binary prec emax (Z.abs a) 0 (Z.abs b) 0 in
      let f := binary_round_aux prec emax s q e' l in
      if is_finite f then Ok f
      else Raise (OverflowError "integer division result too large for a float")
  end.

End PyNum.

(** ** Operations on Python objects *)

Module PyOps.
Import PyStr Py PyNum.

(** A [bool] is an [int] in arithmetic and comparisons. *)
Inductive num : Type :=
| NInt (z : Z)
| NFloat (f : float).

Definition as_num (v : pyval) : option num :=
  match v with
  | PBool b => Some (NInt (if b then 1 else 0)%Z)
  | PInt z => Some (NInt z)
  | PFloat f => Some (NFloat f)
  | _ => None
  end.

Definition num_to_float (n : num) : result float :=
  match n with
  | NInt z => float_of_int z
  | NFloat f => Ok f
  end.

Definition sq : string := "'".

Definition hex_digit (n : nat) : ascii :=
  if (n <? 10)%nat then ascii_of_nat (48 + n) else ascii_of_nat (87 + n).

Definition hex2 (n : nat) : string :=
  String (hex_digit (n / 16)) (String (hex_digit (n mod 16)) EmptyString).

Fixpoint repr_str_body (quote : ascii) (s : string) : string :=
  match s with
  | EmptyString => EmptyString
  | String c s' =>
      let n := nat_of_ascii c in
      let piece : string :=
        if Ascii.eqb c quote || Ascii.eqb c "\"%char then String "\"%char (String c EmptyString)
        else if (n =? 10)%nat then "\n"
        else if (n =? 13)%nat then "\r"
        else if (n =? 9)%nat then "\t"
        else if ((n <? 32) || (n =? 127))%nat then "\x" ++ hex2 n
        else String c EmptyString in
      piece ++ repr_str_body quote s'
  end.

(** [repr(s)] for a [str]: single quotes, unless the text has a single
    quote and no double quote. *)
Definition repr_str (s : string) : string :=
  let quote : ascii :=
    if contains s sq && negb (contains s dq) then ascii_of_nat 34 else "'"%char in
  String quote (repr_str_body quote s ++ String quote EmptyString).

Fixpoint join (sep : string) (l : list string) : string :=
  match l with
  | [] => EmptyString
  | [x] => x
  | x :: l' => x ++ sep ++ join sep l'
  end.

(** [repr(v)] *)
Fixpoint py_repr (v : pyval) : string :=
  match v with
  | PNone => "None"
  | PBool b => if b then "True" else "False"
  | PInt z => str_int z
  | PFloat f => repr_float f
  | PStr s => repr_str s
  | PList l => "[" ++ join ", " (List.map py_repr l) ++ "]"
  | PDict d =>
      "{" ++ join ", " (List.map (fun kv => repr_str (fst kv) ++ ": " ++ py_repr (snd kv)) d)
          ++ "}"
  end.

(** [str(v)], which is what an f-string puts for the field [{v}]. *)
Definition py_str (v : pyval) : string :=
  match v with
  | PStr s => s
  | _ => py_repr v
  end.

Definition not_iterable {A} (v : pyval) : result A :=
  Raise (TypeError ("argument of type " ++ sq ++ type_name v ++ sq ++ " is not iterable")).

Definition no_attribute {A} (v : pyval) (attr : string) : result A :=
  Raise (AttributeError
    (sq ++ type_name v ++ sq ++ " object has no attribute " ++ sq ++ attr ++ sq)).

(** Structural equality of objects, with [1 == 1.0 == True]. *)
Definition num_eqb (a b : num) : bool :=
  match a, b with
  | NInt x, NInt y => Z.eqb x y
  | NFloat f, NFloat g => SFeqb f g
  | NInt x, NFloat f | NFloat f, NInt x =>
      (* an int equals a float when the float is that integer exactly *)
      match f with
      | S754_zero _ => Z.eqb x 0
      | S754_finite s m e =>
          let '(n, d) := ratio_of m e in
          Z.eqb (x * d) (if s then - n else n)
      | _ => false
      end
  end.

Fixpoint py_eqb (a b : pyval) {struct a} : bool :=
  match as_num a, as_num b with
  | Some x, Some y => num_eqb x y
  | _, _ =>
      match a, b with
      | PNone, PNone => true
      | PStr s, PStr t => String.eqb s t
      | PList l, PList l' =>
          (fix all2 (l l' : list pyval) {struct l} : bool :=
             match l, l' with
             | [], [] => true
             | x :: r, y :: r' => py_eqb x y && all2 r r'
             | _, _ => false
             end) l l'
      | PDict d, PDict d' =>
          (List.length d =? List.length d')%nat &&
          (fix all (d : list (string * pyval)) {struct d} : bool :=
             match d with
             | [] => true
             | (k, v) :: r =>
                 match dict_lookup k d' with
                 | Some v' => py_eqb v v' && all r
                 | None => false
                 end
             end) d
      | _, _ => false
      end
  end.

(** [key in obj] for a [str] key. *)
Definition py_contains (key : string) (obj : pyval) : result bool :=
  match obj with
  | PDict d => Ok (match dict_lookup key d with Some _ => true | None => false end)
  | PList l => Ok (existsb (fun x => py_eqb x (PStr key)) l)
  | PStr s => Ok (contains s key)
  | _ => not_iterable obj
  end.

(** [obj[key]] for a [str] key. *)
Definition py_getitem (obj : pyval) (key : string) : result pyval :=
  match obj with
  | PDict d =>
      match dict_lookup key d with
      | Some v => Ok v
      | None => Raise (KeyError (repr_str key))
      end
  | PList _ => Raise (TypeError "list indices must be integers or slices, not str")
  | PStr _ => Raise (TypeError "string indices must be integers, not 'str'")
  | _ => Raise (TypeError (sq ++ type_name obj ++ sq ++ " object is not subscriptable"))
  end.

(** [obj[0]] *)
Definition py_getitem0 (obj : pyval) : result pyval :=
  match obj with
  | PList (x :: _) => Ok x
  | PList [] => Raise (Exception_ "IndexError" "list index out of range")
  | PStr (String c _) => Ok (PStr (String c EmptyString))
  | PStr EmptyString => Raise (Exception_ "IndexError" "string index out of range")
  | PDict d => Raise (Exception_ "KeyError" "0")
  | _ => Raise (TypeError (sq ++ type_name obj ++ sq ++ " object is not subscriptable"))
  end.

(** [obj.get(key, default)] *)
Definition py_get (obj : pyval) (key : string) (default : pyval) : result pyval :=
  match obj with
  | PDict d =>
      match dict_lookup key d with
      | Some v => Ok v
      | None => Ok default
      end
  | _ => no_attribute obj "get"
  end.

Definition unsupported {A} (op : string) (a b : pyval) : result A :=
  Raise (TypeError ("unsupported operand type(s) for " ++ op ++ ": " ++ sq ++ type_name a
                    ++ sq ++ " and " ++ sq ++ type_name b ++ sq)).

(** [a + b] *)
Definition py_add (a b : pyval) : result pyval :=
  match as_num a, as_num b with
  | Some (NInt x), Some (NInt y) => Ok (PInt (x + y))
  | Some x, Some y =>
      bind (num_to_float x) (fun fx =>
      bind (num_to_float y) (fun fy => Ok (PFloat (fadd fx fy))))
  | _, _ =>
      match a, b with
      | PStr x, PStr y => Ok (PStr (x ++ y))
      | PList x, PList y => Ok (PList (x ++ y)%list)
      | PStr _, _ | PList _, _ =>
          Raise (TypeError ("can only concatenate " ++ type_name a ++ " (not " ++ dq
                            ++ type_name b ++ dq ++ ") to " ++ type_name a))
      | _, _ => unsupported "+" a b
      end
  end.

(** [a * b] and [a / b] on numbers, as the percentage needs them. *)
Definition py_mul_num (a b : pyval) : result pyval :=
  match as_num a, as_num b with
  | Some (NInt x), Some (NInt y) => Ok (PInt (x * y))
  | Some x, Some y =>
      bind (num_to_float x) (fun fx =>
      bind (num_to_float y) (fun fy => Ok (PFloat (fmul fx fy))))
  | _, _ => unsupported "*" a b
  end.

Definition is_zero (f : float) : bool :=
  match f with S754_zero _ => true | _ => false end.

Definition py_truediv (a b : pyval) : result pyval :=
  match as_num a, as_num b with
  | Some (NInt x), Some (NInt y) => bind (int_truediv x y) (fun f => Ok (PFloat f))
  | Some x, Some y =>
      bind (num_to_float x) (fun fx =>
      bind (num_to_float y) (fun fy =>
        if is_zero fy then Raise (ZeroDivisionError "float division by zero")
        else Ok (PFloat (fdiv fx fy))))
  | _, _ => unsupported "/" a b
  end.

(** [v == 0] *)
Definition py_eq_zero (v : pyval) : bool := py_eqb v (PInt 0).

(** [v > 0] *)
Definition py_gt_zero (v : pyval) : result bool :=
  match as_num v with
  | Some (NInt z) => Ok (0 <? z)%Z
  | Some (NFloat f) => Ok (SFltb (S754_zero false) f)
  | None =>
      Raise (TypeError ("'>' not supported between instances of " ++ sq ++ type_name v
                        ++ sq ++ " and 'int'"))
  end.

(** [round(v, 1)] *)
Definition py_round1 (v : pyval) : result pyval :=
  match v with
  | PFloat f => Ok (PFloat (round1 f))
  | PInt z => Ok (PInt z)
  | PBool b => Ok (PInt (if b then 1 else 0)%Z)
  | _ => Raise (TypeError ("type " ++ type_name v ++ " doesn't define __round__ method"))
  end.

(** Truth value: [bool(v)]. *)
Definition truthy (v : pyval) : bool :=
  match v with
  | PNone => false
  | PBool b => b
  | PInt z => negb (Z.eqb z 0)
  | PFloat f => negb (is_zero f)
  | PStr s => negb (String.eqb s EmptyString)
  | PList l => match l with [] => false | _ => true end
  | PDict d => match d with [] => false | _ => true end
  end.

(** A run of digits in which single underscores may separate digits, as
    [float] and [int] accept it; the digits are returned without them. *)
Fixpoint digitpart (s : string) : string * string :=
  match s with
  | String c s' =>
      if is_digit c then
        match s' with
        | String u ((String d _) as t) =>
            if Ascii.eqb u "_"%char && is_digit d then
              let '(ds, r) := digitpart t in (String c ds, r)
            else
              let '(ds, r) := digitpart s' in (String c ds, r)
        | _ => let '(ds, r) := digitpart s' in (String c ds, r)
        end
      else (EmptyString, s)
  | EmptyString => (EmptyString, s)
  end.

(** [float(s)] for a [str]: surrounding white space, a sign, then [inf],
    [infinity], [nan] in any case, or a decimal numeral with optional
    fraction and exponent. *)
Definition float_of_str (s : string) : option float :=
  let t := lower (strip_by is_c_space s) in
  let '(neg, t1) :=
    match t with
    | String "-" r => (true, r)
    | String "+" r => (false, r)
    | _ => (false, t)
    end in
  if String.eqb t1 "inf" || String.eqb t1 "infinity" then Some (S754_infinity neg)
  else if String.eqb t1 "nan" then Some S754_nan
  else
    let '(ip, r1) := digitpart t1 in
    let '(fp, r2) :=
      match r1 with
      | String "." r => digitpart r
      | _ => (EmptyString, r1)
      end in
    let dot_ok :=
      match r1 with
      | String "." r =>
          (* a point needs digits on one side at least *)
          negb (String.eqb ip EmptyString && String.eqb fp EmptyString)
      | _ => negb (String.eqb ip EmptyString)
      end in
    let '(ex, r3) :=
      match r2 with
      | String "e" r =>
          let '(eneg, r') :=
            match r with
            | String "-" u => (true, u)
            | String "+" u => (false, u)
            | _ => (false, r)
            end in
          let '(ds, r'') := digitpart r' in
          match ds with
          | EmptyString => (None, r2)
          | _ => (Some (if eneg then (- digits_value ds)%Z else digits_value ds), r'')
          end
      | _ => (Some 0%Z, r2)
      end in
    match ex, r3 with
    | Some e, EmptyString =>
        if dot_ok then
          Some (float_of_decimal neg (digits_value (ip ++ fp))
                  (e - Z.of_nat (String.length fp))%Z)
        else None
    | _, _ => None
    end.

(** [float(v)] *)
Definition py_float (v : pyval) : result float :=
  match v with
  | PBool b => Ok (round_Z (if b then 1 else 0)%Z)
  | PInt z => float_of_int z
  | PFloat f => Ok f
  | PStr s =>
      match float_of_str s with
      | Some f => Ok f
      | None => Raise (ValueError ("could not convert string to float: " ++ repr_str s))
      end
  | _ =>
      Raise (TypeError ("float() argument must be a string or a real number, not "
                        ++ sq ++ type_name v ++ sq))
  end.

(** ** [json.dumps] with the default options *)

Fixpoint hex_of (digits : nat) (n : nat) : string :=
  match digits with
  | O => EmptyString
  | S d => hex_of d (n / 16) ++ String (hex_digit (n mod 16)) EmptyString
  end.

Definition u_escape (cp : nat) : string := "\u" ++ hex_of 4 cp.

(** The escape of a code point outside printable ASCII. *)
Definition escape_cp (cp : nat) : string :=
  if (cp <? 65536)%nat then u_escape cp
  else
    let v := (cp - 65536)%nat in
    u_escape (55296 + v / 1024) ++ u_escape (56320 + v mod 1024).

Definition is_cont (c : ascii) : bool :=
  let n := nat_of_ascii c in ((128 <=? n) && (n <? 192))%nat.

Definition cont_bits (c : ascii) : nat := (nat_of_ascii c - 128)%nat.

(** The body of a JSON string with [ensure_ascii]. *)
Fixpoint escape_ascii (s : string) : string :=
  match s with
  | EmptyString => EmptyString
  | String c s' =>
      let n := nat_of_ascii c in
      if (n <? 128)%nat then
        let piece : string :=
          if (n =? 34)%nat then String "\"%char dq
          else if (n =? 92)%nat then "\\"
          else if (n =? 10)%nat then "\n"
          else if (n =? 13)%nat then "\r"
          else if (n =? 9)%nat then "\t"
          else if (n =? 8)%nat then "\b"
          else if (n =? 12)%nat then "\f"
          else if ((n <? 32) || (n =? 127))%nat then u_escape n
          else String c EmptyString in
        piece ++ escape_ascii s'
      else
        match s' with
        | String c1 s1 =>
            if ((192 <=? n) && (n <? 224))%nat && is_cont c1 then
              escape_cp ((n - 192) * 64 + cont_bits c1) ++ escape_ascii s1
            else
              match s1 with
              | String c2 s2 =>
                  if ((224 <=? n) && (n <? 240))%nat && is_cont c1 && is_cont c2 then
                    escape_cp ((n - 224) * 4096 + cont_bits c1 * 64 + cont_bits c2)
                      ++ escape_ascii s2
                  else
                    match s2 with
                    | String c3 s3 =>
                        if ((240 <=? n) && (n <? 248))%nat
                           && is_cont c1 && is_cont c2 && is_cont c3 then
                          escape_cp ((n - 240) * 262144 + cont_bits c1 * 4096
                                     + cont_bits c2 * 64 + cont_bits c3)
                            ++ escape_ascii s3
                        else u_escape n ++ escape_ascii s'
                    | EmptyString => u_escape n ++ escape_ascii s'
                    end
              | EmptyString => u_escape n ++ escape_ascii s'
              end
        | EmptyString => u_escape n
        end
  end.

Definition dumps_str (s : string) : string := dq ++ escape_ascii s ++ dq.

Definition dumps_float (f : float) : string :=
  match f with
  | S754_nan => "NaN"
  | S754_infinity s => if s then "-Infinity" else "Infinity"
  | _ => repr_float f
  end.

(** [json.dumps(v)] *)
Fixpoint dumps (v : pyval) : string :=
  match v with
  | PNone => "null"
  | PBool b => if b then "true" else "false"
  | PInt z => str_int z
  | PFloat f => dumps_float f
  | PStr s => dumps_str s
  | PList l => "[" ++ join ", " (List.map dumps l) ++ "]"
  | PDict d =>
      "{" ++ join ", " (List.map (fun kv => dumps_str (fst kv) ++ ": " ++ dumps (snd kv)) d)
          ++ "}"
  end.

(** ** [base64.b64encode] *)

Definition b64_char (n : nat) : ascii :=
  if (n <? 26)%nat then ascii_of_nat (65 + n)
  else if (n <? 52)%nat then ascii_of_nat (97 + (n - 26))
  else if (n <? 62)%nat then ascii_of_nat (48 + (n - 52))
  else if (n =? 62)%nat then "+"%char
  else "/"%char.

Fixpoint b64encode (s : string) : string :=
  match s with
  | EmptyString => EmptyString
  | String a EmptyString =>
      let x := nat_of_ascii a in
      String (b64_char (x / 4)) (String (b64_char ((x mod 4) * 16)) "==")
  | String a (String b EmptyString) =>
      let x := nat_of_ascii a in
      let y := nat_of_ascii b in
      String (b64_char (x / 4))
        (String (b64_char ((x mod 4) * 16 + y / 16))
           (String (b64_char ((y mod 16) * 4)) "="))
  | String a (String b (String c s')) =>
      let x := nat_of_ascii a in
      let y := nat_of_ascii b in
      let z := nat_of_ascii c in
      String (b64_char (x / 4))
        (String (b64_char ((x mod 4) * 16 + y / 16))
           (String (b64_char ((y mod 16) * 4 + z / 64))
              (String (b64_char (z mod 64)) (b64encode s'))))
  end.

End PyOps.

(** ** The fixed text of the prompts and of the rendered pages *)

(** Each constant is one literal piece of an f-string of the source, in
    order; the fields between the pieces are filled in by the functions
    that use them. *)

Module RouterText.
Import PyStr.

Definition classification_prompt_1 : string :=
  "####
You are an expert classifier for AP (Advanced Placement) Free Response Questions (FRQs). Your task is to determine the specific AP course that this FRQ belongs to based on the provided course title and the FRQ question content.

The provided course title is:
<course_title>
".

Definition classification_prompt_2 : string :=
  "
</course_title>

The FRQ question is:
<question>
".

Definition classification_prompt_3 : string :=
  "
</question>

Instructions:
1. First, examine the provided course title. If it clearly matches one of the acceptable AP course names listed below, use that as your classification.
2. If the course title is unclear, vague, or missing, analyze the FRQ question content to determine which AP course it most likely belongs to.
3. Consider the vocabulary, concepts, task verbs, and subject matter in the FRQ question.
4. Output your classification in the specified JSON format.

Acceptable AP course names:
- AP United States History
- AP World History
- AP Human Geography
- AP United States Government
- AP Microeconomics
- AP Environmental Science
- AP Biology
- AP Chemistry
- AP Physics
- AP Literature
- AP Language

Your response must be in the following JSON format and nothing else:
{
  " ++ dq ++ "course_of_the_frq" ++ dq ++ ": " ++ dq ++ "[The exact AP course name from the list above]" ++ dq ++ "
}
".

Definition claude_prompt_1 : string :=
  "####
You are an expert evaluator for AP Environmental Science Free Response Questions (FRQs). Your task is to evaluate a student's response to an AP Environmental Science FRQ based on a question-specific rubric. You must be very strict in your scoring, awarding points only when the student's response closely matches the rubric criteria.
Here is the AP Environmental Science FRQ question:
<question>
".

Definition claude_prompt_2 : string :=
  "
</question>
Associated image or diagram (if provided):
<image>
".

Definition claude_prompt_3 : string :=
  "
</image>
Here is the question-specific scoring rubric:
<rubric>
".

Definition claude_prompt_4 : string :=
  "
</rubric>
Here is the student's response:
<response>
".

Definition claude_prompt_5 : string :=
  "
</response>
Instructions:
1. Carefully read the question, rubric, and student response.
2. Conduct a detailed analysis of the response. Wrap your detailed analysis inside <response_breakdown> tags. In your analysis:
a. Identify and list all task verbs from the question, numbering them.
b. Break down the rubric into individual criteria.
c. For each rubric criterion:
- Quote the exact wording from the rubric.
- Paraphrase the criterion in simpler terms.
- Consider and list alternative phrasings or synonyms that could be accepted.
- Quote relevant parts of the student's response.
- Analyze how well the student's response meets the criterion.
- Explicitly state whether the criterion is met or not met, and why.
-No partial credit. Only the first response is considered if multiple answers are given.
- Provide a preliminary point estimate for the criterion.
- Note points earned or missed.
d. Note strengths and weaknesses of the response.
e. Perform any necessary calculations or data interpretations.
3. After your analysis, provide your evaluation using the following structure:
<evaluation>
<task_verb_analysis>
[Explain how well the response aligns with each identified task verb.]
</task_verb_analysis>
<earned_points_breakdown>
[Provide a detailed justification for each point earned, ensuring strict alignment with the rubric.]
</earned_points_breakdown>
<missed_points_explanation>
[Identify which parts did not earn points and provide specific reasons, referencing the rubric.]
</missed_points_explanation>
<improvement_suggestions>
[Provide clear, constructive feedback on how to improve the response to better match the rubric criteria.]
</improvement_suggestions>
<score_estimate>
[Provide an AP-style score estimate based on the rubric.]
</score_estimate>
</evaluation>
Remember to be extremely thorough and critical in your evaluation. Only award points when the student's response very closely matches the rubric criteria or uses appropriate synonyms that convey the same meaning. Ensure that your assessment is fair, consistent, and aligns strictly with AP's expectations for depth, accuracy, and scientific reasoning.
".

Definition openai_prompt_1 : string :=
  "####
Task: Generate structured FRQ feedback for an AP Environmental Science response based on the evaluation data provided.

{Evaluation data}
".

Definition openai_prompt_2 : string :=
  "

Instructions:
Maintain the exact structure below, including headings, sections, and formatting.
Use the earned points breakdown and missed points explanation to populate the " ++ dq ++ "What You Did Well" ++ dq ++ " and " ++ dq ++ "How to Improve" ++ dq ++ " sections.
The final score should match the calculated earned points.
Ensure the feedback does not give away the correct answer.
Ensure feedback is detailed, actionable, and aligned with AP Science reasoning standards.
Use a motivational and constructive tone while pointing out errors.
You have to use the provided template and not a word outside of the template.
<template>
Final Score: [Earned Points]/[Total Points]
AP Score Estimate: [Estimated AP Score]
(Your score suggests an overall AP score in the [1-5] range.)

⭐ To pass (score 3+), aim for 50% or higher on FRQs.
⭐ For a 4-5 (college credit level), target 70%+ per FRQ.

✅ What You Did Well ([Earned Points]/[Total Points])
📝 Correct Answers: [List of correct parts]
✔ [Key Strength #1]: [Brief positive feedback based on earned points]
✔ [Key Strength #2]: [Another strong point highlighting a well-done aspect]
✔ [Key Strength #3]: [Additional positive element]

⚠️ How to Improve ([Missed Points]/[Total Points])
🔹 Missed Parts:
[a-ii], b-i]...: ❌ 

🔹 (a-ii) [Missed Concept]
You answered " ++ dq ++ "[Student Response]" ++ dq ++ ", but it should reflect " ++ dq ++ "[Correct Concept]" ++ dq ++ ".
💡 Think Like a Scientist: [Guiding question for reconsideration].
📝 Tip: [Strategy to avoid this mistake in the future].

🔹 (b-i) [Missed Concept]
Your explanation of [Concept] was [issue: vague/incomplete/inaccurate].
✅ Next Steps: Focus on [specific improvement area] using [scientific reasoning/framework].

🔹 Next Steps to Improve Your FRQ Score

📌 Double-check numerical data before submitting answers to ensure accuracy.
📌 Use specific scientific terminology—avoid vague descriptions and provide precise characteristics.
📌 Practice structuring explanations using reasoning prompts: " ++ dq ++ "Because ____, this leads to ____." ++ dq ++ "
📌 Review key science concepts related to [list of key concepts based on errors] before attempting similar FRQs.
📌 Try rewriting sections (A), (B), and (C) using the strategies above and compare your answers—where do you see improvement

🚀 Keep practicing! Your reasoning skills are improving, and your score will too! 🎉
</template>
You have to customize the template based on the question, rubric and the answer. You have to follow these steps to customize the template.
📌 How to Customize This Template:
Adjust [Earned Points], [Missed Points], [Total Points] based on the evaluation.
Scale 6-point FRQs to a 10-point AP Score Estimate (e.g., 4/6 → 7/10).
Ensure each part is tagged (e.g., a-i, b-ii) to clarify correct/missed responses.
Tailor " ++ dq ++ "Next Steps" ++ dq ++ " and " ++ dq ++ " Next Steps to Improve Your FRQ Score" ++ dq ++ "  based on actual mistakes, not generic advice.
You have to use the provided template and not a word outside of the template.
".

Definition env_html_1 : string :=
  "
    <style>
    /* Global styles */
    .ap-grader-container {
        font-family: 'Inter', 'Segoe UI', Tahoma, Geneva, Verdana, sans-serif;
        max-width: 1200px;
        margin: 0 auto;
        padding: 20px;
        background: linear-gradient(135deg, #faf8f5 0%, #fff9f5 100%);
        border-radius: 12px;
        box-shadow: 0 4px 6px rgba(0, 0, 0, 0.1);
    }
    
    /* Header style */
    .ap-header {
        background: linear-gradient(135deg, #FFE5E5 0%, #FFF0F0 100%);
        border-radius: 8px;
        padding: 20px;
        margin-bottom: 20px;
        text-align: center;
        box-shadow: 0 2px 4px rgba(0, 0, 0, 0.05);
    }
    
    .ap-title {
        font-size: 28px;
        font-weight: 700;
        margin: 0;
        color: #2D3748;
        background: linear-gradient(120deg, #FF9A9E 0%, #FAD0C4 50%, #FFD1FF 100%);
        -webkit-background-clip: text;
        -webkit-text-fill-color: transparent;
    }
    
    .ap-score {
        display: flex;
        justify-content: space-around;
        margin-top: 25px;
    }
    
    .ap-score-item {
        text-align: center;
    }
    
    .ap-score-label {
        font-size: 16px;
        color: #4A5568;
        margin-bottom: 8px;
    }
    
    .ap-score-value {
        font-size: 24px;
        font-weight: 700;
        color: #2D3748;
    }
    
    /* Card style */
    .ap-card {
        background: #fff;
        border-radius: 8px;
        margin-bottom: 20px;
        padding: 20px;
        box-shadow: 0 2px 4px rgba(0, 0, 0, 0.05);
        transition: transform 0.3s ease;
    }
    
    .ap-card:hover {
        transform: translateY(-3px);
        box-shadow: 0 4px 8px rgba(0, 0, 0, 0.1);
    }
    
    .ap-card-title {
        font-size: 20px;
        font-weight: 600;
        margin-top: 0;
        margin-bottom: 15px;
        color: #2D3748;
        padding-bottom: 10px;
        border-bottom: 2px solid rgba(255, 154, 158, 0.3);
    }
    
    .ap-content {
        color: #4A5568;
        line-height: 1.6;
    }
    
    /* Tab styles */
    .ap-tabs {
        display: flex;
        margin-bottom: 20px;
    }
    
    .ap-tab {
        padding: 10px 20px;
        cursor: pointer;
        border-bottom: 2px solid #ddd;
        flex: 1;
        text-align: center;
        transition: all 0.3s ease;
    }
    
    .ap-tab.active {
        border-bottom: 2px solid #FF9A9E;
        color: #FF9A9E;
        font-weight: 500;
    }
    
    .ap-tab-content {
        padding: 20px 0;
    }
    
    /* Highlights */
    .ap-highlight {
        background: rgba(255, 229, 100, 0.2);
        padding: 2px 4px;
        border-radius: 4px;
    }
    
    /* Icons and badges */
    .ap-icon {
        vertical-align: middle;
        margin-right: 6px;
    }
    
    .ap-badge {
        display: inline-block;
        padding: 3px 8px;
        border-radius: 12px;
        font-size: 14px;
        font-weight: 500;
        margin-right: 8px;
    }
    
    .ap-badge-success {
        background: rgba(72, 187, 120, 0.1);
        color: #48BB78;
    }
    
    .ap-badge-warning {
        background: rgba(237, 137, 54, 0.1);
        color: #ED8936;
    }
    
    .ap-section-content {
        white-space: pre-line;
    }
    </style>
    
    <div class=" ++ dq ++ "ap-grader-container" ++ dq ++ ">
        <div class=" ++ dq ++ "ap-header" ++ dq ++ ">
            <h1 class=" ++ dq ++ "ap-title" ++ dq ++ ">AP Environmental Science FRQ Evaluation</h1>
            <div class=" ++ dq ++ "ap-score" ++ dq ++ ">
                <div class=" ++ dq ++ "ap-score-item" ++ dq ++ ">
                    <div class=" ++ dq ++ "ap-score-label" ++ dq ++ ">Final Score</div>
                    <div class=" ++ dq ++ "ap-score-value" ++ dq ++ ">".

Definition env_html_2 : string :=
  "/".

Definition env_html_3 : string :=
  "</div>
                </div>
                <div class=" ++ dq ++ "ap-score-item" ++ dq ++ ">
                    <div class=" ++ dq ++ "ap-score-label" ++ dq ++ ">AP Score Estimate</div>
                    <div class=" ++ dq ++ "ap-score-value" ++ dq ++ ">".

Definition env_html_4 : string :=
  "/5</div>
                </div>
            </div>
        </div>
        
        <div class=" ++ dq ++ "ap-card" ++ dq ++ ">
            <h2 class=" ++ dq ++ "ap-card-title" ++ dq ++ ">
                <span class=" ++ dq ++ "ap-icon" ++ dq ++ ">✅</span>What You Did Well
            </h2>
            <div class=" ++ dq ++ "ap-content ap-section-content" ++ dq ++ ">
                ".

Definition env_html_5 : string :=
  "
            </div>
        </div>
        
        <div class=" ++ dq ++ "ap-card" ++ dq ++ ">
            <h2 class=" ++ dq ++ "ap-card-title" ++ dq ++ ">
                <span class=" ++ dq ++ "ap-icon" ++ dq ++ ">⚠️</span>How to Improve
            </h2>
            <div class=" ++ dq ++ "ap-content ap-section-content" ++ dq ++ ">
                ".

Definition env_html_6 : string :=
  "
            </div>
        </div>
        
        <div class=" ++ dq ++ "ap-card" ++ dq ++ ">
            <h2 class=" ++ dq ++ "ap-card-title" ++ dq ++ ">
                <span class=" ++ dq ++ "ap-icon" ++ dq ++ ">📋</span>Next Steps
            </h2>
            <div class=" ++ dq ++ "ap-content ap-section-content" ++ dq ++ ">
                ".

Definition env_html_7 : string :=
  "
                
                <div style=" ++ dq ++ "margin-top: 20px; text-align: center; font-weight: 500;" ++ dq ++ ">
                    🚀 Keep practicing! Your reasoning skills are improving, and your score will too! 🎉
                </div>
            </div>
        </div>
        
        <div class=" ++ dq ++ "ap-tabs" ++ dq ++ ">
            <div class=" ++ dq ++ "ap-tab active" ++ dq ++ " onclick=" ++ dq ++ "showTab('summary')" ++ dq ++ ">Summary</div>
            <div class=" ++ dq ++ "ap-tab" ++ dq ++ " onclick=" ++ dq ++ "showTab('detailed')" ++ dq ++ ">Detailed Analysis</div>
        </div>
        
        <div id=" ++ dq ++ "summary-tab" ++ dq ++ " class=" ++ dq ++ "ap-tab-content" ++ dq ++ " style=" ++ dq ++ "display: block;" ++ dq ++ ">
            <div class=" ++ dq ++ "ap-card" ++ dq ++ ">
                <h2 class=" ++ dq ++ "ap-card-title" ++ dq ++ ">Score Breakdown</h2>
                <div class=" ++ dq ++ "ap-content" ++ dq ++ ">
                    <p>The final score of <strong>".

Definition env_html_8 : string :=
  "/".

Definition env_html_9 : string :=
  "</strong> suggests an overall AP score in the <strong>".

Definition env_html_10 : string :=
  "</strong> range.</p>
                    <p>⭐ To pass (score 3+), aim for 50% or higher on FRQs.<br>
                    ⭐ For a 4-5 (college credit level), target 70%+ per FRQ.</p>
                </div>
            </div>
        </div>
        
        <div id=" ++ dq ++ "detailed-tab" ++ dq ++ " class=" ++ dq ++ "ap-tab-content" ++ dq ++ " style=" ++ dq ++ "display: none;" ++ dq ++ ">
            <div class=" ++ dq ++ "ap-card" ++ dq ++ ">
                <h2 class=" ++ dq ++ "ap-card-title" ++ dq ++ ">Detailed Evaluation</h2>
                <div class=" ++ dq ++ "ap-content" ++ dq ++ ">
                    <pre style=" ++ dq ++ "white-space: pre-wrap; font-family: inherit;" ++ dq ++ ">".

Definition env_html_11 : string :=
  "</pre>
                </div>
            </div>
        </div>
    </div>
    
    <script>
    function showTab(tabName) {
        const tabs = document.querySelectorAll('.ap-tab');
        const tabContents = document.querySelectorAll('.ap-tab-content');
        
        tabs.forEach(tab => tab.classList.remove('active'));
        tabContents.forEach(content => content.style.display = 'none');
        
        if (tabName === 'summary') {
            document.querySelector('.ap-tab:nth-child(1)').classList.add('active');
            document.getElementById('summary-tab').style.display = 'block';
        } else {
            document.querySelector('.ap-tab:nth-child(2)').classList.add('active');
            document.getElementById('detailed-tab').style.display = 'block';
        }
    }
    </script>
    ".

Definition lang_html_1 : string :=
  "
        <style>
        /* Global styles */
        @import url('https://fonts.googleapis.com/css2?family=Poppins:wght@300;400;500;600;700&display=swap');
        @import url('https://fonts.googleapis.com/css2?family=Inter:wght@400;500;600&display=swap');

        body {
            font-family: 'Inter', sans-serif;
            background: linear-gradient(to right, #F2FCFE, #FDFCFB) !important;
        }

        /* Ensure smooth transitions for all elements */
        * {
            transition: all 0.2s ease-in-out;
        }

        .section-container {
            background: rgba(255, 255, 255, 0.95);
            border-radius: 20px;
            padding: 2rem;
            margin: 1.5rem 0;
            box-shadow: 0 10px 30px rgba(0, 0, 0, 0.06);
            transition: transform 0.3s cubic-bezier(0.4, 0, 0.2, 1),
                        box-shadow 0.3s cubic-bezier(0.4, 0, 0.2, 1);
        }

        .section-container:hover {
            transform: translateY(-4px);
            box-shadow: 0 20px 40px rgba(0, 0, 0, 0.08);
        }

        .result-table {
            width: 100%;
            border-collapse: collapse;
            background: #fff;
            border-radius: 12px;
            overflow: hidden;
            margin-bottom: 1rem;
        }

        .result-table th,
        .result-table td {
            padding: 1rem;
            text-align: left;
            border-bottom: 1px solid #eee;
            vertical-align: top;
        }

        .result-table th {
            background-color: #f9f9f9;
            text-transform: uppercase;
            font-size: 0.85rem;
            color: #444;
        }

        .result-table tr:hover {
            background-color: #f6faff;
            transition: background-color 0.3s ease-in-out;
        }

        .summary-row {
            background-color: #FFF7E6;
            color: #333;
        }

        .total-score {
            background: linear-gradient(135deg, #FFF5F5 0%, #FFF0F0 100%);
            text-align: center;
            font-size: 1.5rem;
            font-weight: 700;
            color: #2D3748;
        }
        </style>

        <div style=" ++ dq ++ "padding: 20px; max-width: 1200px; margin: 0 auto;" ++ dq ++ ">
            ".

Definition lang_html_2 : string :=
  "
            
            <div class=" ++ dq ++ "section-container" ++ dq ++ ">
                <table class=" ++ dq ++ "result-table" ++ dq ++ ">
                    <tbody>
                        <tr class=" ++ dq ++ "total-score" ++ dq ++ ">
                            <td colspan=" ++ dq ++ "4" ++ dq ++ " style=" ++ dq ++ "text-align: center; font-size: 1.5rem; font-weight: 700; color: #2D3748;" ++ dq ++ ">
                                Total Score: ".

Definition lang_html_3 : string :=
  "
                            </td>
                        </tr>
                        <tr class=" ++ dq ++ "summary-row" ++ dq ++ ">
                            <td colspan=" ++ dq ++ "4" ++ dq ++ " style=" ++ dq ++ "text-align: left; padding: 1rem;" ++ dq ++ ">
                                <div style=" ++ dq ++ "max-width: 800px; margin: 0 auto;" ++ dq ++ ">
                                    <h3 style=" ++ dq ++ "color: #2D3748; margin-bottom: 0.5rem; font-size: 1.25rem;" ++ dq ++ ">
                                        Overall Assessment
                                    </h3>
                                    <p style=" ++ dq ++ "line-height: 1.8; color: #4A5568;" ++ dq ++ ">
                                        ".

Definition lang_html_4 : string :=
  "
                                    </p>
                                </div>
                            </td>
                        </tr>
                        <tr>
                            <th>Category</th>
                            <th>Score</th>
                            <th>Commentary</th>
                            <th>Improvements</th>
                        </tr>
                        <tr>
                            <td><strong>Thesis</strong></td>
                            <td style=" ++ dq ++ "text-align: center; font-size: 1.25rem; font-weight: 600; color: #2D3748;" ++ dq ++ ">
                                ".

Definition lang_html_5 : string :=
  "
                            </td>
                            <td>".

Definition lang_html_6 : string :=
  "</td>
                            <td>".

Definition lang_html_7 : string :=
  "</td>
                        </tr>
                        <tr>
                            <td><strong>Evidence & Commentary</strong></td>
                            <td style=" ++ dq ++ "text-align: center; font-size: 1.25rem; font-weight: 600; color: #2D3748;" ++ dq ++ ">
                                ".

Definition lang_html_8 : string :=
  "
                            </td>
                            <td>".

Definition lang_html_9 : string :=
  "</td>
                            <td>".

Definition lang_html_10 : string :=
  "</td>
                        </tr>
                        <tr>
                            <td><strong>Sophistication</strong></td>
                            <td style=" ++ dq ++ "text-align: center; font-size: 1.25rem; font-weight: 600; color: #2D3748;" ++ dq ++ ">
                                ".

Definition lang_html_11 : string :=
  "
                            </td>
                            <td>".

Definition lang_html_12 : string :=
  "</td>
                            <td>".

Definition lang_html_13 : string :=
  "</td>
                        </tr>
                    </tbody>
                </table>
            </div>
        </div>
        ".

Definition fact_check_html_1 : string :=
  "
            <div class=" ++ dq ++ "section-container" ++ dq ++ " style=" ++ dq ++ "background: #fff7f7;" ++ dq ++ ">
                <h4 style=" ++ dq ++ "color: #B83232;" ++ dq ++ ">Fact Check Failed</h4>
                <p style=" ++ dq ++ "color: #4A5568;" ++ dq ++ ">
                    <strong>Reasoning:</strong> ".

Definition fact_check_html_2 : string :=
  "
                </p>
                <p style=" ++ dq ++ "color: #2D3748;" ++ dq ++ ">
                    <strong>Your penalized total score is:</strong> ".

Definition fact_check_html_3 : string :=
  "
                </p>
                <p style=" ++ dq ++ "color: #2D3748;" ++ dq ++ ">
                    <strong>If you hadn't made this error, here's how you would have scored:</strong> ".

Definition fact_check_html_4 : string :=
  "
                </p>
            </div>
            ".

Definition lang_error_html_1 : string :=
  "
        <div style=" ++ dq ++ "color: red; padding: 20px; text-align: center;" ++ dq ++ ">
            <h2>Error generating HTML view</h2>
            <p>There was an error processing the grading results: ".

Definition lang_error_html_2 : string :=
  "</p>
        </div>
        ".

Definition general_html_1 : string :=
  "
        <style>
        body {
            font-family: 'Inter', 'Segoe UI', Tahoma, Geneva, Verdana, sans-serif;
            background: linear-gradient(to right, #F2FCFE, #FDFCFB) !important;
        }

        .ap-general-container {
            max-width: 1200px;
            margin: 0 auto;
            padding: 20px;
            background: rgba(255, 255, 255, 0.8);
            backdrop-filter: blur(6px);
            border-radius: 16px;
            box-shadow: 0 10px 25px rgba(0,0,0,0.1);
        }
        
        .ap-general-title {
            font-size: 28px;
            font-weight: 700;
            text-align: center;
            margin-bottom: 30px;
            color: #2D3748;
            background: linear-gradient(90deg, #FF9A9E, #FAD0C4, #FFD1FF);
            -webkit-background-clip: text;
            -webkit-text-fill-color: transparent;
        }
        
        .ap-results-table {
            width: 100%;
            border-collapse: collapse;
            background: #fff;
            border-radius: 12px;
            overflow: hidden;
            margin-bottom: 1rem;
        }
        
        .ap-results-table th,
        .ap-results-table td {
            padding: 1rem;
            text-align: left;
            border-bottom: 1px solid #eee;
            vertical-align: top;
        }
        
        .ap-results-table th {
            background-color: #f9f9f9;
            text-transform: uppercase;
            font-size: 0.85rem;
            color: #444;
            text-align: center;
        }
        
        .ap-results-table tr:hover {
            background-color: #f6faff;
            transition: background-color 0.3s ease-in-out;
        }
        
        .ap-label {
            font-weight: 600;
            color: #4A5568;
        }
        
        .ap-value {
            color: #2D3748;
        }
        
        .ap-rationale {
            padding: 16px 24px;
            line-height: 1.6;
        }
        
        .ap-feedback-section {
            background: rgba(255, 255, 255, 0.9);
            border-radius: 16px;
            padding: 20px;
            margin-top: 20px;
            box-shadow: 0 10px 25px rgba(0,0,0,0.05);
        }
        
        .ap-feedback-title {
            font-size: 22px;
            font-weight: 600;
            margin-top: 0;
            margin-bottom: 20px;
            color: #2D3748;
            padding-bottom: 10px;
            border-bottom: 2px solid rgba(255, 154, 158, 0.3);
        }
        
        .ap-feedback-list {
            padding-left: 20px;
            margin-bottom: 0;
        }
        
        .ap-feedback-list li {
            margin-bottom: 12px;
            line-height: 1.6;
            color: #4A5568;
        }
        
        .ap-feedback-list li:last-child {
            margin-bottom: 0;
        }
        </style>
        
        <div class=" ++ dq ++ "ap-general-container" ++ dq ++ ">
            <h1 class=" ++ dq ++ "ap-general-title" ++ dq ++ ">AP FRQ Evaluation Results</h1>
            
            <table class=" ++ dq ++ "ap-results-table" ++ dq ++ ">
                <thead>
                    <tr>
                        <th colspan=" ++ dq ++ "2" ++ dq ++ ">OVERALL RESULTS</th>
                    </tr>
                </thead>
                <tbody>
                    <tr>
                        <td class=" ++ dq ++ "ap-label" ++ dq ++ ">Total Points</td>
                        <td class=" ++ dq ++ "ap-value" ++ dq ++ ">".

Definition general_html_2 : string :=
  "</td>
                    </tr>
                    <tr>
                        <td class=" ++ dq ++ "ap-label" ++ dq ++ ">Awarded Points</td>
                        <td class=" ++ dq ++ "ap-value" ++ dq ++ ">".

Definition general_html_3 : string :=
  "</td>
                    </tr>
                    <tr>
                        <td class=" ++ dq ++ "ap-label" ++ dq ++ ">Score (%)</td>
                        <td class=" ++ dq ++ "ap-value" ++ dq ++ ">".

Definition general_html_4 : string :=
  "%</td>
                    </tr>
                    <tr>
                        <td class=" ++ dq ++ "ap-label" ++ dq ++ ">Rationale</td>
                        <td class=" ++ dq ++ "ap-rationale" ++ dq ++ ">".

Definition general_html_5 : string :=
  "</td>
                    </tr>
                </tbody>
            </table>
            
            <div class=" ++ dq ++ "ap-feedback-section" ++ dq ++ ">
                <h2 class=" ++ dq ++ "ap-feedback-title" ++ dq ++ ">Feedback to the Student:</h2>
                <ol class=" ++ dq ++ "ap-feedback-list" ++ dq ++ ">
                    ".

Definition general_html_6 : string :=
  "
                </ol>
            </div>
        </div>
        ".

Definition general_error_html_1 : string :=
  "
        <div style=" ++ dq ++ "color: red; padding: 20px; text-align: center;" ++ dq ++ ">
            <h2>Error generating HTML view</h2>
            <p>There was an error processing the grading results: ".

Definition general_error_html_2 : string :=
  "</p>
        </div>
        ".

End RouterText.

Module GraderText.
Import PyStr.

Definition scoring_prompt_1 : string :=
  "You are an encouraging AP teacher providing personalized feedback to help students improve. Your role is to evaluate their work and offer constructive guidance. When writing feedback, imagine having a supportive one-on-one conversation with the student.

Task Description:
1. Review the student's work with an encouraging mindset
2. Calculate points earned and total possible points
3. Determine the percentage score
4. Explain the score in a way that recognizes strengths while gently pointing out areas for growth
5. Provide specific, actionable suggestions for improvement

Components to Evaluate:
Question Answered: ".

Definition scoring_prompt_2 : string :=
  "
Student's Response: ".

Definition scoring_prompt_3 : string :=
  "
Scoring Criteria: ".

Definition scoring_prompt_4 : string :=
  "

If no scoring rubric is provided, evaluate the response based on:
1. The question's complexity (setting appropriate total points: 3-5 for basic questions, 5-10 for complex ones)
2. These key aspects of the student's answer:
   - How thoroughly the question was addressed
   - The depth of understanding demonstrated
   - Effective use of course concepts and terminology
   - Clarity and strength of reasoning
   - Organization of thoughts

CRITICAL INSTRUCTIONS:
1. Respond with a JSON object containing these specific fields:
   - total_points: The maximum points possible for this question
   - awarded_points: The points earned by the student's response
   - score: The percentage score (awarded_points / total_points) * 100
   - rationale_for_the_score: A personalized 2-3 line explanation of the score, highlighting what the student did well and where they can grow
   - feedback_to_the_student: Three specific suggestions written encouragingly (e.g., " ++ dq ++ "Consider including more..." ++ dq ++ ")

IMPORTANT ADDITIONAL INSTRUCTION:
If the student's answer is similar to the reference text or is a direct copy-paste of the reference text, you must award zero points in awarded_points and score and explain the reason in the rationale. The total points would be according to the total number of parts and information required by the question, etc.

2. Format Requirements:
   - Use this exact JSON format:
".

Definition scoring_prompt_5 : string :=
  "
   - Keep all feedback within the JSON structure
   - Avoid any additional formatting

Note: All feedback should be:
- Personalized to the student's response
- Specific and actionable
- Encouraging and constructive
- Focused on improvement
- Relevant to AP course standards

PENALTY WARNING: Any response not in the exact JSON format specified above will result in a penalty. Make sure all feedback is specific, actionable, and directly related to the AP course standards.
".

(** [json.dumps(SCORING_RESPONSE_SCHEMA, indent=2)], a constant. *)
Definition scoring_response_schema_json : string :=
  "{
  " ++ dq ++ "total_points" ++ dq ++ ": " ++ dq ++ "<maximum points possible based on rubric>" ++ dq ++ ",
  " ++ dq ++ "awarded_points" ++ dq ++ ": " ++ dq ++ "<points the student earned on this response>" ++ dq ++ ",
  " ++ dq ++ "score" ++ dq ++ ": " ++ dq ++ "<student's percentage score (awarded_points / total_points) * 100>" ++ dq ++ ",
  " ++ dq ++ "rationale_for_the_score" ++ dq ++ ": " ++ dq ++ "<personalized explanation of the student's score highlighting strengths and areas for growth>" ++ dq ++ ",
  " ++ dq ++ "feedback_to_the_student" ++ dq ++ ": [
    " ++ dq ++ "<first specific suggestion to help the student improve>" ++ dq ++ ",
    " ++ dq ++ "<second specific suggestion to help the student improve>" ++ dq ++ ",
    " ++ dq ++ "<third specific suggestion to help the student improve>" ++ dq ++ "
  ]
}".

End GraderText.

(** ** The outside world *)

Module World.
Import PyStr Py PyOps.

(** [str(e)] *)
Fixpoint line_col (s : string) (line col : nat) : nat * nat :=
  match s with
  | EmptyString => (line, col)
  | String c s' =>
      if (nat_of_ascii c =? 10)%nat then line_col s' (S line) 1
      else if is_cont c then line_col s' line col
      else line_col s' line (S col)
  end.

Fixpoint count_chars (s : string) : nat :=
  match s with
  | EmptyString => 0
  | String c s' => if is_cont c then count_chars s' else S (count_chars s')
  end.

Definition str_nat (n : nat) : string := str_int (Z.of_nat n).

Definition str_exn (e : exn) : string :=
  match e with
  | JSONDecodeError msg doc pos =>
      let before := take pos doc in
      let '(line, col) := line_col before 1 1 in
      msg ++ ": line " ++ str_nat line ++ " column " ++ str_nat col
          ++ " (char " ++ str_nat (count_chars before) ++ ")"
  | AttributeError msg | TypeError msg | ValueError msg | OverflowError msg
  | ZeroDivisionError msg | RecursionError msg => msg
  | KeyError key_repr => key_repr
  | HTTPException status_code detail => str_int status_code ++ ": " ++ detail
  | Exception_ _ msg => msg
  end.

(** What the transport gives back to [requests.post]: a response with its
    status code and body, or an exception. *)
Inductive http_outcome : Type :=
| HttpResponse (status_code : Z) (text : string)
| HttpRaise (e : exn).

(** What the SDK gives back to [chat.completions.create]: a completion with
    the message content of each of its choices ([None] when a choice has no
    content), or an exception. *)
Inductive sdk_outcome : Type :=
| Completion (choices : list (option string))
| SdkRaise (e : exn).

(** One interaction with the outside, in the order it happened. *)
Inductive event : Type :=
| EPost (url : string) (body : pyval) (out : http_outcome)
| ECreate (model : string) (messages : pyval) (reasoning_effort : string) (out : sdk_outcome)
| ECheck (request_json : string) (requires_calculation : bool) (reasoning : string)
| ESleep (seconds : Z).

(** The outside world answers each call as a function of everything that
    happened before. *)
Record world : Type := World {
  http_post : list event -> string -> pyval -> http_outcome;
  openai_create : list event -> string -> pyval -> string -> sdk_outcome;
  calculations_check : list event -> string -> bool * string
}.

(** Computations that talk to the outside and may raise: the log of events
    is threaded through, and survives an exception. *)
Definition io (A : Type) : Type := list event -> result A * list event.

Definition ret {A} (a : A) : io A := fun log => (Ok a, log).

Definition raise {A} (e : exn) : io A := fun log => (Raise e, log).

Definition lift {A} (r : result A) : io A := fun log => (r, log).

Definition iobind {A B} (m : io A) (f : A -> io B) : io B :=
  fun log =>
    match m log with
    | (Ok a, log') => f a log'
    | (Raise e, log') => (Raise e, log')
    end.

(** [try: body  except Exception as e: handler(e)] *)
Definition try_io {A} (body : io A) (handler : exn -> io A) : io A :=
  fun log =>
    match body log with
    | (Ok a, log') => (Ok a, log')
    | (Raise e, log') => handler e log'
    end.

Section Calls.
Variable w : world.

(** [requests.post(url, json=body)] *)
Definition post (url : string) (body : pyval) : io (Z * string) :=
  fun log =>
    let out := http_post w log url body in
    let log' := (log ++ [EPost url body out])%list in
    match out with
    | HttpResponse status_code text => (Ok (status_code, text), log')
    | HttpRaise e => (Raise e, log')
    end.

(** [openai_client.chat.completions.create(model=..., messages=...,
    reasoning_effort=...)] *)
Definition create (model : string) (messages : pyval) (reasoning_effort : string)
  : io (list (option string)) :=
  fun log =>
    let out := openai_create w log model messages reasoning_effort in
    let log' := (log ++ [ECreate model messages reasoning_effort out])%list in
    match out with
    | Completion choices => (Ok choices, log')
    | SdkRaise e => (Raise e, log')
    end.

(** [calculations_check(request_json)] of the module [rounding_check]. *)
Definition check (request_json : string) : io (bool * string) :=
  fun log =>
    let '(b, reasoning) := calculations_check w log request_json in
    (Ok (b, reasoning), (log ++ [ECheck request_json b reasoning])%list).

End Calls.

(** [time.sleep(seconds)] and [await asyncio.sleep(seconds)] *)
Definition sleep (seconds : Z) : io unit :=
  fun log => (Ok tt, (log ++ [ESleep seconds])%list).

(** The calls to a text generator among the events, and the sleeps. *)
Definition is_sleep (e : event) : bool :=
  match e with ESleep _ => true | _ => false end.

Definition is_upstream (e : event) : bool :=
  match e with ESleep _ => false | _ => true end.

End World.

(** * [ap-env-plus-router.py] *)

Module Router.
Import PyStr Py PyOps Re World RouterText.

(** ** Configuration *)

Definition CLAUDE_API_URL : string := "https://api.anthropic.com/v1/messages".
Definition LANG_ENDPOINT : string := "https://api-ap-lang-essay-grader.onrender.com/grade".
Definition LIT_ENDPOINT : string := "https://api-ap-lit-essay-grader.onrender.com/grade".
Definition GENERAL_ENDPOINT : string := "https://api-ap-grader.onrender.com/score".

(** The response model. *)
Record GradingResponse : Type := {
  scoring_response : string;
  feedback_response : string;
  html_for_app : string;
  total_possible_points : float;
  total_earned_points : float
}.

(** ** Prompts *)

Definition create_classification_prompt (course_title question : string) : string :=
  cat [classification_prompt_1; course_title; classification_prompt_2; question;
       classification_prompt_3].

Definition create_claude_prompt
           (question student_answer scoring_rubric image_data : string) : string :=
  cat [claude_prompt_1; question; claude_prompt_2; image_data; claude_prompt_3;
       scoring_rubric; claude_prompt_4; student_answer; claude_prompt_5].

(** The evaluation data is whatever the first generator returned; the
    f-string formats it with [str]. *)
Definition create_openai_prompt (evaluation_data : pyval) : string :=
  cat [openai_prompt_1; py_str evaluation_data; openai_prompt_2].

(** [[{"role": "user", "content": prompt}]] *)
Definition user_messages (prompt : string) : pyval :=
  PList [PDict [("role", PStr "user"); ("content", PStr prompt)]].

(** ** The retrying callers *)

(** How the body of a loop iteration ends: with [return] or by going on to
    the next iteration. *)
Inductive step (A : Type) : Type :=
| Return (a : A)
| Continue.
Arguments Return {A} a.
Arguments Continue {A}.

Definition claude_payload (messages : pyval) : pyval :=
  PDict [("model", PStr "claude-3-5-sonnet-20241022");
         ("max_tokens", PInt 8192);
         ("temperature", PFloat (float_of_decimal false 4 (-1)));
         ("messages", messages)].

(** The text of a successful answer: [data["content"][0]["text"]] when
    [data] has a non-empty list under [content], else [data.get("text", "")]. *)
Definition claude_text (data : pyval) : result pyval :=
  bind (py_contains "content" data) (fun has_content =>
  bind (if has_content
        then bind (py_getitem data "content") (fun c =>
               Ok (match c with PList (_ :: _) => true | _ => false end))
        else Ok false) (fun use_content =>
  if use_content then
    bind (py_getitem data "content") (fun c =>
    bind (py_getitem0 c) (fun c0 => py_getitem c0 "text"))
  else py_get data "text" (PStr ""))).

Section WithWorld.
Variable w : world.

Notation "x <- m ;; k" := (iobind m (fun x => k))
  (at level 61, m at next level, right associativity).

Fixpoint call_claude_api_loop (attempts : list nat) (messages : pyval) : io pyval :=
  match attempts with
  | [] => ret PNone
  | attempt :: rest =>
      st <- try_io
              (r <- post w CLAUDE_API_URL (claude_payload messages) ;;
               let '(status_code, text) := r in
               if (status_code =? 200)%Z then
                 data <- lift (Json.loads text) ;;
                 v <- lift (claude_text data) ;;
                 ret (Return v)
               else if (attempt <? 2)%nat then
                 _ <- sleep 4 ;;
                 ret Continue
               else
                 raise (HTTPException status_code ("Claude API call failed: " ++ text)))
              (fun e =>
                 if (attempt <? 2)%nat then
                   _ <- sleep 4 ;;
                   ret Continue
                 else
                   raise (HTTPException 500 ("Error calling Claude API: " ++ str_exn e))) ;;
      match st with
      | Return v => ret v
      | Continue => call_claude_api_loop rest messages
      end
  end.

(** [for attempt in range(3): ...] *)
Definition call_claude_api (messages : pyval) : io pyval :=
  call_claude_api_loop [0; 1; 2]%nat messages.

(** [response.choices[0].message.content] *)
Definition first_content (choices : list (option string)) : result pyval :=
  match choices with
  | [] => Raise (Exception_ "IndexError" "list index out of range")
  | Some s :: _ => Ok (PStr s)
  | None :: _ => Ok PNone
  end.

Fixpoint call_openai_api_loop (attempts : list nat) (messages : pyval) : io pyval :=
  match attempts with
  | [] => ret PNone
  | attempt :: rest =>
      st <- try_io
              (choices <- create w "o1" messages "medium" ;;
               v <- lift (first_content choices) ;;
               ret (Return v))
              (fun e =>
                 if (attempt <? 2)%nat then
                   _ <- sleep 4 ;;
                   ret Continue
                 else
                   raise (HTTPException 500 ("Error calling OpenAI API: " ++ str_exn e))) ;;
      match st with
      | Return v => ret v
      | Continue => call_openai_api_loop rest messages
      end
  end.

Definition call_openai_api (messages : pyval) : io pyval :=
  call_openai_api_loop [0; 1; 2]%nat messages.

(** ** Classification *)

(** [r'({[\s\S]*})'] *)
Definition json_pattern : regex :=
  Group (seq [Lit "{"; Star any; Lit "}"]).

(** The key [course_of_the_frq] in double quotes, then [\s*:\s*], then a
    double-quoted value captured without its quotes by a group over one or
    more characters other than the double quote. *)
Definition course_pattern : regex :=
  seq [Lit (dq ++ "course_of_the_frq" ++ dq); Star space; Lit ":"; Star space;
       Lit dq; Group (Plus not_dq); Lit dq].

(** [json.loads(v)] for an object of any type. *)
Definition json_loads (v : pyval) : result pyval :=
  match v with
  | PStr doc => Json.loads doc
  | _ => Raise (TypeError ("the JSON object must be str, bytes or bytearray, not "
                           ++ type_name v))
  end.

(** The text of an object already known to be a [str]. *)
Definition text_of (v : pyval) : string :=
  match v with PStr t => t | _ => EmptyString end.

(** The part of [classify_frq_course] after the upstream call: from the
    response text to the course name. *)
Definition course_from_response (course_title : string) (response_text : pyval)
  : result pyval :=
  try_when is_JSONDecodeError
    (* Try to parse the entire response as JSON *)
    (bind (json_loads response_text) (fun json_response =>
       py_get json_response "course_of_the_frq" (PStr "")))
    (fun _ =>
       let text := text_of response_text in
       (* If that fails, try to extract just the JSON object *)
       bind (match search json_pattern text with
             | Some m =>
                 try_when is_JSONDecodeError
                   (bind (Json.loads (group m 1)) (fun json_obj =>
                    bind (py_get json_obj "course_of_the_frq" (PStr "")) (fun v =>
                    Ok (Some v))))
                   (fun _ => Ok None)
             | None => Ok None
             end) (fun returned =>
       match returned with
       | Some v => Ok v
       | None =>
           (* If JSON extraction fails, try to directly extract the course name *)
           match search course_pattern text with
           | Some m => Ok (PStr (group m 1))
           | None =>
               (* Fallback to the original course title if everything fails *)
               Ok (PStr course_title)
           end
       end)).

Definition classify_frq_course (course_title question : string) : io pyval :=
  let classification_prompt := create_classification_prompt course_title question in
  let classification_messages := user_messages classification_prompt in
  response_text <- call_claude_api classification_messages ;;
  lift (course_from_response course_title response_text).

Definition normalize_course_name (course_name : string) : string :=
  let normalized := lower (strip course_name) in
  match strip_prefix "ap " normalized with
  | Some rest => rest                       (* normalized[3:] *)
  | None => normalized
  end.

(** [normalize_course_name(v)] for an object of any type: only a [str] has
    [strip]. *)
Definition normalize_object (v : pyval) : result string :=
  match v with
  | PStr course_name => Ok (normalize_course_name course_name)
  | _ => no_attribute v "strip"
  end.

(** ** Score extraction *)

Definition final_score_pattern : regex :=
  seq [Lit "Final Score: "; Group (Plus digit); Lit "/"; Group (Plus digit)].

Definition total_score_pattern : regex :=
  seq [Lit "<score_estimate>"; StarLazy any; Lit "Total Score: ";
       Group (Plus digit); Lit "/"; Group (Plus digit)].

(** [re.search(pattern, v)] for an object of any type. *)
Definition re_search (r : regex) (v : pyval) : result (option match_obj) :=
  match v with
  | PStr text => Ok (search r text)
  | _ => Raise (TypeError ("expected string or bytes-like object, got "
                           ++ sq ++ type_name v ++ sq))
  end.

Definition zero : float := S754_zero false.

Definition extract_score_from_env_science (scoring_response feedback_response : pyval)
  : result (float * float) :=
  (* First try to extract from feedback_response which has a clearer format *)
  bind (re_search final_score_pattern feedback_response) (fun score_match =>
  match score_match with
  | Some m => Ok (float_of_digits (group m 1), float_of_digits (group m 2))
  | None =>
      (* Fallback to extracting from scoring_response *)
      bind (re_search total_score_pattern scoring_response) (fun score_estimate_match =>
      match score_estimate_match with
      | Some m => Ok (float_of_digits (group m 1), float_of_digits (group m 2))
      | None =>
          (* If all else fails, return default values *)
          Ok (zero, zero)
      end)
  end).

(** ** Rendering *)

Definition ap_score_pattern : regex :=
  seq [Lit "AP Score Estimate: "; Group (Plus digit)].

(** The three section patterns are used with [re.DOTALL]: the dot is any
    character. *)
Definition did_well_pattern : regex :=
  seq [Lit "✅ What You Did Well"; StarLazy any; Ahead (Alt (Lit "⚠️") Eos)].

Definition improve_pattern : regex :=
  seq [Lit "⚠️ How to Improve"; StarLazy any; Ahead (Alt (Lit "🚀") Eos)].

Definition next_steps_pattern : regex :=
  seq [Lit "🔹 Next Steps to Improve Your FRQ Score"; StarLazy any;
       Ahead (Alt (Lit "🚀") Eos)].

Definition create_environmental_science_html (scoring_response feedback_response : pyval)
  : result string :=
  (* Extract score from the feedback response *)
  bind (re_search final_score_pattern feedback_response) (fun score_match =>
  let earned_points := match score_match with Some m => group m 1 | None => "?" end in
  let total_points := match score_match with Some m => group m 2 | None => "?" end in
  (* Extract AP score estimate *)
  bind (re_search ap_score_pattern feedback_response) (fun ap_score_match =>
  let ap_score := match ap_score_match with Some m => group m 1 | None => "?" end in
  bind (re_search did_well_pattern feedback_response) (fun did_well_match =>
  let did_well_section := match did_well_match with Some m => group0 m | None => "" end in
  bind (re_search improve_pattern feedback_response) (fun improve_match =>
  let improve_section := match improve_match with Some m => group0 m | None => "" end in
  bind (re_search next_steps_pattern feedback_response) (fun next_steps_match =>
  let next_steps_section :=
    match next_steps_match with Some m => group0 m | None => "" end in
  Ok (cat [env_html_1; earned_points; env_html_2; total_points; env_html_3; ap_score;
           env_html_4; did_well_section; env_html_5; improve_section; env_html_6;
           next_steps_section; env_html_7; earned_points; env_html_8; total_points;
           env_html_9; ap_score; env_html_10; py_str scoring_response;
           env_html_11])))))).

Definition is_dict (v : pyval) : bool :=
  match v with PDict _ => true | _ => false end.

Definition is_str (v : pyval) : bool :=
  match v with PStr _ => true | _ => false end.

Definition is_list (v : pyval) : bool :=
  match v with PList _ => true | _ => false end.

Definition is_none (v : pyval) : bool :=
  match v with PNone => true | _ => false end.

(** The page shown when rendering fails. *)
Definition error_html (e : exn) : string :=
  cat [lang_error_html_1; str_exn e; lang_error_html_2].

Definition create_language_literature_html (api_response_json : string) : string :=
  match
    (* Parse the API response *)
    bind (Json.loads api_response_json) (fun api_response =>
    (* Extract key values *)
    bind (py_get api_response "rowA" (PDict [])) (fun rowA =>
    bind (py_get api_response "rowB" (PDict [])) (fun rowB =>
    bind (py_get api_response "rowC" (PDict [])) (fun rowC =>
    bind (py_get rowA "score" (PInt 0)) (fun row_a_score =>
    bind (py_get rowB "score" (PInt 0)) (fun row_b_score =>
    bind (py_get rowC "score" (PInt 0)) (fun row_c_score =>
    (* Calculate total score *)
    bind (py_add row_a_score row_b_score) (fun ab =>
    bind (py_add ab row_c_score) (fun total_score =>
    (* Extract summary text *)
    bind (py_get api_response "summary" (PDict [])) (fun summary_content =>
    bind (if is_dict summary_content then py_get summary_content "summary" (PStr "")
          else if is_str summary_content then Ok summary_content
          else Ok (PStr "")) (fun overall_assessment =>
    (* Check if fact check failed *)
    bind (py_get api_response "fact_check" PNone) (fun fact_check =>
    bind (if negb (is_none fact_check)
          then bind (py_get fact_check "score" (PInt 1)) (fun sc => Ok (py_eq_zero sc))
          else Ok false) (fun fact_check_failed =>
    bind (if fact_check_failed then
            bind (py_add row_a_score (PInt 1)) (fun a1 =>
            bind (py_add a1 row_c_score) (fun penalized_total_score =>
            bind (py_get fact_check "reasoning" (PStr "")) (fun reasoning =>
            Ok (cat [fact_check_html_1; py_str reasoning; fact_check_html_2;
                     py_str penalized_total_score; fact_check_html_3;
                     py_str total_score; fact_check_html_4]))))
          else Ok "") (fun fact_check_html =>
    bind (py_get rowA "commentary" (PStr "")) (fun a_commentary =>
    bind (py_get rowA "improvements" (PStr "")) (fun a_improvements =>
    bind (py_get rowB "commentary" (PStr "")) (fun b_commentary =>
    bind (py_get rowB "improvements" (PStr "")) (fun b_improvements =>
    bind (py_get rowC "commentary" (PStr "")) (fun c_commentary =>
    bind (py_get rowC "improvements" (PStr "")) (fun c_improvements =>
    Ok (cat [lang_html_1; fact_check_html; lang_html_2; py_str total_score;
             lang_html_3; py_str overall_assessment; lang_html_4;
             py_str row_a_score; lang_html_5; py_str a_commentary; lang_html_6;
             py_str a_improvements; lang_html_7;
             py_str row_b_score; lang_html_8; py_str b_commentary; lang_html_9;
             py_str b_improvements; lang_html_10;
             py_str row_c_score; lang_html_11; py_str c_commentary; lang_html_12;
             py_str c_improvements; lang_html_13])))))))))))))))))))))
  with
  | Ok html => html
  | Raise e =>
      (* If there's an error parsing the response, return a basic error message *)
      error_html e
  end.

(** [feedback_points] from the field [feedback]: a list as it is, a string
    as a one-item list, anything else as no points. *)
Definition as_points (feedback : pyval) : list pyval :=
  match feedback with
  | PList l => l
  | PStr _ => [feedback]
  | _ => []
  end.

Fixpoint feedback_items (points : list pyval) : string :=
  match points with
  | [] => ""
  | point :: rest => "<li>" ++ py_str point ++ "</li>" ++ feedback_items rest
  end.

Definition create_general_course_html (api_response_json : string) : string :=
  match
    bind (Json.loads api_response_json) (fun api_response =>
    bind (py_get api_response "total_points" (PInt 0)) (fun total_points =>
    bind (py_get api_response "awarded_points" (PInt 0)) (fun awarded_points =>
    (* Calculate score percentage if not provided *)
    bind (py_contains "score_percentage" api_response) (fun has_percentage =>
    bind (if has_percentage then py_get api_response "score_percentage" (PInt 0)
          else
            bind (py_gt_zero total_points) (fun positive =>
            if positive then
              bind (py_truediv awarded_points total_points) (fun q =>
              bind (py_mul_num q (PInt 100)) (fun pct => py_round1 pct))
            else Ok (PInt 0))) (fun score_percentage =>
    (* Try different possible field names for rationale *)
    bind (py_get api_response "rationale" (PStr "")) (fun rationale0 =>
    bind (if negb (truthy rationale0)
          then py_get api_response "rationale_for_the_score" (PStr "")
          else Ok rationale0) (fun rationale =>
    (* Extract feedback points *)
    bind (py_contains "feedback" api_response) (fun has_feedback =>
    bind (if has_feedback then
            bind (py_get api_response "feedback" (PList [])) (fun feedback =>
            Ok (as_points feedback))
          else
            bind (py_contains "feedback_to_the_student" api_response) (fun has_fts =>
            if has_fts then
              bind (py_get api_response "feedback_to_the_student" (PList []))
                   (fun feedback => Ok (as_points feedback))
            else Ok [])) (fun feedback_points =>
    let feedback_html0 := feedback_items feedback_points in
    let feedback_html :=
      if String.eqb feedback_html0 ""
      then "<li>No specific feedback points provided.</li>"
      else feedback_html0 in
    Ok (cat [general_html_1; py_str total_points; general_html_2;
             py_str awarded_points; general_html_3; py_str score_percentage;
             general_html_4; py_str rationale; general_html_5; feedback_html;
             general_html_6]))))))))))
  with
  | Ok html => html
  | Raise e => error_html e
  end.

(** ** The endpoint *)

(** The four ways of grading. *)
Inductive strategy : Type :=
| TwoStage            (* Environmental Science: two generators in sequence *)
| Language            (* the AP Language endpoint *)
| Literature          (* the AP Literature endpoint *)
| General.            (* the general AP grader *)

(** The [if]/[elif] chain of [grade_frq] on the normalized course. *)
Definition select_strategy (normalized_course : string) : strategy :=
  if String.eqb normalized_course "environmental science" then TwoStage
  else if String.eqb normalized_course "language" then Language
  else if String.eqb normalized_course "literature" then Literature
  else General.

(** Construction of the response model: its two text fields must be
    [str] objects, any other object is a validation error. *)
Definition make_response (scoring feedback : pyval) (html : string)
           (possible earned : float) : result GradingResponse :=
  match scoring, feedback with
  | PStr s, PStr f => Ok (Build_GradingResponse s f html possible earned)
  | _, _ => Raise (Exception_ "ValidationError" "validation error for GradingResponse")
  end.

Definition six : float := round_Z 6.

(** The Language and the Literature branches differ by the endpoint and by
    the name in the error text only. *)
Definition grade_essay (endpoint api_name question student_answer : string)
  : io GradingResponse :=
  let payload := PDict [("full_question", PStr question);
                        ("student_essay", PStr student_answer);
                        ("reference_text", PStr "")] in
  r <- post w endpoint payload ;;
  let '(status_code, text) := r in
  if negb (status_code =? 200)%Z then
    raise (HTTPException 500 ("Error from " ++ api_name ++ " API: " ++ text))
  else
    api_response <- lift (Json.loads text) ;;
    let api_response_json := dumps api_response in
    (* total possible is always 6, earned is from original_total_score or
       the sum of the row scores *)
    let total_possible_points := six in
    has_total <- lift (py_contains "original_total_score" api_response) ;;
    total_earned_points <-
      lift (if has_total then
              bind (py_getitem api_response "original_total_score") py_float
            else
              bind (py_get api_response "rowA" (PDict [])) (fun rowA =>
              bind (py_get rowA "score" (PInt 0)) (fun row_a_score =>
              bind (py_get api_response "rowB" (PDict [])) (fun rowB =>
              bind (py_get rowB "score" (PInt 0)) (fun row_b_score =>
              bind (py_get api_response "rowC" (PDict [])) (fun rowC =>
              bind (py_get rowC "score" (PInt 0)) (fun row_c_score =>
              bind (py_add row_a_score row_b_score) (fun ab =>
              bind (py_add ab row_c_score) py_float)))))))) ;;
    let html_for_app := create_language_literature_html api_response_json in
    lift (make_response (PStr api_response_json) (PStr "") html_for_app
                        total_possible_points total_earned_points).

(** The Environmental Science branch: two generators in sequence. *)
Definition grade_environmental_science
           (question student_answer scoring_rubric image_data : string)
  : io GradingResponse :=
  let claude_prompt :=
    create_claude_prompt question student_answer scoring_rubric image_data in
  let claude_messages := user_messages claude_prompt in
  scoring_response <- call_claude_api claude_messages ;;
  let openai_prompt := create_openai_prompt scoring_response in
  let openai_messages := user_messages openai_prompt in
  feedback_response <- call_openai_api openai_messages ;;
  (* Extract score information *)
  score <- lift (extract_score_from_env_science scoring_response feedback_response) ;;
  let '(total_earned_points, total_possible_points) := score in
  (* Generate HTML for Environmental Science *)
  html_for_app <-
    lift (create_environmental_science_html scoring_response feedback_response) ;;
  lift (make_response scoring_response feedback_response html_for_app
                      total_possible_points total_earned_points).

Definition grade_frq (course_title question student_answer scoring_rubric : string)
           (images : option (list string)) : io GradingResponse :=
  try_io
    ((* Process images if provided *)
     let image_data :=
       match images with
       | Some ((_ :: _) as l) => join nl (List.map b64encode l)
       | _ => ""
       end in
     (* First, classify the FRQ to determine the course *)
     classified_course <- classify_frq_course course_title question ;;
     normalized_course <- lift (normalize_object classified_course) ;;
     match select_strategy normalized_course with
     | TwoStage =>
         grade_environmental_science question student_answer scoring_rubric image_data
     | Language => grade_essay LANG_ENDPOINT "AP Language" question student_answer
     | Literature => grade_essay LIT_ENDPOINT "AP Literature" question student_answer
     | General =>
         let data := PDict [("question", PStr question);
                            ("student_answer", PStr student_answer);
                            ("scoring_rubric", PStr scoring_rubric)] in
         r <- post w GENERAL_ENDPOINT data ;;
         let '(status_code, text) := r in
         if negb (status_code =? 200)%Z then
           raise (HTTPException 500 ("Error from AP grader API: " ++ text))
         else
           api_response <- lift (Json.loads text) ;;
           let api_response_json := dumps api_response in
           total_possible_points <-
             lift (bind (py_get api_response "total_points" (PInt 0)) py_float) ;;
           total_earned_points <-
             lift (bind (py_get api_response "awarded_points" (PInt 0)) py_float) ;;
           let html_for_app := create_general_course_html api_response_json in
           lift (make_response (PStr api_response_json) (PStr "") html_for_app
                               total_possible_points total_earned_points)
     end)
    (fun e =>
       if is_HTTPException e then raise e
       else raise (HTTPException 500 ("Internal server error: " ++ str_exn e))).

(** The form posted to [/grade/].  A field is [None] when the request does
    not carry it. *)
Record grade_form : Type := {
  form_course_title : option string;
  form_question : option string;
  form_student_answer : option string;
  form_scoring_rubric : option string;
  form_images : option (list string)
}.

(** A parameter declared [Form(...)] is required; the framework takes a
    form field with an empty value as absent. *)
Definition required_field (field : option string) : option string :=
  match field with
  | Some EmptyString => None
  | _ => field
  end.

Definition validation_error : exn :=
  Exception_ "RequestValidationError" "Field required".

(** The route [POST /grade/]: the framework binds the form to the
    parameters of [grade_frq], and answers a request that lacks a required
    one with a validation error (status 422) without calling the handler. *)
Definition post_grade (f : grade_form) : io GradingResponse :=
  match required_field (form_course_title f), required_field (form_question f),
        required_field (form_student_answer f), required_field (form_scoring_rubric f)
  with
  | Some course_title, Some question, Some student_answer, Some scoring_rubric =>
      grade_frq course_title question student_answer scoring_rubric (form_images f)
  | _, _, _, _ => raise validation_error
  end.

End WithWorld.

(** [GET /health] *)
Definition health_check : pyval :=
  PDict [("status", PStr "healthy"); ("message", PStr "AP FRQ Grading API is running")].

End Router.

(** * [ap-frq-grader.py] *)

Module Grader.
Import PyStr Py PyOps World GraderText.

Record ScoringRequest : Type := {
  question : string;
  student_answer : string;
  scoring_rubric : string
}.

Record ScoringResponse : Type := {
  total_points : float;
  awarded_points : float;
  score : float;
  rationale_for_the_score : string;
  feedback_to_the_student : list string
}.

Definition create_scoring_prompt (question student_answer scoring_rubric : string)
  : string :=
  cat [scoring_prompt_1; question; scoring_prompt_2; student_answer; scoring_prompt_3;
       scoring_rubric; scoring_prompt_4; scoring_response_schema_json; scoring_prompt_5].

(** The body of a JSON string when non-ASCII text is kept. *)
Fixpoint escape_plain (s : string) : string :=
  match s with
  | EmptyString => EmptyString
  | String c s' =>
      let n := nat_of_ascii c in
      let piece : string :=
        if (n =? 34)%nat then String "\"%char dq
        else if (n =? 92)%nat then "\\"
        else if (n =? 10)%nat then "\n"
        else if (n =? 13)%nat then "\r"
        else if (n =? 9)%nat then "\t"
        else if (n =? 8)%nat then "\b"
        else if (n =? 12)%nat then "\f"
        else if (n <? 32)%nat then u_escape n
        else String c EmptyString in
      piece ++ escape_plain s'
  end.

(** [request.model_dump_json()] *)
Definition model_dump_json (r : ScoringRequest) : string :=
  "{" ++ dq ++ "question" ++ dq ++ ":" ++ dq ++ escape_plain (question r) ++ dq
      ++ "," ++ dq ++ "student_answer" ++ dq ++ ":" ++ dq
      ++ escape_plain (student_answer r) ++ dq
      ++ "," ++ dq ++ "scoring_rubric" ++ dq ++ ":" ++ dq
      ++ escape_plain (scoring_rubric r) ++ dq ++ "}".

(** Validation of the fields when the response model is built from the
    decoded answer: a number for the three float fields, a [str], and a
    list of [str]. *)
Definition float_field (d : list (string * pyval)) (k : string) : option float :=
  match dict_lookup k d with
  | Some (PStr s) => float_of_str s
  | Some v => match py_float v with Ok f => Some f | Raise _ => None end
  | None => None
  end.

Fixpoint all_str (l : list pyval) : option (list string) :=
  match l with
  | [] => Some []
  | PStr s :: l' =>
      match all_str l' with
      | Some r => Some (s :: r)
      | None => None
      end
  | _ :: _ => None
  end.

Definition validate_scoring_response (scoring_data : pyval) : result ScoringResponse :=
  match scoring_data with
  | PDict d =>
      match float_field d "total_points", float_field d "awarded_points",
            float_field d "score", dict_lookup "rationale_for_the_score" d,
            dict_lookup "feedback_to_the_student" d with
      | Some t, Some a, Some sc, Some (PStr r), Some (PList l) =>
          match all_str l with
          | Some fb => Ok (Build_ScoringResponse t a sc r fb)
          | None => Raise (Exception_ "ValidationError" "validation error for ScoringResponse")
          end
      | _, _, _, _, _ =>
          Raise (Exception_ "ValidationError" "validation error for ScoringResponse")
      end
  | _ =>
      Raise (TypeError ("ScoringResponse() argument after ** must be a mapping, not "
                        ++ type_name scoring_data))
  end.

Section WithWorld.
Variable w : world.

Notation "x <- m ;; k" := (iobind m (fun x => k))
  (at level 61, m at next level, right associativity).

(** This file does not import [time]: the [time.sleep(4)] of the handler
    raises [NameError], which leaves the function at the first failure. *)
Definition name_error_time : exn :=
  Exception_ "NameError" "name 'time' is not defined".

Fixpoint call_openai_api_loop (attempts : list nat) (messages : pyval) : io pyval :=
  match attempts with
  | [] => ret PNone
  | attempt :: rest =>
      st <- try_io
              (choices <- create w "o1" messages "medium" ;;
               v <- lift (Router.first_content choices) ;;
               ret (Router.Return v))
              (fun e =>
                 if (attempt <? 2)%nat then raise name_error_time
                 else
                   raise (HTTPException 500 ("Error calling OpenAI API: " ++ str_exn e))) ;;
      match st with
      | Router.Return v => ret v
      | Router.Continue => call_openai_api_loop rest messages
      end
  end.

Definition call_openai_api (messages : pyval) : io pyval :=
  call_openai_api_loop [0; 1; 2]%nat messages.

Definition score_answer (request : ScoringRequest) : io ScoringResponse :=
  try_io
    ((* Input validation: [not all([...])] *)
     if negb (truthy (PStr (question request)) && truthy (PStr (student_answer request))
              && truthy (PStr (scoring_rubric request)))
     then raise (HTTPException 400
                   "All fields (question, student_answer, scoring_rubric) are required")
     else
       calculationResult <- check w (model_dump_json request) ;;
       let '(requires_calculation, reasoning) := calculationResult in
       let rubric :=
         if requires_calculation
         then scoring_rubric request ++ nl ++ "Note: " ++ reasoning
         else scoring_rubric request in
       (* Create prompt *)
       let prompt := create_scoring_prompt (question request) (student_answer request) rubric in
       let messages := Router.user_messages prompt in
       response <- call_openai_api messages ;;
       if negb (truthy response) then
         raise (HTTPException 500 "Failed to get response from Claude API")
       else
         (* Parse JSON response *)
         lift (try_when is_JSONDecodeError
                 (bind (Router.json_loads response) validate_scoring_response)
                 (fun e => Raise (HTTPException 500
                                    ("Invalid JSON response from Claude: " ++ str_exn e)))))
    (fun e =>
       if is_HTTPException e then raise e
       else raise (HTTPException 500 ("Internal server error: " ++ str_exn e))).

(** The route [POST /score/]: the body must carry the three fields of
    [ScoringRequest]; a request without one of them is answered with a
    validation error (status 422) without calling the handler. *)
Definition post_score (q a r : option string) : io ScoringResponse :=
  match q, a, r with
  | Some question, Some student_answer, Some scoring_rubric =>
      score_answer (Build_ScoringRequest question student_answer scoring_rubric)
  | _, _, _ => raise Router.validation_error
  end.

(** The payload of [call_claude_api]: the router's, with temperature 0. *)
Definition claude_payload (messages : pyval) : pyval :=
  PDict [("model", PStr "claude-3-5-sonnet-20241022");
         ("max_tokens", PInt 8192);
         ("temperature", PInt 0);
         ("messages", messages)].

(** [call_claude_api]: one post without retry; the text is read with
    [response.json()['content'][0]['text']]. *)
Definition call_claude_api (messages : pyval) : io pyval :=
  try_io
    (r <- post w Router.CLAUDE_API_URL (claude_payload messages) ;;
     let '(status_code, text) := r in
     if (status_code =? 200)%Z then
       data <- lift (Json.loads text) ;;
       content <- lift (py_getitem data "content") ;;
       first <- lift (py_getitem0 content) ;;
       lift (py_getitem first "text")
     else
       raise (HTTPException status_code ("Claude API call failed: " ++ text)))
    (fun e => raise (HTTPException 500 ("Error calling Claude API: " ++ str_exn e))).

End WithWorld.

(** [GET /health] *)
Definition health_check : pyval :=
  PDict [("status", PStr "healthy"); ("message", PStr "AP Scoring API is running")].

End Grader.

(* ================================================================== *)
(** * Part II.  The specification and its proofs                        *)
(* ================================================================== *)

Module Spec.
Import PyStr Re.

(** Every character of the text is in the class. *)
Fixpoint all_chars (p : ascii -> bool) (s : string) : bool :=
  match s with
  | EmptyString => true
  | String c s' => p c && all_chars p s'
  end.










(** The character does not occur in the text. *)
Definition no_char (c : ascii) (s : string) : Prop :=
  all_chars (fun x => negb (Ascii.eqb x c)) s = true.


Definition blanks (w : string) : Prop := all_chars is_space w = true.



(** Decoding the text fails with [JSONDecodeError]. *)
Definition not_json (text : string) : Prop :=
  exists e, Json.loads text = Py.Raise e /\ Py.is_JSONDecodeError e = true.

(** [span] is the part of the text from its first opening brace to its
    last closing brace. *)
Definition outermost_span (text span : string) : Prop :=
  exists pre mid post,
    text = pre ++ span ++ post /\ span = "{" ++ mid ++ "}" /\
    no_char "{" pre /\ no_char "}" post.


(** [d.get("course_of_the_frq", "")] *)
Definition field_or_empty (d : list (string * Py.pyval)) : Py.pyval :=
  match Py.dict_lookup "course_of_the_frq" d with
  | Some v => v
  | None => Py.PStr ""
  end.





(** [d.get(k, default)] on a [dict]. *)
Definition get_or (d : list (string * Py.pyval)) (k : string) (default : Py.pyval)
  : Py.pyval :=
  match Py.dict_lookup k d with
  | Some v => v
  | None => default
  end.


(** The score of a row of the response: the integer under [score] of the
    object under [row], and 0 when the row or its score is absent. *)
Definition row_score (resp : list (string * Py.pyval)) (row : string) (z : Z) : Prop :=
  (Py.dict_lookup row resp = None /\ z = 0%Z)
  \/ (exists r, Py.dict_lookup row resp = Some (Py.PDict r) /\
                 (Py.dict_lookup "score" r = Some (Py.PInt z)
                  \/ (Py.dict_lookup "score" r = None /\ z = 0%Z))).

(** The payload sent to the language and literature endpoints. *)
Definition essay_payload (question student_answer : string) : Py.pyval :=
  Py.PDict [("full_question", Py.PStr question);
            ("student_essay", Py.PStr student_answer);
            ("reference_text", Py.PStr "")].


(** What one attempt of [call_claude_api] comes to, given the answer of
    the transport: the text of a well-formed answer, or the exception that
    ends the attempt. *)
Definition claude_attempt (out : World.http_outcome) : Py.result Py.pyval :=
  match out with
  | World.HttpRaise e => Py.Raise e
  | World.HttpResponse status_code text =>
      if (status_code =? 200)%Z
      then Py.bind (Json.loads text) Router.claude_text
      else Py.Raise (Py.HTTPException status_code ("Claude API call failed: " ++ text))
  end.

(** What one attempt of [call_openai_api] comes to. *)
Definition openai_attempt (out : World.sdk_outcome) : Py.result Py.pyval :=
  match out with
  | World.SdkRaise e => Py.Raise e
  | World.Completion choices => Router.first_content choices
  end.


(** A field of a request is missing when it is absent or empty. *)
Definition missing (field : option string) : Prop :=
  field = None \/ field = Some EmptyString.


(** What a scanning step leaves unread. *)
Definition rest_of (x : Py.pyval * string * nat) : string := snd (fst x).

(** The scanning step did not stop for want of fuel. *)
Definition no_recursion {A} (r : Json.scan A) : Prop :=
  forall msg, r <> Json.SRaise (Py.RecursionError msg).


End Spec.

(** Worlds and texts for the examples. *)
Module Examples.
Import PyStr Py World.

(** A transport that answers every post in the same way, an SDK that
    returns one choice with the given content. *)
Definition constant_world (status_code : Z) (body : string) (content : string) : world :=
  World (fun _ _ _ => HttpResponse status_code body)
        (fun _ _ _ _ => Completion [Some content])
        (fun _ _ => (false, EmptyString)).

Definition overloaded : world := constant_world 503 "overloaded" "".



(** A response with scores 1, 3, 0. *)
Definition rows_example : string :=
  "{" ++ dq ++ "rowA" ++ dq ++ ": {" ++ dq ++ "score" ++ dq ++ ": 1}, "
      ++ dq ++ "rowB" ++ dq ++ ": {" ++ dq ++ "score" ++ dq ++ ": 3}, "
      ++ dq ++ "rowC" ++ dq ++ ": {" ++ dq ++ "score" ++ dq ++ ": 0}}".


(** A Claude answer in the format of the messages API, with the given
    text. *)
Definition claude_answer (text_json : string) : string :=
  "{" ++ dq ++ "content" ++ dq ++ ": [{" ++ dq ++ "type" ++ dq ++ ": " ++ dq ++ "text" ++ dq
      ++ ", " ++ dq ++ "text" ++ dq ++ ": " ++ text_json ++ "}]}".

End Examples.

(** Notions used to state what the code guarantees beyond the
    specification. *)
Module Laws.
Import PyStr Re Py World.

(** The events of a retried call: the calls in order, with a sleep of 4
    seconds between one call and the next. *)
Fixpoint with_backoff (calls : list event) : list event :=
  match calls with
  | [] => []
  | c :: rest =>
      match rest with
      | [] => [c]
      | _ :: _ => c :: ESleep 4 :: with_backoff rest
      end
  end.

(** The answer makes the attempt of the router's [call_claude_api] fail. *)
Definition claude_failed (o : http_outcome) : Prop :=
  exists e, Spec.claude_attempt o = Raise e.

(** The answer makes the attempt of the router's [call_openai_api] fail. *)
Definition openai_failed (o : sdk_outcome) : Prop :=
  exists e, Spec.openai_attempt o = Raise e.

(** The pattern of a section of the feedback: the marker, then as little
    text as possible up to a place where the stop mark follows or the text
    ends. *)
Definition section_pattern (marker stop : string) : regex :=
  seq [Lit marker; StarLazy any; Ahead (Alt (Lit stop) Eos)].

Definition did_well_mark : string := "✅ What You Did Well".
Definition improve_mark : string := "⚠️ How to Improve".
Definition next_steps_mark : string := "🔹 Next Steps to Improve Your FRQ Score".
Definition warning_sign : string := "⚠️".
Definition rocket : string := "🚀".

(** A section may stop in front of [rest]: the stop mark is there, or the
    text ends there (a last line feed apart). *)
Definition stops (stop rest : string) : bool := startswith rest stop || at_eos rest.

(** The marker starts nowhere inside [pre], when [rest] follows [pre]. *)
Fixpoint no_start (marker pre rest : string) : bool :=
  match pre with
  | EmptyString => true
  | String _ pre' => negb (startswith (pre ++ rest) marker) && no_start marker pre' rest
  end.

(** The section may stop nowhere inside [body], when [post] follows it. *)
Fixpoint no_stop (stop body post : string) : bool :=
  match body with
  | EmptyString => true
  | String _ body' => negb (stops stop (body ++ post)) && no_stop stop body' post
  end.

(** In the text [pre ++ marker ++ body ++ post], the first occurrence of the
    marker is the one after [pre], and the first place after it where the
    section may stop is the one in front of [post]. *)
Definition section_at (marker stop pre body post : string) : bool :=
  no_start marker pre (marker ++ body ++ post) && stops stop post && no_stop stop body post.

(** The transport raises its own exceptions, never the [HTTPException] of
    the web framework. *)
Definition honest_transport (w : world) : Prop :=
  forall log url body e, http_post w log url body = HttpRaise e -> is_HTTPException e = false.

(** An [HTTPException] of status 500. *)
Definition server_error (e : exn) : Prop := exists detail, e = HTTPException 500 detail.

(** An exception that is no [HTTPException], unless of status 500. *)
Definition plain_or_500 (e : exn) : Prop := is_HTTPException e = true -> server_error e.

(** The result is not an [HTTPException]. *)
Definition raises_plain {A} (r : result A) : Prop :=
  forall e, r = Raise e -> is_HTTPException e = false.

(** The computation raises no [HTTPException] but of status 500. *)
Definition io_plain_or_500 {A} (m : io A) : Prop :=
  forall log e log', m log = (Raise e, log') -> plain_or_500 e.

(** The computation has no interaction with the outside. *)
Definition quiet {A} (m : io A) : Prop := forall log, snd (m log) = log.

(** The strategy that a request is routed to, when its classification
    ends with a course name. *)
Definition chosen (w : world) (course_title question : string) (log : list event)
  : option Router.strategy :=
  match Router.classify_frq_course w course_title question log with
  | (Ok c, _) =>
      match Router.normalize_object c with
      | Ok n => Some (Router.select_strategy n)
      | Raise _ => None
      end
  | (Raise _, _) => None
  end.

(** The decoded answer has a non-empty list under [content]. *)
Definition usable_content (d : list (string * pyval)) : bool :=
  match dict_lookup "content" d with
  | Some (PList (_ :: _)) => true
  | _ => false
  end.

(** The messages of the classification call. *)
Definition classification_messages (course_title question : string) : pyval :=
  Router.user_messages (Router.create_classification_prompt course_title question).


(** The payload sent to the general grader. *)
Definition general_payload (question student_answer scoring_rubric : string) : pyval :=
  PDict [("question", PStr question);
         ("student_answer", PStr student_answer);
         ("scoring_rubric", PStr scoring_rubric)].

(** ** Values that the encoder and the decoder agree on *)

(** The bytes of a well-formed UTF-8 sequence of two, three and four bytes
    (Unicode, table 3-7): the shortest form only, no surrogate, nothing
    above U+10FFFF. *)
Definition seq2 (c c1 : ascii) : bool :=
  let n := nat_of_ascii c in
  ((194 <=? n) && (n <? 224))%nat && PyOps.is_cont c1.

Definition seq3 (c c1 c2 : ascii) : bool :=
  let n := nat_of_ascii c in
  let n1 := nat_of_ascii c1 in
  ((224 <=? n) && (n <? 240))%nat && PyOps.is_cont c1 && PyOps.is_cont c2
  && (negb (n =? 224) || (160 <=? n1))%nat && (negb (n =? 237) || (n1 <? 160))%nat.

Definition seq4 (c c1 c2 c3 : ascii) : bool :=
  let n := nat_of_ascii c in
  let n1 := nat_of_ascii c1 in
  ((240 <=? n) && (n <? 245))%nat
  && PyOps.is_cont c1 && PyOps.is_cont c2 && PyOps.is_cont c3
  && (negb (n =? 240) || (144 <=? n1))%nat && (negb (n =? 244) || (n1 <? 144))%nat.

(** Text that is well-formed UTF-8: what a Python [str] without lone
    surrogates is as bytes. *)
Fixpoint utf8_text (s : string) : bool :=
  match s with
  | EmptyString => true
  | String c s' =>
      if (nat_of_ascii c <? 128)%nat then utf8_text s'
      else
        match s' with
        | String c1 s1 =>
            if seq2 c c1 then utf8_text s1
            else
              match s1 with
              | String c2 s2 =>
                  if seq3 c c1 c2 then utf8_text s2
                  else
                    match s2 with
                    | String c3 s3 => seq4 c c1 c2 c3 && utf8_text s3
                    | EmptyString => false
                    end
              | EmptyString => false
              end
        | EmptyString => false
        end
  end.

(** The code points of the sequences. *)
Definition cp2 (c c1 : ascii) : nat :=
  ((nat_of_ascii c - 192) * 64 + PyOps.cont_bits c1)%nat.

Definition cp3 (c c1 c2 : ascii) : nat :=
  ((nat_of_ascii c - 224) * 4096 + PyOps.cont_bits c1 * 64 + PyOps.cont_bits c2)%nat.

Definition cp4 (c c1 c2 c3 : ascii) : nat :=
  ((nat_of_ascii c - 240) * 262144 + PyOps.cont_bits c1 * 4096
   + PyOps.cont_bits c2 * 64 + PyOps.cont_bits c3)%nat.

(** No key occurs twice. *)
Fixpoint keys_distinct (d : list (string * pyval)) : bool :=
  match d with
  | [] => true
  | (k, _) :: d' => negb (existsb (String.eqb k) (List.map fst d')) && keys_distinct d'
  end.

(** The values considered for the round trip through JSON: no float, the
    integers that [str] and [int] convert (at most 4300 digits), strings
    and keys of well-formed UTF-8, no key twice in an object. *)
Fixpoint plain (v : pyval) : bool :=
  match v with
  | PNone | PBool _ => true
  | PInt z => (String.length (str_int (Z.abs z)) <=? 4300)%nat
  | PFloat _ => false
  | PStr s => utf8_text s
  | PList l => forallb plain l
  | PDict d =>
      keys_distinct d && forallb (fun kv => utf8_text (fst kv) && plain (snd kv)) d
  end.

(** How the decoder reads back an encoded ASCII character: as itself, or
    as the 16-bit unit of its escape when it is a control character
    without a short escape. *)
Definition item_of (c : ascii) : Json.item :=
  let n := nat_of_ascii c in
  if ((n =? 8) || (n =? 9) || (n =? 10) || (n =? 12) || (n =? 13))%nat then Json.Byte c
  else if ((n <? 32) || (n =? 127))%nat then Json.Unit16 (N.of_nat n)
  else Json.Byte c.

(** The encoding of an ASCII character inside a string literal. *)
Definition ascii_piece (c : ascii) : string :=
  let n := nat_of_ascii c in
  if (n =? 34)%nat then String "\"%char dq
  else if (n =? 92)%nat then "\\"
  else if (n =? 10)%nat then "\n"
  else if (n =? 13)%nat then "\r"
  else if (n =? 9)%nat then "\t"
  else if (n =? 8)%nat then "\b"
  else if (n =? 12)%nat then "\f"
  else if ((n <? 32) || (n =? 127))%nat then PyOps.u_escape n
  else String c EmptyString.

(** The two 16-bit units of the escape of a code point above U+FFFF. *)
Definition high_unit (cp : nat) : nat := (55296 + (cp - 65536) / 1024)%nat.
Definition low_unit (cp : nat) : nat := (56320 + (cp - 65536) mod 1024)%nat.

(** What the decoder reads in the encoding of a text: one item for an
    ASCII character and for a code point up to U+FFFF, the two units of
    the surrogate pair for a code point above. *)
Fixpoint items_of (s : string) : list Json.item :=
  match s with
  | EmptyString => []
  | String c s' =>
      if (nat_of_ascii c <? 128)%nat then item_of c :: items_of s'
      else
        match s' with
        | String c1 s1 =>
            if seq2 c c1 then Json.Unit16 (N.of_nat (cp2 c c1)) :: items_of s1
            else
              match s1 with
              | String c2 s2 =>
                  if seq3 c c1 c2 then Json.Unit16 (N.of_nat (cp3 c c1 c2)) :: items_of s2
                  else
                    match s2 with
                    | String c3 s3 =>
                        Json.Unit16 (N.of_nat (high_unit (cp4 c c1 c2 c3)))
                        :: Json.Unit16 (N.of_nat (low_unit (cp4 c c1 c2 c3)))
                        :: items_of s3
                    | EmptyString => []
                    end
              | EmptyString => []
              end
        | EmptyString => []
        end
  end.

(** What may follow a number in a document: nothing, or a character that
    does not continue the number. *)
Definition delimited (rest : string) : bool :=
  match rest with
  | EmptyString => true
  | String c _ =>
      negb (is_digit c) && negb (Ascii.eqb c ".") && negb (Ascii.eqb c "e")
      && negb (Ascii.eqb c "E")
  end.

(** The first character of an encoded value: an ASCII character that is
    neither white space nor a closing bracket. *)
Definition opens_value (c : ascii) : bool :=
  (nat_of_ascii c <? 128)%nat && negb (Json.is_ws c) && negb (Ascii.eqb c "]").

(** The encoded pairs of an object, and the encoded items of a list. *)
Definition dumps_pair (kv : string * pyval) : string :=
  PyOps.dumps_str (fst kv) ++ ": " ++ PyOps.dumps (snd kv).


End Laws.

(** Worlds and texts for the examples of Part III. *)
Module Samples.
Import PyStr Py World Laws.

(** The SDK cannot reach the generator. *)
Definition sdk_down : world :=
  World (fun _ _ _ => HttpResponse 200 EmptyString)
        (fun _ _ _ _ => SdkRaise (Exception_ "APIConnectionError" "Connection error."))
        (fun _ _ => (false, EmptyString)).

(** An answer of the classifier whose text is the JSON list [[]], and one
    whose course is the number 5. *)
Definition list_answer : string := Examples.claude_answer (dq ++ "[]" ++ dq).
Definition numeric_course_answer : string :=
  Examples.claude_answer
    (dq ++ "{\" ++ dq ++ "course_of_the_frq\" ++ dq ++ ": 5}" ++ dq).

(** An answer of the classifier that is no JSON at all. *)
Definition prose_answer : string := Examples.claude_answer (dq ++ "no idea" ++ dq).

Definition points_example : string :=
  "{" ++ dq ++ "total_points" ++ dq ++ ": 5}".

(** An answer of the generator to the scoring prompt. *)
Definition scoring_example : string :=
  "{" ++ dq ++ "total_points" ++ dq ++ ": 4, "
      ++ dq ++ "awarded_points" ++ dq ++ ": 3, "
      ++ dq ++ "score" ++ dq ++ ": 75, "
      ++ dq ++ "rationale_for_the_score" ++ dq ++ ": " ++ dq ++ "Good." ++ dq ++ ", "
      ++ dq ++ "feedback_to_the_student" ++ dq ++ ": [" ++ dq ++ "Add units." ++ dq ++ "]}".

(** The check of the calculations asks for a note, and the generator
    answers with [scoring_example]. *)
Definition noting_world : world :=
  World (fun _ _ _ => HttpResponse 200 EmptyString)
        (fun _ _ _ _ => Completion [Some scoring_example])
        (fun _ _ => (true, "Check the rounding.")).

(** An answer of status 200 without content. *)
Definition empty_answer : string := "{}".

(** A feedback in the order of the template of the second prompt. *)
Definition feedback_head : string :=
  "Final Score: 4/6" ++ nl ++ "AP Score Estimate: 3" ++ nl ++ nl.
Definition feedback_well : string :=
  " (4/6)" ++ nl ++ "✔ The claim is clear." ++ nl ++ nl.
Definition feedback_improve : string :=
  " (2/6)" ++ nl ++ "🔹 Missed Parts:" ++ nl ++ "b-i: ❌" ++ nl ++ nl.
Definition feedback_next : string :=
  nl ++ "📌 Double-check numerical data." ++ nl ++ nl.
Definition feedback_tail : string := "🚀 Keep practicing!".

Definition feedback_example : string :=
  feedback_head ++ did_well_mark ++ feedback_well ++ improve_mark ++ feedback_improve
    ++ next_steps_mark ++ feedback_next ++ feedback_tail.

(** An answer of a grader whose feedback has characters of two, three
    and four bytes. *)
Definition accented_text : string := "Très bien — 🚀".

Definition accented_example : string :=
  "{" ++ dq ++ "overall_feedback" ++ dq ++ ": " ++ dq ++ accented_text ++ dq ++ "}".

End Samples.

Import PyStr Re Spec Examples.

Lemma app_assoc_s (a b c : string) : (a ++ b) ++ c = a ++ b ++ c.
Proof. induction a; simpl; congruence. Qed.

Lemma app_empty_r (a : string) : a ++ "" = a.
Proof. induction a; simpl; congruence. Qed.

Lemma length_app (a b : string) : String.length (a ++ b) = String.length a + String.length b.
Proof. induction a; simpl; congruence. Qed.

Lemma take_app (a b : string) :
  take (String.length (a ++ b) - String.length b) (a ++ b) = a.
Proof.
  rewrite length_app.
  replace (String.length a + String.length b - String.length b) with (String.length a) by lia.
  induction a; simpl.
  - destruct b; reflexivity.
  - congruence.
Qed.

Lemma strip_prefix_app (l rest : string) : strip_prefix l (l ++ rest) = Some rest.
Proof.
  induction l; simpl.
  - reflexivity.
  - now rewrite Ascii.eqb_refl.
Qed.

Lemma strip_prefix_sound (l s rest : string) :
  strip_prefix l s = Some rest -> s = l ++ rest.
Proof.
  revert s; induction l as [|a l IH]; intros s H; simpl in *.
  - congruence.
  - destruct s as [|b s]; [discriminate|].
    destruct (Ascii.eqb a b) eqn:E; [|discriminate].
    apply Ascii.eqb_eq in E. subst b. simpl. f_equal. now apply IH.
Qed.

Section Engine.
Context {A : Type}.






End Engine.




(** ** [re.search] *)

Lemma rev_onto_app (s acc : string) : rev_onto s acc = rev s ++ acc.
Proof.
  unfold rev. revert acc. induction s as [|c s IH]; intros acc; simpl.
  - reflexivity.
  - rewrite IH, (IH (String c "")), app_assoc_s. reflexivity.
Qed.

Lemma rev_cons (c : ascii) (s : string) : rev (String c s) = rev s ++ String c "".
Proof. unfold rev. simpl. apply rev_onto_app. Qed.









(** ** Score extraction *)

Import Py PyOps Router.













(** ** Routing *)





(** ** Decoding JSON *)

Import Json.

Ltac break_hyp H :=
  match type of H with
  | context [match ?x with _ => _ end] => destruct x eqn:?; try discriminate H
  | context [if ?x then _ else _] => destruct x eqn:?; try discriminate H
  end.

Lemma members_dict : forall fuel s i acc r,
  members fuel s i acc = SOk r -> exists d rest j, r = (PDict d, rest, j).
Proof.
  induction fuel as [|fuel IH]; intros s i acc r H; simpl in H; [discriminate|].
  destruct s as [|c s]; [discriminate|].
  destruct (Ascii.eqb c (ascii_of_nat 34)); [|discriminate].
  destruct (scan_str s (S i) i []) as [[[items r0] j0]| |]; simpl in H; try discriminate.
  destruct (skip_ws r0 j0) as [r1 j1].
  destruct r1 as [|c1 r2]; [discriminate|].
  destruct (Ascii.eqb c1 ":") eqn:Ec.
  2:{ revert H. destruct c1 as [[] [] [] [] [] [] [] []]; try discriminate. }
  apply Ascii.eqb_eq in Ec. subst c1.
  destruct (skip_ws r2 (S j1)) as [r3 j3].
  destruct (scan_once fuel r3 j3) as [[[v r4] j4]| |]; simpl in H; try discriminate.
  destruct (skip_ws r4 j4) as [r5 j5].
  destruct r5 as [|c5 r6]; [discriminate|].
  destruct (Ascii.eqb c5 "}") eqn:E5.
  { apply Ascii.eqb_eq in E5. subst c5. inversion H. eauto. }
  destruct (Ascii.eqb c5 ",") eqn:E6.
  { apply Ascii.eqb_eq in E6. subst c5.
    destruct (skip_ws r6 (S j5)) as [r7 j7]. eapply IH; eauto. }
  exfalso. revert H E5 E6.
  destruct c5 as [[] [] [] [] [] [] [] []]; simpl; try discriminate.
Qed.

(** A document that begins with an opening brace decodes to a [dict], if
    it decodes at all. *)
Lemma loads_brace_dict (s : string) (v : pyval) :
  loads (String "{" s) = Ok v -> exists d, v = PDict d.
Proof.
  unfold loads.
  destruct (startswith (String "{" s) bom) eqn:B; [discriminate|].
  change (skip_ws (String "{" s) 0) with (String "{" s, 0%nat).
  cbv beta iota.
  remember (2 * String.length (String "{" s) + 2)%nat as fuel eqn:Ef.
  destruct fuel as [|fuel]; [simpl in Ef; lia|].
  simpl scan_once.
  destruct (skip_ws s 1) as [s1 i1].
  intros H.
  assert (K : forall x, members fuel s1 i1 [] = SOk x -> exists d rest j, x = (PDict d, rest, j))
    by (intros; eapply members_dict; eauto).
  destruct s1 as [|c1 r].
  - destruct (members fuel "" i1 []) as [[[v0 r0] j0]| |] eqn:E; try discriminate.
    destruct (K _ eq_refl) as (d & rest & j & Ex). inversion Ex; subst.
    destruct (skip_ws rest j) as [r1 j1]. destruct r1; [|discriminate].
    inversion H. eauto.
  - destruct (Ascii.eqb c1 "}") eqn:E1.
    + apply Ascii.eqb_eq in E1. subst c1.
      destruct (skip_ws r (S i1)) as [r1 j1]. destruct r1; [|discriminate].
      inversion H. eauto.
    + assert (Hm : match members fuel (String c1 r) i1 [] with
                   | SOk (v0, r0, j) =>
                       let '(r1, j1) := skip_ws r0 j in
                       match r1 with
                       | "" => Ok v0
                       | String _ _ => Raise (JSONDecodeError "Extra data" (String "{" s) j1)
                       end
                   | SErr msg pos => Raise (JSONDecodeError msg (String "{" s) pos)
                   | SRaise e => Raise e
                   end = Ok v).
      { revert H E1. destruct c1 as [[] [] [] [] [] [] [] []]; simpl; try discriminate; auto. }
      destruct (members fuel (String c1 r) i1 []) as [[[v0 r0] j0]| |] eqn:E; try discriminate.
      destruct (K _ eq_refl) as (d & rest & j & Ex). inversion Ex; subst.
      destruct (skip_ws rest j) as [r1 j1]. destruct r1; [|discriminate].
      inversion Hm. eauto.
Qed.

(** ** The decoder never runs out of fuel *)

Lemma skip_ws_length s i :
  String.length (fst (skip_ws s i)) <= String.length s.
Proof.
  revert i. induction s as [|c s IH]; intros i; simpl.
  - lia.
  - destruct (is_ws c); simpl; [specialize (IH (S i)); lia|lia].
Qed.

Lemma scan_str_length_bounded : forall n s,
  String.length s <= n ->
  forall i start acc items r j,
    scan_str s i start acc = SOk (items, r, j) -> String.length r < String.length s.
Proof.
  induction n as [|n IH]; intros s Hn i start acc items r j H.
  - destruct s; simpl in *; [discriminate|lia].
  - destruct s as [|c s]; simpl in H; [discriminate|]. simpl in Hn.
    destruct (Ascii.eqb c (ascii_of_nat 34)).
    { inversion H; subst. simpl. lia. }
    destruct (Ascii.eqb c "\").
    + destruct s as [|e s]; [discriminate|].
      destruct (Ascii.eqb e "u").
      * destruct s as [|h1 [|h2 [|h3 [|h4 [|x s]]]]]; try discriminate.
        destruct (hex4 h1 h2 h3 h4); [|discriminate].
        apply IH in H; simpl in *; lia.
      * destruct (simple_escape e); [|discriminate].
        apply IH in H; simpl in *; lia.
    + destruct (nat_of_ascii c <? 32)%nat; [discriminate|].
      apply IH in H; simpl in *; lia.
Qed.

Lemma scan_str_length s i start acc items r j :
  scan_str s i start acc = SOk (items, r, j) -> String.length r < String.length s.
Proof. apply (scan_str_length_bounded (String.length s)). lia. Qed.

Lemma scan_str_no_raise_bounded : forall n s,
  String.length s <= n -> forall i start acc e, scan_str s i start acc <> SRaise e.
Proof.
  induction n as [|n IH]; intros s Hn i start acc e.
  - destruct s; simpl in *; [discriminate|lia].
  - destruct s as [|c s]; simpl; [discriminate|]. simpl in Hn.
    destruct (Ascii.eqb c (ascii_of_nat 34)); [discriminate|].
    destruct (Ascii.eqb c "\").
    + destruct s as [|e0 s]; [discriminate|].
      destruct (Ascii.eqb e0 "u").
      * destruct s as [|h1 [|h2 [|h3 [|h4 [|x s]]]]]; try discriminate.
        destruct (hex4 h1 h2 h3 h4); [|discriminate]. apply IH. simpl in *. lia.
      * destruct (simple_escape e0); [|discriminate]. apply IH. simpl in *. lia.
    + destruct (nat_of_ascii c <? 32)%nat; [discriminate|]. apply IH. lia.
Qed.

Lemma scan_str_no_raise s i start acc e : scan_str s i start acc <> SRaise e.
Proof. apply (scan_str_no_raise_bounded (String.length s)). lia. Qed.

Lemma span_length p s : String.length (snd (span p s)) <= String.length s.
Proof.
  induction s as [|c s IH]; simpl; [lia|].
  destruct (p c); simpl; [|lia].
  destruct (span p s); simpl in *. lia.
Qed.

Lemma match_int_part_length t ip r :
  match_int_part t = Some (ip, r) -> String.length r < String.length t.
Proof.
  unfold match_int_part. destruct t as [|c t]; [discriminate|].
  destruct (Ascii.eqb c "0").
  - intros H; inversion H; subst. simpl. lia.
  - destruct (is_digit c); [|discriminate].
    pose proof (span_length is_digit t) as L. destruct (span is_digit t).
    intros H; inversion H; subst. simpl in *. lia.
Qed.

Lemma match_frac_length t : String.length (snd (match_frac t)) <= String.length t.
Proof.
  unfold match_frac. destruct t as [|c t]; simpl; [lia|].
  destruct c as [[] [] [] [] [] [] [] []]; simpl; try lia.
  pose proof (span_length is_digit t) as L. destruct (span is_digit t) as [ds r0].
  destruct ds; simpl in *; lia.
Qed.

Lemma match_exp_length t : String.length (snd (match_exp t)) <= String.length t.
Proof.
  unfold match_exp. destruct t as [|c t]; [simpl; lia|].
  destruct (Ascii.eqb c "e" || Ascii.eqb c "E"); [|simpl; lia].
  match goal with
  | |- context [match ?X with pair _ _ => _ end] =>
      assert (L1 : String.length (snd X) <= String.length t)
        by (destruct t as [|[[] [] [] [] [] [] [] []] u]; simpl; lia);
      destruct X as [neg t']
  end.
  simpl in L1.
  pose proof (span_length is_digit t') as L2. destruct (span is_digit t') as [ds r0].
  destruct ds; simpl in *; lia.
Qed.

Lemma match_number_length s n r :
  match_number s = Some (n, r) -> String.length r < String.length s.
Proof.
  unfold match_number. intros H.
  match type of H with
  | (match ?X with pair _ _ => _ end) = _ =>
      assert (L1 : String.length (snd X) <= String.length s)
        by (destruct s as [|[[] [] [] [] [] [] [] []] t]; simpl; lia);
      destruct X as [neg s1]
  end.
  simpl in L1.
  destruct (match_int_part s1) as [[ip r1]|] eqn:E1; [|discriminate].
  apply match_int_part_length in E1.
  pose proof (match_frac_length r1) as L2. destruct (match_frac r1) as [fr r2].
  pose proof (match_exp_length r2) as L3. destruct (match_exp r2) as [ex r3].
  inversion H; subst. simpl in *. lia.
Qed.

Lemma keyword_length kw v s i x :
  kw <> EmptyString -> keyword kw v s i = Some x ->
  String.length (rest_of x) < String.length s.
Proof.
  unfold keyword. intros N H.
  destruct (strip_prefix kw s) as [r|] eqn:E; [|discriminate].
  apply strip_prefix_sound in E. inversion H; subst. cbn [rest_of fst snd].
  rewrite length_app. destruct kw; [congruence|]. simpl. lia.
Qed.

Lemma number_value_no_recursion n : no_recursion (number_value n).
Proof.
  intros msg. unfold number_value.
  destruct (n_frac n); destruct (n_exp n);
    try destruct (_ <? _)%nat; discriminate.
Qed.

(** A value that has been read has used up at least one character. *)
Lemma scan_progress : forall fuel,
  (forall s i x, scan_once fuel s i = SOk x ->
     String.length (rest_of x) < String.length s)
  /\ (forall s i acc x, elems fuel s i acc = SOk x ->
        String.length (rest_of x) < String.length s)
  /\ (forall s i acc x, members fuel s i acc = SOk x ->
        String.length (rest_of x) < String.length s).
Proof.
  induction fuel as [|fuel (IH1 & IH2 & IH3)].
  { repeat split; intros; discriminate. }
  split; [|split].
  - intros s i x H. cbn [scan_once] in H.
    destruct s as [|c s']; [discriminate|].
    destruct (Ascii.eqb c (ascii_of_nat 34)).
    { destruct (scan_str s' (S i) i []) as [[[items r] j]| |] eqn:E;
        cbn [sbind] in H; try discriminate.
      inversion H; subst. apply scan_str_length in E.
      cbn [rest_of fst snd String.length]. lia. }
    destruct (Ascii.eqb c "{").
    { pose proof (skip_ws_length s' (S i)) as L.
      destruct (skip_ws s' (S i)) as [s1 i1]. cbn [fst] in L.
      pose proof (IH3 s1 i1 [] x) as M.
      destruct s1 as [|[[] [] [] [] [] [] [] []] r];
        first [ apply M in H; cbn [String.length] in *; lia
              | inversion H; subst; cbn [rest_of fst snd String.length] in *; lia ]. }
    destruct (Ascii.eqb c "[").
    { pose proof (skip_ws_length s' (S i)) as L.
      destruct (skip_ws s' (S i)) as [s1 i1]. cbn [fst] in L.
      pose proof (IH2 s1 i1 [] x) as M.
      destruct s1 as [|[[] [] [] [] [] [] [] []] r];
        first [ apply M in H; cbn [String.length] in *; lia
              | inversion H; subst; cbn [rest_of fst snd String.length] in *; lia ]. }
    repeat match type of H with
           | context [match keyword ?k ?v ?t ?j with _ => _ end] =>
               destruct (keyword k v t j) as [y|] eqn:K;
                 [inversion H; subst; apply keyword_length in K; [exact K|discriminate]|];
                 clear K
           end.
    destruct (match_number (String c s')) as [[n r]|] eqn:E; [|discriminate].
    destruct (number_value n); cbn [sbind] in H; try discriminate.
    inversion H; subst. apply match_number_length in E. exact E.
  - intros s i acc x H. cbn [elems] in H.
    destruct (scan_once fuel s i) as [[[v r] j]| |] eqn:E; cbn [sbind] in H;
      try discriminate.
    apply IH1 in E. cbn [rest_of fst snd] in E.
    pose proof (skip_ws_length r j) as L. destruct (skip_ws r j) as [r1 j1].
    cbn [fst] in L.
    destruct r1 as [|[[] [] [] [] [] [] [] []] r2]; try discriminate.
    + inversion H; subst. cbn [rest_of fst snd String.length] in *. lia.
    + pose proof (skip_ws_length r2 (S j1)) as L2.
      destruct (skip_ws r2 (S j1)) as [r3 j3]. cbn [fst] in L2.
      apply IH2 in H. cbn [String.length] in *. lia.
  - intros s i acc x H. cbn [members] in H.
    destruct s as [|c s']; [discriminate|].
    destruct (Ascii.eqb c (ascii_of_nat 34)); [|discriminate].
    destruct (scan_str s' (S i) i []) as [[[items r] j]| |] eqn:E;
      cbn [sbind] in H; try discriminate.
    apply scan_str_length in E.
    pose proof (skip_ws_length r j) as L. destruct (skip_ws r j) as [r1 j1].
    cbn [fst] in L.
    destruct r1 as [|[[] [] [] [] [] [] [] []] r2]; try discriminate.
    pose proof (skip_ws_length r2 (S j1)) as L2.
    destruct (skip_ws r2 (S j1)) as [r3 j3]. cbn [fst] in L2.
    destruct (scan_once fuel r3 j3) as [[[v r4] j4]| |] eqn:E2; cbn [sbind] in H;
      try discriminate.
    apply IH1 in E2. cbn [rest_of fst snd] in E2.
    pose proof (skip_ws_length r4 j4) as L4. destruct (skip_ws r4 j4) as [r5 j5].
    cbn [fst] in L4.
    destruct r5 as [|[[] [] [] [] [] [] [] []] r6]; try discriminate.
    + inversion H; subst. cbn [rest_of fst snd String.length] in *. lia.
    + pose proof (skip_ws_length r6 (S j5)) as L6.
      destruct (skip_ws r6 (S j5)) as [r7 j7]. cbn [fst] in L6.
      apply IH3 in H. cbn [String.length] in *. lia.
Qed.

(** Twice the length of the text and one more is fuel enough for a value,
    and one more again for the items of an array or the pairs of an object. *)
Lemma scan_fuel : forall fuel,
  (forall s i, 2 * String.length s + 1 <= fuel -> no_recursion (scan_once fuel s i))
  /\ (forall s i acc, 2 * String.length s + 2 <= fuel ->
        no_recursion (elems fuel s i acc))
  /\ (forall s i acc, 2 * String.length s + 2 <= fuel ->
        no_recursion (members fuel s i acc)).
Proof.
  induction fuel as [|fuel (IH1 & IH2 & IH3)].
  { repeat split; intros; lia. }
  destruct (scan_progress fuel) as (P1 & _ & _).
  split; [|split].
  - intros s i F msg H. cbn [scan_once] in H.
    destruct s as [|c s']; [discriminate|]. cbn [String.length] in F.
    destruct (Ascii.eqb c (ascii_of_nat 34)).
    { destruct (scan_str s' (S i) i []) as [[[items r] j]| |] eqn:E;
        cbn [sbind] in H; try discriminate.
      now apply scan_str_no_raise in E. }
    destruct (Ascii.eqb c "{").
    { pose proof (skip_ws_length s' (S i)) as L.
      destruct (skip_ws s' (S i)) as [s1 i1]. cbn [fst] in L.
      assert (M : no_recursion (members fuel s1 i1 [])) by (apply IH3; lia).
      destruct s1 as [|[[] [] [] [] [] [] [] []] r];
        first [ discriminate H | exact (M msg H) ]. }
    destruct (Ascii.eqb c "[").
    { pose proof (skip_ws_length s' (S i)) as L.
      destruct (skip_ws s' (S i)) as [s1 i1]. cbn [fst] in L.
      assert (M : no_recursion (elems fuel s1 i1 [])) by (apply IH2; lia).
      destruct s1 as [|[[] [] [] [] [] [] [] []] r];
        first [ discriminate H | exact (M msg H) ]. }
    repeat match type of H with
           | context [match keyword ?k ?v ?t ?j with _ => _ end] =>
               destruct (keyword k v t j) as [y|]; [discriminate|]
           end.
    destruct (match_number (String c s')) as [[n r]|]; [|discriminate].
    pose proof (number_value_no_recursion n msg) as V.
    destruct (number_value n); cbn [sbind] in H; try discriminate.
    inversion H; subst. now apply V.
  - intros s i acc F msg H. cbn [elems] in H.
    pose proof (IH1 s i ltac:(lia) msg) as V.
    destruct (scan_once fuel s i) as [[[v r] j]| |] eqn:E; cbn [sbind] in H;
      try discriminate; [|contradiction].
    apply P1 in E. cbn [rest_of fst snd] in E.
    pose proof (skip_ws_length r j) as L. destruct (skip_ws r j) as [r1 j1].
    cbn [fst] in L.
    destruct r1 as [|[[] [] [] [] [] [] [] []] r2]; try discriminate.
    pose proof (skip_ws_length r2 (S j1)) as L2.
    destruct (skip_ws r2 (S j1)) as [r3 j3]. cbn [fst] in L2.
    cbn [String.length] in *.
    exact (IH2 r3 j3 _ ltac:(lia) msg H).
  - intros s i acc F msg H. cbn [members] in H.
    destruct s as [|c s']; [discriminate|]. cbn [String.length] in F.
    destruct (Ascii.eqb c (ascii_of_nat 34)); [|discriminate].
    destruct (scan_str s' (S i) i []) as [[[items r] j]| |] eqn:E;
      cbn [sbind] in H; try discriminate; [|now apply scan_str_no_raise in E].
    apply scan_str_length in E.
    pose proof (skip_ws_length r j) as L. destruct (skip_ws r j) as [r1 j1].
    cbn [fst] in L.
    destruct r1 as [|[[] [] [] [] [] [] [] []] r2]; try discriminate.
    pose proof (skip_ws_length r2 (S j1)) as L2.
    destruct (skip_ws r2 (S j1)) as [r3 j3]. cbn [fst] in L2.
    cbn [String.length] in *.
    pose proof (IH1 r3 j3 ltac:(lia) msg) as V.
    destruct (scan_once fuel r3 j3) as [[[v r4] j4]| |] eqn:E2; cbn [sbind] in H;
      try discriminate; [|contradiction].
    apply P1 in E2. cbn [rest_of fst snd] in E2.
    pose proof (skip_ws_length r4 j4) as L4. destruct (skip_ws r4 j4) as [r5 j5].
    cbn [fst] in L4.
    destruct r5 as [|[[] [] [] [] [] [] [] []] r6]; try discriminate.
    pose proof (skip_ws_length r6 (S j5)) as L6.
    destruct (skip_ws r6 (S j5)) as [r7 j7]. cbn [fst] in L6.
    cbn [String.length] in *.
    exact (IH3 r7 j7 _ ltac:(lia) msg H).
Qed.

(** Decoding never ends for want of fuel: the bound of the model is not a
    limit on the documents. *)
Theorem loads_fuel_suffices (doc msg : string) :
  loads doc <> Raise (RecursionError msg).
Proof.
  unfold loads. destruct (startswith doc bom); [discriminate|].
  pose proof (skip_ws_length doc 0) as L. destruct (skip_ws doc 0) as [s0 i0].
  cbn [fst] in L.
  destruct (scan_fuel (2 * String.length doc + 2)) as (F & _ & _).
  pose proof (F s0 i0 ltac:(lia) msg) as V.
  destruct (scan_once (2 * String.length doc + 2) s0 i0) as [[[v r] j]| |];
    [|discriminate|intros H; inversion H; subst; contradiction].
  destruct (skip_ws r j) as [r1 j1]. destruct r1; discriminate.
Qed.

(** ** The classification patterns *)




Section Greedy.
Context {A : Type} (k : string -> option A).

Let close : string -> option A :=
  fun rest => match strip_prefix "}" rest with Some r => k r | None => None end.

Lemma greedy_no_close post :
  no_char "}" post -> star_greedy any post close = None.
Proof.
  unfold no_char. induction post as [|c post IH]; simpl; intros H.
  - reflexivity.
  - apply andb_prop in H as [Hc H]. rewrite (IH H).
    unfold close. cbn [strip_prefix].
    destruct (Ascii.eqb "}" c) eqn:E; [|reflexivity].
    apply Ascii.eqb_eq in E. subst c. rewrite Ascii.eqb_refl in Hc. discriminate.
Qed.

Lemma greedy_last_close mid post x :
  no_char "}" post -> k post = Some x ->
  star_greedy any (mid ++ "}" ++ post) close = Some x.
Proof.
  intros N K. induction mid as [|c mid IH]; simpl.
  - rewrite (greedy_no_close post N). unfold close. cbn [strip_prefix].
    rewrite Ascii.eqb_refl. exact K.
  - simpl in IH. rewrite IH. reflexivity.
Qed.

End Greedy.

Lemma match_here_json pre0 mid post :
  no_char "}" post ->
  match_here json_pattern pre0 ("{" ++ mid ++ "}" ++ post)
  = Some (MatchObj pre0 ("{" ++ mid ++ "}") ["{" ++ mid ++ "}"] post).
Proof.
  intros N. unfold match_here, json_pattern. cbn [seq run].
  change (strip_prefix "{" ("{" ++ mid ++ "}" ++ post)) with (Some (mid ++ "}" ++ post)).
  cbv beta iota.
  erewrite (greedy_last_close
              (fun r => Some (MatchObj pre0
                 (take (String.length ("{" ++ mid ++ "}" ++ post) - String.length r)
                       ("{" ++ mid ++ "}" ++ post))
                 ([] ++ [take (String.length ("{" ++ mid ++ "}" ++ post) - String.length r)
                            ("{" ++ mid ++ "}" ++ post)])%list r))); [|exact N|reflexivity].
  assert (E : "{" ++ mid ++ "}" ++ post = ("{" ++ mid ++ "}") ++ post)
    by (now rewrite !app_assoc_s).
  rewrite E, take_app. reflexivity.
Qed.

Lemma match_here_json_none pre0 c s :
  c <> "{"%char -> match_here json_pattern pre0 (String c s) = None.
Proof.
  intros N. unfold match_here, json_pattern. cbn [seq run strip_prefix].
  destruct (Ascii.eqb "{" c) eqn:E; [|reflexivity].
  apply Ascii.eqb_eq in E. congruence.
Qed.

Lemma search_from_hit r p s m :
  match_here r (rev p) s = Some m -> search_from r p s = Some m.
Proof. intros H. destruct s; simpl; now rewrite H. Qed.

Lemma search_from_skip r p c s :
  match_here r (rev p) (String c s) = None ->
  search_from r p (String c s) = search_from r (String c p) s.
Proof. intros H. simpl. now rewrite H. Qed.

(** The search for the JSON object returns the outermost span. *)
Lemma json_pattern_span text span :
  outermost_span text span ->
  exists m, search json_pattern text = Some m /\ group m 1 = span.
Proof.
  intros (pre & mid & post & -> & -> & Npre & Npost).
  unfold search.
  assert (E : pre ++ ("{" ++ mid ++ "}") ++ post = pre ++ "{" ++ mid ++ "}" ++ post)
    by (now rewrite !app_assoc_s).
  rewrite E. clear E.
  enough (G : forall p, exists m,
             search_from json_pattern p (pre ++ "{" ++ mid ++ "}" ++ post) = Some m
             /\ group m 1 = "{" ++ mid ++ "}") by apply G.
  unfold no_char in Npre.
  induction pre as [|c pre IH]; intros p.
  - change ("" ++ "{" ++ mid ++ "}" ++ post) with ("{" ++ mid ++ "}" ++ post).
    eexists. split.
    + apply search_from_hit. apply match_here_json. exact Npost.
    + reflexivity.
  - simpl in Npre. apply andb_prop in Npre as [Hc Npre].
    change ((String c pre) ++ "{" ++ mid ++ "}" ++ post)
      with (String c (pre ++ "{" ++ mid ++ "}" ++ post)).
    rewrite search_from_skip.
    + apply IH. exact Npre.
    + apply match_here_json_none.
      intros ->. rewrite Ascii.eqb_refl in Hc. discriminate.
Qed.






(** ** Classification *)

Lemma course_of_object title text d :
  loads text = Ok (PDict d) ->
  course_from_response title (PStr text) = Ok (field_or_empty d).
Proof.
  intros H. unfold course_from_response, json_loads. rewrite H.
  unfold field_or_empty. simpl.
  destruct (dict_lookup "course_of_the_frq" d); reflexivity.
Qed.

Lemma course_of_span title text span v :
  not_json text -> outermost_span text span -> loads span = Ok v ->
  exists d, v = PDict d /\ course_from_response title (PStr text) = Ok (field_or_empty d).
Proof.
  intros (e & He & Je) Hs Hv.
  destruct (json_pattern_span _ _ Hs) as (m & Hm & Hg).
  assert (D : exists d, v = PDict d).
  { destruct Hs as (pre & mid & post & _ & E & _). subst span.
    apply (loads_brace_dict (mid ++ "}")). exact Hv. }
  destruct D as [d ->]. exists d. split; [reflexivity|].
  unfold course_from_response, json_loads. rewrite He.
  unfold bind at 1. unfold try_when at 1. rewrite Je.
  unfold text_of. rewrite Hm, Hg, Hv.
  unfold field_or_empty. simpl.
  destruct (dict_lookup "course_of_the_frq" d); reflexivity.
Qed.




(** A whole text that decodes to something else than an object makes the
    extraction raise: [.get] exists on a [dict] only. *)
Lemma classification_raises_on_list :
  course_from_response "AP Biology" (PStr "[]")
  = Raise (AttributeError "'list' object has no attribute 'get'").
Proof. vm_compute. reflexivity. Qed.

(** C10.  When the response text decodes to a JSON object without the key
    [course_of_the_frq], be it the whole text or, the whole text not
    decoding, its part from the first opening to the last closing brace,
    the classification is the empty string and not the caller's course
    title; the empty string is its own normal form and selects the general
    strategy. *)
Theorem missing_key_gives_empty (course_title text : string) :
  (exists d, loads text = Ok (PDict d) /\ dict_lookup "course_of_the_frq" d = None)
  \/ (not_json text /\
      exists span d, outermost_span text span /\ loads span = Ok (PDict d)
                     /\ dict_lookup "course_of_the_frq" d = None) ->
  course_from_response course_title (PStr text) = Ok (PStr "")
  /\ normalize_object (PStr "") = Ok ""
  /\ select_strategy "" = General.
Proof.
  intros H. split; [|split; reflexivity].
  destruct H as [(d & Hd & L)|(NJ & span & d & Hs & Hd & L)].
  - rewrite (course_of_object _ _ _ Hd). unfold field_or_empty. now rewrite L.
  - destruct (course_of_span course_title _ _ _ NJ Hs Hd) as (d' & E & ->).
    inversion E; subst d'. unfold field_or_empty. now rewrite L.
Qed.

Lemma missing_key_gives_empty_witness :
  course_from_response "AP Biology" (PStr "{}") = Ok (PStr "")
  /\ normalize_object (PStr "") = Ok ""
  /\ select_strategy "" = General.
Proof.
  apply (missing_key_gives_empty "AP Biology" "{}").
  left. exists []. split; reflexivity.
Defined.

(** ** The language and literature page *)

Import RouterText.




Lemma py_get_dict d k default : py_get (PDict d) k default = Ok (get_or d k default).
Proof. unfold py_get, get_or. destruct (dict_lookup k d); reflexivity. Qed.

Lemma py_add_int a b : py_add (PInt a) (PInt b) = Ok (PInt (a + b)).
Proof. reflexivity. Qed.





Section FactCheck.
Variables (text : string) (resp rowA rowB rowC fact_check : list (string * pyval)).
Variables (a b c : Z).
Hypothesis Hdoc : Json.loads text = Ok (PDict resp).
Hypothesis HrowA : dict_lookup "rowA" resp = Some (PDict rowA).
Hypothesis HrowB : dict_lookup "rowB" resp = Some (PDict rowB).
Hypothesis HrowC : dict_lookup "rowC" resp = Some (PDict rowC).
Hypothesis Ha : dict_lookup "score" rowA = Some (PInt a).
Hypothesis Hb : dict_lookup "score" rowB = Some (PInt b).
Hypothesis Hc : dict_lookup "score" rowC = Some (PInt c).
Hypothesis Hfc : dict_lookup "fact_check" resp = Some (PDict fact_check).
Hypothesis Hzero : dict_lookup "score" fact_check = Some (PInt 0).


End FactCheck.



(** ** The language and literature branches *)

Import World.

Lemma row_score_get resp row z :
  row_score resp row z ->
  exists r, get_or resp row (PDict []) = PDict r /\ get_or r "score" (PInt 0) = PInt z.
Proof.
  unfold get_or. intros [[H ->]|(r & H & [S|[S ->]])]; rewrite H.
  - exists []. split; reflexivity.
  - exists r. now rewrite S.
  - exists r. now rewrite S.
Qed.

Section Essay.
Variable w : world.
Variables (endpoint api_name question student_answer : string).
Variable log : list event.
Variables (text : string) (resp : list (string * pyval)).
Hypothesis Hpost :
  http_post w log endpoint (essay_payload question student_answer) = HttpResponse 200 text.
Hypothesis Hdoc : Json.loads text = Ok (PDict resp).

Let log' : list event :=
  (log ++ [EPost endpoint (essay_payload question student_answer) (HttpResponse 200 text)])%list.

Let page : string := create_language_literature_html (dumps (PDict resp)).

Lemma essay_with_total v f :
  dict_lookup "original_total_score" resp = Some v -> py_float v = Ok f ->
  grade_essay w endpoint api_name question student_answer log
  = (Ok (Build_GradingResponse (dumps (PDict resp)) "" page six f), log').
Proof.
  intros Hv Hf. unfold grade_essay, iobind, post, lift.
  fold (essay_payload question student_answer). rewrite Hpost.
  cbn [Z.eqb Pos.eqb negb]. rewrite Hdoc.
  cbn [py_contains]. rewrite Hv.
  cbn [py_getitem bind]. rewrite Hv. cbn [bind]. rewrite Hf.
  reflexivity.
Qed.

Lemma essay_with_rows a b c f :
  dict_lookup "original_total_score" resp = None ->
  row_score resp "rowA" a -> row_score resp "rowB" b -> row_score resp "rowC" c ->
  float_of_int (a + b + c) = Ok f ->
  grade_essay w endpoint api_name question student_answer log
  = (Ok (Build_GradingResponse (dumps (PDict resp)) "" page six f), log').
Proof.
  intros Hn HA HB HC Hf. unfold grade_essay, iobind, post, lift.
  fold (essay_payload question student_answer). rewrite Hpost.
  cbn [Z.eqb Pos.eqb negb]. rewrite Hdoc.
  cbn [py_contains]. rewrite Hn.
  destruct (row_score_get _ _ _ HA) as (ra & GA & Ga).
  destruct (row_score_get _ _ _ HB) as (rb & GB & Gb).
  destruct (row_score_get _ _ _ HC) as (rc & GC & Gc).
  repeat (progress (cbn [bind];
                    rewrite ?py_get_dict, ?GA, ?GB, ?GC, ?Ga, ?Gb, ?Gc, ?py_add_int)).
  cbn [py_float]. rewrite Hf. reflexivity.
Qed.

End Essay.

(** C5.  In the language and the literature branch, when the endpoint
    answers with status 200 and a JSON object: the total possible points
    returned are 6; the total earned points are the number under
    [original_total_score] when the object has that key, and otherwise the
    sum of the scores of [rowA], [rowB] and [rowC], an absent row or score
    counting for 0. *)
Theorem essay_totals (w : world) (endpoint api_name question student_answer : string)
        (log : list event) (text : string) (resp : list (string * pyval)) :
  http_post w log endpoint (essay_payload question student_answer) = HttpResponse 200 text ->
  Json.loads text = Ok (PDict resp) ->
  (forall v f,
     dict_lookup "original_total_score" resp = Some v -> py_float v = Ok f ->
     exists r log',
       grade_essay w endpoint api_name question student_answer log = (Ok r, log')
       /\ total_possible_points r = round_Z 6 /\ total_earned_points r = f)
  /\ (forall a b c f,
        dict_lookup "original_total_score" resp = None ->
        row_score resp "rowA" a -> row_score resp "rowB" b -> row_score resp "rowC" c ->
        float_of_int (a + b + c) = Ok f ->
        exists r log',
          grade_essay w endpoint api_name question student_answer log = (Ok r, log')
          /\ total_possible_points r = round_Z 6 /\ total_earned_points r = f).
Proof.
  intros Hpost Hdoc. split.
  - intros v f Hv Hf. eexists _, _. split.
    + eapply essay_with_total; eauto.
    + split; reflexivity.
  - intros a b c f Hn HA HB HC Hf. eexists _, _. split.
    + eapply essay_with_rows; eauto.
    + split; reflexivity.
Qed.

(** ** The retrying callers *)

Section Retry.
Variable w : world.
Variable messages : pyval.

Let payload : pyval := claude_payload messages.

Lemma claude_attempt_ok attempt rest log v :
  claude_attempt (http_post w log CLAUDE_API_URL payload) = Ok v ->
  call_claude_api_loop w (attempt :: rest) messages log
  = (Ok v, (log ++ [EPost CLAUDE_API_URL payload
                          (http_post w log CLAUDE_API_URL payload)])%list).
Proof.
  unfold claude_attempt. cbn [call_claude_api_loop].
  unfold iobind, try_io, post, lift, ret. fold payload.
  destruct (http_post w log CLAUDE_API_URL payload) as [st text|e]; [|discriminate].
  destruct (st =? 200)%Z; [|discriminate].
  destruct (Json.loads text) as [data|e]; [|discriminate].
  cbn [bind]. intros ->. reflexivity.
Qed.

Lemma claude_attempt_retry attempt rest log e :
  claude_attempt (http_post w log CLAUDE_API_URL payload) = Raise e ->
  (attempt <? 2)%nat = true ->
  call_claude_api_loop w (attempt :: rest) messages log
  = call_claude_api_loop w rest messages
      (log ++ [EPost CLAUDE_API_URL payload (http_post w log CLAUDE_API_URL payload)]
           ++ [ESleep 4])%list.
Proof.
  unfold claude_attempt. cbn [call_claude_api_loop].
  unfold iobind, try_io, post, lift, ret, sleep. fold payload.
  intros H A. rewrite A.
  destruct (http_post w log CLAUDE_API_URL payload) as [st text|e0].
  - destruct (st =? 200)%Z.
    + destruct (Json.loads text) as [data|e1]; cbn [bind] in H.
      * rewrite H. now rewrite <- app_assoc.
      * now rewrite <- app_assoc.
    + now rewrite <- app_assoc.
  - now rewrite <- app_assoc.
Qed.

Lemma claude_attempt_last attempt rest log e :
  claude_attempt (http_post w log CLAUDE_API_URL payload) = Raise e ->
  (attempt <? 2)%nat = false ->
  call_claude_api_loop w (attempt :: rest) messages log
  = (Raise (HTTPException 500 ("Error calling Claude API: " ++ str_exn e)),
     (log ++ [EPost CLAUDE_API_URL payload (http_post w log CLAUDE_API_URL payload)])%list).
Proof.
  unfold claude_attempt. cbn [call_claude_api_loop].
  unfold iobind, try_io, post, lift, ret, raise. fold payload.
  intros H A. rewrite A.
  destruct (http_post w log CLAUDE_API_URL payload) as [st text|e0].
  - destruct (st =? 200)%Z.
    + destruct (Json.loads text) as [data|e1]; cbn [bind] in H.
      * rewrite H. reflexivity.
      * inversion H; subst. reflexivity.
    + inversion H; subst. reflexivity.
  - inversion H; subst. reflexivity.
Qed.

Lemma openai_attempt_ok attempt rest log v :
  openai_attempt (openai_create w log "o1" messages "medium") = Ok v ->
  call_openai_api_loop w (attempt :: rest) messages log
  = (Ok v, (log ++ [ECreate "o1" messages "medium"
                            (openai_create w log "o1" messages "medium")])%list).
Proof.
  unfold openai_attempt. cbn [call_openai_api_loop].
  unfold iobind, try_io, create, lift, ret.
  destruct (openai_create w log "o1" messages "medium") as [choices|e]; [|discriminate].
  intros ->. reflexivity.
Qed.

Lemma openai_attempt_retry attempt rest log e :
  openai_attempt (openai_create w log "o1" messages "medium") = Raise e ->
  (attempt <? 2)%nat = true ->
  call_openai_api_loop w (attempt :: rest) messages log
  = call_openai_api_loop w rest messages
      (log ++ [ECreate "o1" messages "medium" (openai_create w log "o1" messages "medium")]
           ++ [ESleep 4])%list.
Proof.
  unfold openai_attempt. cbn [call_openai_api_loop].
  unfold iobind, try_io, create, lift, ret, sleep.
  intros H A. rewrite A.
  destruct (openai_create w log "o1" messages "medium") as [choices|e0].
  - rewrite H. now rewrite <- app_assoc.
  - now rewrite <- app_assoc.
Qed.

Lemma openai_attempt_last attempt rest log e :
  openai_attempt (openai_create w log "o1" messages "medium") = Raise e ->
  (attempt <? 2)%nat = false ->
  call_openai_api_loop w (attempt :: rest) messages log
  = (Raise (HTTPException 500 ("Error calling OpenAI API: " ++ str_exn e)),
     (log ++ [ECreate "o1" messages "medium"
                      (openai_create w log "o1" messages "medium")])%list).
Proof.
  unfold openai_attempt. cbn [call_openai_api_loop].
  unfold iobind, try_io, create, lift, ret, raise.
  intros H A. rewrite A.
  destruct (openai_create w log "o1" messages "medium") as [choices|e0].
  - rewrite H. reflexivity.
  - inversion H; subst. reflexivity.
Qed.

(** The three attempts of [call_claude_api], spelled out: each attempt is
    one post; a failed first or second attempt is followed by a sleep of 4
    seconds and the next attempt; a success ends the call with its result;
    a failed third attempt ends it with an error of status 500 whose detail
    is the text of the last exception. *)
Lemma call_claude_api_attempts log :
  let post_at l := EPost CLAUDE_API_URL payload (http_post w l CLAUDE_API_URL payload) in
  let l1 := (log ++ [post_at log])%list in
  let l2 := (l1 ++ [ESleep 4] ++ [post_at (l1 ++ [ESleep 4])])%list in
  let l3 := (l2 ++ [ESleep 4] ++ [post_at (l2 ++ [ESleep 4])])%list in
  call_claude_api w messages log
  = match claude_attempt (http_post w log CLAUDE_API_URL payload) with
    | Ok v => (Ok v, l1)
    | Raise _ =>
        match claude_attempt (http_post w (l1 ++ [ESleep 4]) CLAUDE_API_URL payload) with
        | Ok v => (Ok v, l2)
        | Raise _ =>
            match claude_attempt (http_post w (l2 ++ [ESleep 4]) CLAUDE_API_URL payload) with
            | Ok v => (Ok v, l3)
            | Raise e =>
                (Raise (HTTPException 500 ("Error calling Claude API: " ++ str_exn e)), l3)
            end
        end
    end.
Proof.
  intros post_at l1 l2 l3. unfold call_claude_api.
  destruct (claude_attempt (http_post w log CLAUDE_API_URL payload)) as [v|e] eqn:E1.
  { now rewrite (claude_attempt_ok _ _ _ _ E1). }
  rewrite (claude_attempt_retry 0%nat _ _ _ E1 eq_refl).
  rewrite app_assoc. fold (post_at log). fold l1.
  destruct (claude_attempt (http_post w (l1 ++ [ESleep 4]) CLAUDE_API_URL payload))
    as [v|e2] eqn:E2.
  { rewrite (claude_attempt_ok _ _ _ _ E2). unfold l2. now rewrite <- !app_assoc. }
  rewrite (claude_attempt_retry 1%nat _ _ _ E2 eq_refl).
  replace ((l1 ++ [ESleep 4]) ++
           [EPost CLAUDE_API_URL payload
              (http_post w (l1 ++ [ESleep 4]) CLAUDE_API_URL payload)] ++ [ESleep 4])%list
    with (l2 ++ [ESleep 4])%list
    by (unfold l2, post_at; now rewrite <- !app_assoc).
  destruct (claude_attempt (http_post w (l2 ++ [ESleep 4]) CLAUDE_API_URL payload))
    as [v|e3] eqn:E3.
  { rewrite (claude_attempt_ok _ _ _ _ E3). unfold l3. now rewrite <- !app_assoc. }
  rewrite (claude_attempt_last 2%nat _ _ _ E3 eq_refl).
  unfold l3. now rewrite <- !app_assoc.
Qed.

Lemma call_openai_api_attempts log :
  let create_at l :=
    ECreate "o1" messages "medium" (openai_create w l "o1" messages "medium") in
  let l1 := (log ++ [create_at log])%list in
  let l2 := (l1 ++ [ESleep 4] ++ [create_at (l1 ++ [ESleep 4])])%list in
  let l3 := (l2 ++ [ESleep 4] ++ [create_at (l2 ++ [ESleep 4])])%list in
  call_openai_api w messages log
  = match openai_attempt (openai_create w log "o1" messages "medium") with
    | Ok v => (Ok v, l1)
    | Raise _ =>
        match openai_attempt (openai_create w (l1 ++ [ESleep 4]) "o1" messages "medium") with
        | Ok v => (Ok v, l2)
        | Raise _ =>
            match openai_attempt
                    (openai_create w (l2 ++ [ESleep 4]) "o1" messages "medium") with
            | Ok v => (Ok v, l3)
            | Raise e =>
                (Raise (HTTPException 500 ("Error calling OpenAI API: " ++ str_exn e)), l3)
            end
        end
    end.
Proof.
  intros create_at l1 l2 l3. unfold call_openai_api.
  destruct (openai_attempt (openai_create w log "o1" messages "medium")) as [v|e] eqn:E1.
  { now rewrite (openai_attempt_ok _ _ _ _ E1). }
  rewrite (openai_attempt_retry 0%nat _ _ _ E1 eq_refl).
  rewrite app_assoc. fold (create_at log). fold l1.
  destruct (openai_attempt (openai_create w (l1 ++ [ESleep 4]) "o1" messages "medium"))
    as [v|e2] eqn:E2.
  { rewrite (openai_attempt_ok _ _ _ _ E2). unfold l2. now rewrite <- !app_assoc. }
  rewrite (openai_attempt_retry 1%nat _ _ _ E2 eq_refl).
  replace ((l1 ++ [ESleep 4]) ++
           [ECreate "o1" messages "medium"
              (openai_create w (l1 ++ [ESleep 4]) "o1" messages "medium")] ++ [ESleep 4])%list
    with (l2 ++ [ESleep 4])%list
    by (unfold l2, create_at; now rewrite <- !app_assoc).
  destruct (openai_attempt (openai_create w (l2 ++ [ESleep 4]) "o1" messages "medium"))
    as [v|e3] eqn:E3.
  { rewrite (openai_attempt_ok _ _ _ _ E3). unfold l3. now rewrite <- !app_assoc. }
  rewrite (openai_attempt_last 2%nat _ _ _ E3 eq_refl).
  unfold l3. now rewrite <- !app_assoc.
Qed.

End Retry.

Lemma essay_totals_witness :
  exists r log',
    grade_essay (constant_world 200 rows_example "") LANG_ENDPOINT "AP Language"
                "question" "essay" [] = (Ok r, log')
    /\ total_possible_points r = round_Z 6 /\ total_earned_points r = round_Z 4.
Proof.
  apply (proj2 (essay_totals (constant_world 200 rows_example "") LANG_ENDPOINT
                  "AP Language" "question" "essay" [] rows_example
                  [("rowA", PDict [("score", PInt 1)]); ("rowB", PDict [("score", PInt 3)]);
                   ("rowC", PDict [("score", PInt 0)])]
                  eq_refl ltac:(vm_compute; reflexivity)) 1%Z 3%Z 0%Z (round_Z 4)).
  - reflexivity.
  - right. exists [("score", PInt 1)]. split; [reflexivity|left; reflexivity].
  - right. exists [("score", PInt 3)]. split; [reflexivity|left; reflexivity].
  - right. exists [("score", PInt 0)]. split; [reflexivity|left; reflexivity].
  - vm_compute. reflexivity.
Defined.

(** A call whose first two attempts fail and whose third succeeds returns
    the result of the third, after three posts and two sleeps of 4
    seconds. *)
Lemma claude_third_attempt_wins (w : world) (messages : pyval) (log : list event)
      (o1 o2 o3 : http_outcome) (e1 e2 : exn) (v : pyval) :
  let p := EPost CLAUDE_API_URL (claude_payload messages) in
  http_post w log CLAUDE_API_URL (claude_payload messages) = o1 ->
  http_post w (log ++ [p o1; ESleep 4]) CLAUDE_API_URL (claude_payload messages) = o2 ->
  http_post w (log ++ [p o1; ESleep 4; p o2; ESleep 4]) CLAUDE_API_URL
            (claude_payload messages) = o3 ->
  claude_attempt o1 = Raise e1 -> claude_attempt o2 = Raise e2 -> claude_attempt o3 = Ok v ->
  call_claude_api w messages log
  = (Ok v, (log ++ [p o1; ESleep 4; p o2; ESleep 4; p o3])%list).
Proof.
  intros p H1 H2 H3 A1 A2 A3. subst p.
  rewrite call_claude_api_attempts. cbv zeta.
  rewrite H1, A1. rewrite <- ?app_assoc. cbn [app].
  rewrite H2, A2. rewrite <- ?app_assoc. cbn [app].
  rewrite H3, A3. reflexivity.
Qed.

(** A call that fails three times ends after the third post: there is no
    fourth attempt, and the error has status 500. *)
Lemma claude_three_failures (w : world) (messages : pyval) (log : list event)
      (o1 o2 o3 : http_outcome) (e1 e2 e3 : exn) :
  let p := EPost CLAUDE_API_URL (claude_payload messages) in
  http_post w log CLAUDE_API_URL (claude_payload messages) = o1 ->
  http_post w (log ++ [p o1; ESleep 4]) CLAUDE_API_URL (claude_payload messages) = o2 ->
  http_post w (log ++ [p o1; ESleep 4; p o2; ESleep 4]) CLAUDE_API_URL
            (claude_payload messages) = o3 ->
  claude_attempt o1 = Raise e1 -> claude_attempt o2 = Raise e2 ->
  claude_attempt o3 = Raise e3 ->
  call_claude_api w messages log
  = (Raise (HTTPException 500 ("Error calling Claude API: " ++ str_exn e3)),
     (log ++ [p o1; ESleep 4; p o2; ESleep 4; p o3])%list).
Proof.
  intros p H1 H2 H3 A1 A2 A3. subst p.
  rewrite call_claude_api_attempts. cbv zeta.
  rewrite H1, A1. rewrite <- ?app_assoc. cbn [app].
  rewrite H2, A2. rewrite <- ?app_assoc. cbn [app].
  rewrite H3, A3. reflexivity.
Qed.

(** C6, at an upstream that answers 503 to every post.  The call makes
    three posts with a sleep of 4 seconds after the first and after the
    second, and no fourth; but the error it raises has status 500, the
    status 503 of the upstream being kept only inside the detail text,
    because the error raised for the third answer is caught by the
    handler of the same loop iteration and wrapped. *)
Theorem claude_upstream_status_replaced :
  let p := EPost CLAUDE_API_URL (claude_payload (user_messages "prompt"))
                 (HttpResponse 503 "overloaded") in
  call_claude_api overloaded (user_messages "prompt") []
  = (Raise (HTTPException 500
              "Error calling Claude API: 503: Claude API call failed: overloaded"),
     [p; ESleep 4; p; ESleep 4; p]).
Proof. vm_compute. reflexivity. Qed.

(** ** The two-stage strategy *)

Lemma create_openai_prompt_holds (s : pyval) :
  create_openai_prompt s = openai_prompt_1 ++ py_str s ++ openai_prompt_2.
Proof. unfold create_openai_prompt. cbn [cat]. now rewrite app_empty_r. Qed.

Lemma openai_first_event (w : world) (messages : pyval) (log : list event) :
  exists out tail,
    snd (call_openai_api w messages log)
    = (log ++ ECreate "o1" messages "medium" out :: tail)%list.
Proof.
  rewrite call_openai_api_attempts. cbv zeta.
  set (o1 := openai_create w log "o1" messages "medium").
  exists o1.
  destruct (openai_attempt o1).
  { exists []. reflexivity. }
  match goal with |- context [openai_attempt ?x] => destruct (openai_attempt x) end.
  { eexists. cbn [snd]. rewrite <- !app_assoc. reflexivity. }
  match goal with |- context [openai_attempt ?x] => destruct (openai_attempt x) end.
  { eexists. cbn [snd]. rewrite <- !app_assoc. reflexivity. }
  eexists. cbn [snd]. rewrite <- !app_assoc. reflexivity.
Qed.

(** C7.  In the two-stage strategy, once the first generator has returned
    an output, whatever it is: the second generator is called next, with a
    prompt that holds that output verbatim between the two fixed parts of
    the template; the interactions of the strategy are those of the first
    call followed by those of the second call and nothing else; and when
    both calls succeed at their first attempt these are exactly two
    interactions, the post to the first generator and then the request to
    the second. *)
Theorem two_stage_sequence (w : world)
        (question student_answer scoring_rubric image_data : string)
        (log log1 : list event) (output : pyval) :
  let messages1 :=
    user_messages (create_claude_prompt question student_answer scoring_rubric image_data) in
  let messages2 := user_messages (create_openai_prompt output) in
  call_claude_api w messages1 log = (Ok output, log1) ->
  create_openai_prompt output = openai_prompt_1 ++ py_str output ++ openai_prompt_2
  /\ (forall text, output = PStr text -> occurs text (create_openai_prompt output))
  /\ snd (grade_environmental_science w question student_answer scoring_rubric image_data log)
     = snd (call_openai_api w messages2 log1)
  /\ (exists out tail,
        snd (grade_environmental_science w question student_answer scoring_rubric
                                         image_data log)
        = (log1 ++ ECreate "o1" messages2 "medium" out :: tail)%list)
  /\ (forall feedback,
        claude_attempt (http_post w log CLAUDE_API_URL (claude_payload messages1))
        = Ok output ->
        openai_attempt (openai_create w log1 "o1" messages2 "medium") = Ok feedback ->
        snd (grade_environmental_science w question student_answer scoring_rubric
                                         image_data log)
        = (log ++ [EPost CLAUDE_API_URL (claude_payload messages1)
                         (http_post w log CLAUDE_API_URL (claude_payload messages1));
                   ECreate "o1" messages2 "medium"
                           (openai_create w log1 "o1" messages2 "medium")])%list).
Proof.
  intros messages1 messages2 H1.
  assert (S : snd (grade_environmental_science w question student_answer scoring_rubric
                                               image_data log)
              = snd (call_openai_api w messages2 log1)).
  { unfold grade_environmental_science, iobind, lift.
    fold messages1. rewrite H1. fold messages2.
    destruct (call_openai_api w messages2 log1) as [[feedback|e] log2]; [|reflexivity].
    destruct (extract_score_from_env_science output feedback) as [[earned possible]|e];
      [|reflexivity].
    destruct (create_environmental_science_html output feedback); reflexivity. }
  split; [apply create_openai_prompt_holds|].
  split.
  { intros text ->. rewrite create_openai_prompt_holds. exists openai_prompt_1, openai_prompt_2.
    reflexivity. }
  split; [exact S|].
  split.
  { rewrite S. apply openai_first_event. }
  intros feedback A1 A2. rewrite S.
  rewrite call_openai_api_attempts. cbv zeta. rewrite A2. cbn [snd].
  rewrite call_claude_api_attempts in H1. cbv zeta in H1. rewrite A1 in H1.
  inversion H1. now rewrite <- !app_assoc.
Qed.

Lemma two_stage_sequence_witness :
  let w := constant_world 200 (claude_answer (dq ++ "not an evaluation" ++ dq))
                          "Final Score: 4/6" in
  let messages1 := user_messages (create_claude_prompt "question" "answer" "rubric" "") in
  let messages2 := user_messages (create_openai_prompt (PStr "not an evaluation")) in
  occurs "not an evaluation" (create_openai_prompt (PStr "not an evaluation"))
  /\ snd (grade_environmental_science w "question" "answer" "rubric" "" [])
     = [EPost CLAUDE_API_URL (claude_payload messages1)
              (HttpResponse 200 (claude_answer (dq ++ "not an evaluation" ++ dq)));
        ECreate "o1" messages2 "medium" (Completion [Some "Final Score: 4/6"])].
Proof.
  intros w messages1 messages2.
  pose proof (two_stage_sequence w "question" "answer" "rubric" "" []
                [EPost CLAUDE_API_URL (claude_payload messages1)
                       (HttpResponse 200 (claude_answer (dq ++ "not an evaluation" ++ dq)))]
                (PStr "not an evaluation")
                ltac:(vm_compute; reflexivity)) as (_ & V & _ & _ & E).
  split.
  - apply V. reflexivity.
  - apply (E (PStr "Final Score: 4/6")); vm_compute; reflexivity.
Defined.

(** ** Validation of the request *)

Import Grader.

(** C8.  A request to [/grade/] in which one of the four required form
    fields is absent or empty is rejected with a validation error, and a
    request to [/score/] in which one of its three required fields is
    absent is rejected in the same way; a request to [/score/] in which
    the three fields are present and one of them is empty is rejected by
    the handler with status 400.  In all three cases nothing is added to
    the log of interactions: no upstream call has been made. *)
Theorem invalid_request_rejected (w : world) (log : list event) :
  (forall f : grade_form,
     missing (form_course_title f) \/ missing (form_question f)
     \/ missing (form_student_answer f) \/ missing (form_scoring_rubric f) ->
     post_grade w f log = (Raise validation_error, log))
  /\ (forall q a r : option string,
        q = None \/ a = None \/ r = None ->
        post_score w q a r log = (Raise validation_error, log))
  /\ (forall q a r : string,
        q = EmptyString \/ a = EmptyString \/ r = EmptyString ->
        post_score w (Some q) (Some a) (Some r) log
        = (Raise (HTTPException 400
                    "All fields (question, student_answer, scoring_rubric) are required"),
           log)).
Proof.
  split; [|split].
  - intros f H. unfold post_grade.
    assert (M : forall x, missing x -> required_field x = None).
    { intros x [->| ->]; reflexivity. }
    destruct H as [H|[H|[H|H]]]; rewrite (M _ H);
      repeat match goal with
             | |- context [match required_field ?x with _ => _ end] =>
                 destruct (required_field x)
             end; reflexivity.
  - intros q a r H. unfold post_score.
    destruct q, a, r; try reflexivity; destruct H as [H|[H|H]]; discriminate.
  - intros q a r H. unfold post_score, score_answer, try_io.
    assert (E : negb (truthy (PStr q) && truthy (PStr a) && truthy (PStr r)) = true).
    { destruct H as [->|[->| ->]]; cbn [truthy String.eqb negb andb];
        rewrite ?andb_false_r; reflexivity. }
    cbn [question student_answer scoring_rubric]. rewrite E. reflexivity.
Qed.

Lemma invalid_request_rejected_witness :
  post_grade overloaded
    (Build_grade_form (Some "AP Biology") (Some "") (Some "answer") (Some "rubric") None) []
  = (Raise validation_error, [])
  /\ post_score overloaded (Some "question") None (Some "rubric") []
     = (Raise validation_error, [])
  /\ post_score overloaded (Some "question") (Some "answer") (Some "") []
     = (Raise (HTTPException 400
                 "All fields (question, student_answer, scoring_rubric) are required"),
        []).
Proof.
  destruct (invalid_request_rejected overloaded []) as (G & S & E).
  split; [|split].
  - apply G. right. left. right. reflexivity.
  - apply S. right. left. reflexivity.
  - apply E. right. right. reflexivity.
Defined.

(** ** Rendering *)






(** The environmental science page on two texts: always a page, with the
    fields taken from the feedback text. *)
Lemma environmental_page (s f : string) :
  exists score_match ap_match did_well improve next_steps,
    search final_score_pattern f = score_match
    /\ search ap_score_pattern f = ap_match
    /\ search did_well_pattern f = did_well
    /\ search improve_pattern f = improve
    /\ search next_steps_pattern f = next_steps
    /\ create_environmental_science_html (PStr s) (PStr f)
       = Ok (let earned := match score_match with Some m => group m 1 | None => "?" end in
             let total := match score_match with Some m => group m 2 | None => "?" end in
             let ap := match ap_match with Some m => group m 1 | None => "?" end in
             cat [env_html_1; earned; env_html_2; total; env_html_3; ap; env_html_4;
                  match did_well with Some m => group0 m | None => "" end; env_html_5;
                  match improve with Some m => group0 m | None => "" end; env_html_6;
                  match next_steps with Some m => group0 m | None => "" end; env_html_7;
                  earned; env_html_8; total; env_html_9; ap; env_html_10; s;
                  env_html_11]).
Proof.
  eexists _, _, _, _, _. repeat split; reflexivity.
Qed.














(* ================================================================== *)
(** * Part III.  Further properties of the code                         *)
(* ================================================================== *)

Import Laws Samples.

(** ** The retrying callers *)

(** [call_claude_api] of the router, on every environment: it posts one to
    three times, sleeps 4 seconds between two posts and never after the
    last; every post before the last failed; if the last succeeded its
    text is returned, and otherwise the posts were three and the error is
    an [HTTPException] of status 500 whose detail is the text of the last
    failure after [Error calling Claude API: ]. *)
Theorem claude_call_attempts_bounded (w : world) (messages : pyval) (log : list event) :
  exists earlier last,
    length earlier <= 2
    /\ Forall claude_failed earlier
    /\ snd (Router.call_claude_api w messages log)
       = (log ++ with_backoff
                   (map (EPost CLAUDE_API_URL (Router.claude_payload messages))
                        (earlier ++ [last])))%list
    /\ match claude_attempt last with
       | Ok v => fst (Router.call_claude_api w messages log) = Ok v
       | Raise e =>
           length earlier = 2
           /\ fst (Router.call_claude_api w messages log)
              = Raise (HTTPException 500 ("Error calling Claude API: " ++ str_exn e))
       end.
Proof.
  rewrite call_claude_api_attempts. cbv zeta.
  set (url := CLAUDE_API_URL). set (payload := Router.claude_payload messages).
  set (o1 := http_post w log url payload).
  destruct (claude_attempt o1) as [v1|e1] eqn:A1.
  { exists [], o1. cbn [app map with_backoff length fst snd]. rewrite A1.
    repeat split; auto. }
  set (o2 := http_post w ((log ++ [EPost url payload o1]) ++ [ESleep 4]) url payload).
  destruct (claude_attempt o2) as [v2|e2] eqn:A2.
  { exists [o1], o2. cbn [app map with_backoff length fst snd]. rewrite A2.
    repeat split; auto.
    - constructor; [now exists e1|constructor].
    - now rewrite <- !app_assoc. }
  match goal with |- context [claude_attempt ?x] =>
    match x with http_post _ _ _ _ => set (o3 := x) end end.
  exists [o1; o2], o3. cbn [app map with_backoff length].
  split; [lia|]. split.
  { repeat constructor; [now exists e1|now exists e2]. }
  destruct (claude_attempt o3) as [v3|e3] eqn:A3; cbn [fst snd];
    rewrite <- !app_assoc; cbn [app]; repeat split; auto.
Qed.

(** [call_openai_api] of the router, on every environment: the same
    bounds for the requests to the SDK, and the same shape of the final
    error with [Error calling OpenAI API: ]. *)
Theorem openai_call_attempts_bounded (w : world) (messages : pyval) (log : list event) :
  exists earlier last,
    length earlier <= 2
    /\ Forall openai_failed earlier
    /\ snd (Router.call_openai_api w messages log)
       = (log ++ with_backoff (map (ECreate "o1" messages "medium") (earlier ++ [last])))%list
    /\ match openai_attempt last with
       | Ok v => fst (Router.call_openai_api w messages log) = Ok v
       | Raise e =>
           length earlier = 2
           /\ fst (Router.call_openai_api w messages log)
              = Raise (HTTPException 500 ("Error calling OpenAI API: " ++ str_exn e))
       end.
Proof.
  rewrite call_openai_api_attempts. cbv zeta.
  set (o1 := openai_create w log "o1" messages "medium").
  destruct (openai_attempt o1) as [v1|e1] eqn:A1.
  { exists [], o1. cbn [app map with_backoff length fst snd]. rewrite A1.
    repeat split; auto. }
  set (o2 := openai_create w ((log ++ [ECreate "o1" messages "medium" o1]) ++ [ESleep 4])
                           "o1" messages "medium").
  destruct (openai_attempt o2) as [v2|e2] eqn:A2.
  { exists [o1], o2. cbn [app map with_backoff length fst snd]. rewrite A2.
    repeat split; auto.
    - constructor; [now exists e1|constructor].
    - now rewrite <- !app_assoc. }
  match goal with |- context [openai_attempt ?x] =>
    match x with openai_create _ _ _ _ _ => set (o3 := x) end end.
  exists [o1; o2], o3. cbn [app map with_backoff length].
  split; [lia|]. split.
  { repeat constructor; [now exists e1|now exists e2]. }
  destruct (openai_attempt o3) as [v3|e3] eqn:A3; cbn [fst snd];
    rewrite <- !app_assoc; cbn [app]; repeat split; auto.
Qed.

(** ** Normalization of the course name *)

Lemma lower_char_space c : is_space (lower_char c) = is_space c.
Proof. destruct c as [[] [] [] [] [] [] [] []]; reflexivity. Qed.

Lemma lower_app a b : lower (a ++ b) = lower a ++ lower b.
Proof. induction a as [|c a IH]; simpl; [reflexivity|now rewrite IH]. Qed.

Lemma lower_rev_onto s acc : lower (rev_onto s acc) = rev_onto (lower s) (lower acc).
Proof.
  revert acc. induction s as [|c s IH]; intros acc; simpl; [reflexivity|].
  now rewrite IH.
Qed.

Lemma lower_rev s : lower (rev s) = rev (lower s).
Proof. unfold rev. now rewrite lower_rev_onto. Qed.

Lemma lower_lstrip s : lower (lstrip_by is_space s) = lstrip_by is_space (lower s).
Proof.
  induction s as [|c s IH]; simpl; [reflexivity|].
  rewrite lower_char_space. destruct (is_space c); [exact IH|reflexivity].
Qed.

Lemma lower_strip s : lower (strip s) = strip (lower s).
Proof.
  unfold strip, strip_by, rstrip_by.
  now rewrite lower_rev, lower_lstrip, lower_rev, lower_lstrip.
Qed.

Lemma rev_app a b : rev (a ++ b) = rev b ++ rev a.
Proof.
  induction a as [|c a IH]; simpl.
  - now rewrite app_empty_r.
  - change (String c a ++ b) with (String c (a ++ b)).
    now rewrite !rev_cons, IH, app_assoc_s.
Qed.

Lemma all_chars_rev p s : all_chars p s = true -> all_chars p (rev s) = true.
Proof.
  induction s as [|c s IH]; [auto|]. simpl. intros H.
  apply andb_prop in H as [Hc Hs]. rewrite rev_cons.
  specialize (IH Hs). revert IH. generalize (rev s) as r.
  induction r as [|d r IHr]; simpl; intros H.
  - now rewrite Hc.
  - apply andb_prop in H as [Hd Hr]. now rewrite Hd, IHr.
Qed.

Lemma lstrip_blanks p w s : all_chars p w = true -> lstrip_by p (w ++ s) = lstrip_by p s.
Proof.
  induction w as [|c w IH]; simpl; [auto|]. intros H.
  apply andb_prop in H as [Hc Hw]. now rewrite Hc, IH.
Qed.

Lemma lstrip_all p w : all_chars p w = true -> lstrip_by p w = "".
Proof.
  intros H. rewrite <- (app_empty_r w). now rewrite lstrip_blanks.
Qed.

(** Stripping on the left sees a suffix only when everything before it
    has been stripped. *)
Lemma lstrip_app p s t :
  lstrip_by p (s ++ t) = if String.eqb (lstrip_by p s) "" then lstrip_by p t
                         else lstrip_by p s ++ t.
Proof.
  induction s as [|c s IH]; simpl; [reflexivity|].
  destruct (p c); [exact IH|reflexivity].
Qed.

Lemma rstrip_blanks p s w : all_chars p w = true -> rstrip_by p (s ++ w) = rstrip_by p s.
Proof.
  intros H. unfold rstrip_by. rewrite rev_app.
  now rewrite lstrip_blanks by now apply all_chars_rev.
Qed.

Lemma strip_blanks p w1 s w2 :
  all_chars p w1 = true -> all_chars p w2 = true ->
  strip_by p (w1 ++ s ++ w2) = strip_by p s.
Proof.
  intros H1 H2. unfold strip_by. rewrite lstrip_blanks by exact H1.
  rewrite lstrip_app. destruct (String.eqb (lstrip_by p s) "") eqn:E.
  - apply String.eqb_eq in E. rewrite E. now rewrite (lstrip_all p w2 H2).
  - now apply rstrip_blanks.
Qed.

(** [normalize_course_name] does not see the case of the letters nor the
    white space around the name: two names that are equal in lower case,
    one of them between blanks, have the same normal form and are routed
    to the same strategy. *)
Theorem normalize_ignores_case_and_blanks (w1 s w2 t : string) :
  blanks w1 -> blanks w2 -> lower s = lower t ->
  normalize_course_name (w1 ++ s ++ w2) = normalize_course_name t
  /\ select_strategy (normalize_course_name (w1 ++ s ++ w2))
     = select_strategy (normalize_course_name t).
Proof.
  intros B1 B2 E.
  assert (N : normalize_course_name (w1 ++ s ++ w2) = normalize_course_name t).
  { unfold normalize_course_name, strip.
    rewrite (strip_blanks is_space w1 s w2 B1 B2).
    fold (strip s). fold (strip t). now rewrite !lower_strip, E. }
  split; [exact N|now rewrite N].
Qed.

Lemma normalize_ignores_case_and_blanks_witness :
  normalize_course_name ("  " ++ "AP Literature" ++ nl) = normalize_course_name "ap literature"
  /\ select_strategy (normalize_course_name ("  " ++ "AP Literature" ++ nl))
     = select_strategy (normalize_course_name "ap literature").
Proof.
  apply (normalize_ignores_case_and_blanks "  " "AP Literature" nl "ap literature");
    reflexivity.
Defined.

(** ** The sections of the environmental science page *)

Lemma ahead_stops {A : Type} stop rest caps (k : string -> list string -> option A) :
  run (Ahead (Alt (Lit stop) Eos)) rest caps k
  = if stops stop rest then k rest caps else None.
Proof.
  cbn [run]. unfold stops, startswith.
  destruct (strip_prefix stop rest); [reflexivity|].
  destruct (at_eos rest); reflexivity.
Qed.

(** The lazy star stops at the first place where the rest of the pattern
    matches. *)
Lemma star_lazy_first {A : Type} (k : string -> option A) body post :
  (forall b1 b2, body = b1 ++ b2 -> b2 <> "" -> k (b2 ++ post) = None) ->
  star_lazy any (body ++ post) k = star_lazy any post k.
Proof.
  induction body as [|c body IH]; intros H; [reflexivity|].
  change (String c body ++ post) with (String c (body ++ post)).
  cbn [star_lazy].
  assert (H0 : k (String c (body ++ post)) = None)
    by exact (H "" (String c body) eq_refl ltac:(discriminate)).
  rewrite H0.
  cbn [any]. apply IH. intros b1 b2 E N.
  apply (H (String c b1) b2); [now rewrite E|exact N].
Qed.

Lemma star_lazy_here {A : Type} (k : string -> option A) post x :
  k post = Some x -> star_lazy any post k = Some x.
Proof. intros H. destruct post; cbn [star_lazy]; now rewrite H. Qed.

Lemma no_stop_splits stop body post :
  no_stop stop body post = true ->
  forall b1 b2, body = b1 ++ b2 -> b2 <> "" -> stops stop (b2 ++ post) = false.
Proof.
  induction body as [|c body IH]; intros H b1 b2 E N.
  - destruct b1; [simpl in E; congruence|discriminate].
  - cbn [no_stop] in H. apply andb_prop in H as [H1 H2].
    destruct b1 as [|d b1]; simpl in E.
    + subst b2. now apply negb_true_iff in H1.
    + inversion E; subst. now apply (IH H2 b1 b2).
Qed.

Lemma run_section {A : Type} marker stop s (k : string -> list string -> option A) :
  run (section_pattern marker stop) s [] k
  = match strip_prefix marker s with
    | Some rest =>
        star_lazy any rest (fun r => run (Ahead (Alt (Lit stop) Eos)) r [] k)
    | None => None
    end.
Proof. reflexivity. Qed.

Lemma match_here_section marker stop pre0 body post :
  stops stop post = true -> no_stop stop body post = true ->
  match_here (section_pattern marker stop) pre0 (marker ++ body ++ post)
  = Some (MatchObj pre0 (marker ++ body) [] post).
Proof.
  intros S N. unfold match_here. rewrite run_section, strip_prefix_app.
  rewrite star_lazy_first.
  - apply star_lazy_here. rewrite ahead_stops, S.
    assert (E : marker ++ body ++ post = (marker ++ body) ++ post)
      by (now rewrite app_assoc_s).
    rewrite E, take_app. reflexivity.
  - intros b1 b2 E Hb. rewrite ahead_stops.
    now rewrite (no_stop_splits stop body post N b1 b2 E Hb).
Qed.

Lemma match_here_no_marker marker stop pre0 s :
  startswith s marker = false -> match_here (section_pattern marker stop) pre0 s = None.
Proof.
  unfold startswith, match_here. rewrite run_section.
  now destruct (strip_prefix marker s).
Qed.

(** The search for a section finds the first occurrence of the marker and
    ends the section at the first place where it may stop. *)
Lemma search_section marker stop pre body post :
  section_at marker stop pre body post = true ->
  search (section_pattern marker stop) (pre ++ marker ++ body ++ post)
  = Some (MatchObj pre (marker ++ body) [] post).
Proof.
  unfold section_at. intros H.
  apply andb_prop in H as [H N]. apply andb_prop in H as [F S].
  unfold search.
  enough (G : forall p,
             search_from (section_pattern marker stop) p (pre ++ marker ++ body ++ post)
             = Some (MatchObj (rev p ++ pre) (marker ++ body) [] post)) by apply G.
  induction pre as [|c pre IH]; intros p.
  - change ("" ++ marker ++ body ++ post) with (marker ++ body ++ post).
    rewrite app_empty_r. apply search_from_hit. now apply match_here_section.
  - cbn [no_start] in F. apply andb_prop in F as [F1 F2].
    change (String c pre ++ marker ++ body ++ post)
      with (String c (pre ++ marker ++ body ++ post)) in *.
    rewrite search_from_skip.
    + rewrite (IH F2 (String c p)). now rewrite rev_cons, app_assoc_s.
    + apply match_here_no_marker. now apply negb_true_iff in F1.
Qed.

(** The page of the environmental science strategy shows, for each of its
    three sections, the feedback from the first occurrence of the marker
    of the section up to the first place after it where the stop mark of
    the section follows or the feedback ends: the warning sign stops the
    first section, the rocket the two others. *)
Theorem sections_of_the_feedback (s f : string) :
  exists earned total ap did_well improve next_steps,
    create_environmental_science_html (PStr s) (PStr f)
    = Ok (cat [env_html_1; earned; env_html_2; total; env_html_3; ap; env_html_4;
               did_well; env_html_5; improve; env_html_6; next_steps; env_html_7;
               earned; env_html_8; total; env_html_9; ap; env_html_10; s; env_html_11])
    /\ (forall pre body post,
          f = pre ++ did_well_mark ++ body ++ post ->
          section_at did_well_mark warning_sign pre body post = true ->
          did_well = did_well_mark ++ body)
    /\ (forall pre body post,
          f = pre ++ improve_mark ++ body ++ post ->
          section_at improve_mark rocket pre body post = true ->
          improve = improve_mark ++ body)
    /\ (forall pre body post,
          f = pre ++ next_steps_mark ++ body ++ post ->
          section_at next_steps_mark rocket pre body post = true ->
          next_steps = next_steps_mark ++ body).
Proof.
  destruct (environmental_page s f) as (sm & am & d & i & n & _ & _ & Hd & Hi & Hn & E).
  cbv zeta in E.
  eexists _, _, _, _, _, _. split; [exact E|].
  split; [|split]; intros pre body post -> H.
  - change did_well_pattern with (section_pattern did_well_mark warning_sign) in Hd.
    rewrite (search_section _ _ _ _ _ H) in Hd. now subst d.
  - change improve_pattern with (section_pattern improve_mark rocket) in Hi.
    rewrite (search_section _ _ _ _ _ H) in Hi. now subst i.
  - change next_steps_pattern with (section_pattern next_steps_mark rocket) in Hn.
    rewrite (search_section _ _ _ _ _ H) in Hn. now subst n.
Qed.

(** ** The errors of the endpoint [/grade/] *)

Lemma raises_plain_ok {A} (a : A) : raises_plain (Ok a).
Proof. intros e H. discriminate. Qed.

Lemma raises_plain_bind {A B} (m : result A) (f : A -> result B) :
  raises_plain m -> (forall a, raises_plain (f a)) -> raises_plain (bind m f).
Proof.
  intros Hm Hf e H. destruct m as [a|e0]; simpl in H.
  - now apply (Hf a).
  - inversion H; subst. now apply Hm.
Qed.

Lemma raises_plain_try_when {A} p (body : result A) handler :
  raises_plain body -> (forall e, raises_plain (handler e)) ->
  raises_plain (try_when p body handler).
Proof.
  intros Hb Hh e H. unfold try_when in H. destruct body as [a|e0]; [discriminate|].
  destruct (p e0).
  - now apply (Hh e0).
  - inversion H; subst. now apply Hb.
Qed.

Ltac plain_prim :=
  let e := fresh "e" in
  let H := fresh "H" in
  intros e H;
  repeat match type of H with
         | context [match ?x with _ => _ end] => destruct x; try discriminate H
         | context [if ?x then _ else _] => destruct x; try discriminate H
         end;
  inversion H; reflexivity.

Lemma py_get_plain obj key default : raises_plain (py_get obj key default).
Proof. unfold py_get, no_attribute. plain_prim. Qed.

Lemma py_contains_plain key obj : raises_plain (py_contains key obj).
Proof. unfold py_contains, not_iterable. plain_prim. Qed.

Lemma py_getitem_plain obj key : raises_plain (py_getitem obj key).
Proof. unfold py_getitem. plain_prim. Qed.

Lemma py_getitem0_plain obj : raises_plain (py_getitem0 obj).
Proof. unfold py_getitem0. plain_prim. Qed.

Lemma float_of_int_plain z : raises_plain (float_of_int z).
Proof. unfold float_of_int. plain_prim. Qed.

Lemma py_float_plain v : raises_plain (py_float v).
Proof.
  destruct v; cbn [py_float]; try apply raises_plain_ok; try apply float_of_int_plain;
    plain_prim.
Qed.

Lemma num_to_float_plain n : raises_plain (num_to_float n).
Proof. destruct n; cbn [num_to_float]; [apply float_of_int_plain|apply raises_plain_ok]. Qed.

Lemma py_add_plain a b : raises_plain (py_add a b).
Proof.
  unfold py_add, unsupported.
  destruct (as_num a) as [[x|x]|]; destruct (as_num b) as [[y|y]|];
    try apply raises_plain_ok;
    try (apply raises_plain_bind; [apply num_to_float_plain|intros;
         apply raises_plain_bind; [apply num_to_float_plain|intros; apply raises_plain_ok]]);
    plain_prim.
Qed.

Lemma normalize_object_plain v : raises_plain (normalize_object v).
Proof. unfold normalize_object, no_attribute. plain_prim. Qed.

Lemma re_search_plain r v : raises_plain (re_search r v).
Proof. unfold re_search. plain_prim. Qed.

Lemma make_response_plain s f html p e : raises_plain (make_response s f html p e).
Proof. unfold make_response. plain_prim. Qed.

Lemma number_value_sraise n e : number_value n = SRaise e -> is_HTTPException e = false.
Proof.
  unfold number_value.
  destruct (n_frac n); destruct (n_exp n) as [[? ?]|];
    try destruct (_ <? _)%nat; intros H; inversion H; reflexivity.
Qed.

(** The scanner raises nothing but its own errors. *)
Lemma scan_plain : forall fuel,
  (forall s i e, scan_once fuel s i = SRaise e -> is_HTTPException e = false)
  /\ (forall s i acc e, elems fuel s i acc = SRaise e -> is_HTTPException e = false)
  /\ (forall s i acc e, members fuel s i acc = SRaise e -> is_HTTPException e = false).
Proof.
  induction fuel as [|fuel (IH1 & IH2 & IH3)].
  { repeat split; intros; cbn in *; inversion H; reflexivity. }
  split; [|split].
  - intros s i e H. cbn [scan_once] in H.
    destruct s as [|c s']; [discriminate|].
    destruct (Ascii.eqb c (ascii_of_nat 34)).
    { destruct (scan_str s' (S i) i []) as [[[items r] j]| |] eqn:E;
        cbn [sbind] in H; try discriminate.
      now apply scan_str_no_raise in E. }
    destruct (Ascii.eqb c "{").
    { destruct (skip_ws s' (S i)) as [s1 i1].
      pose proof (IH3 s1 i1 [] e) as M.
      destruct s1 as [|[[] [] [] [] [] [] [] []] r];
        first [ discriminate H | exact (M H) ]. }
    destruct (Ascii.eqb c "[").
    { destruct (skip_ws s' (S i)) as [s1 i1].
      pose proof (IH2 s1 i1 [] e) as M.
      destruct s1 as [|[[] [] [] [] [] [] [] []] r];
        first [ discriminate H | exact (M H) ]. }
    repeat match type of H with
           | context [match keyword ?k ?v ?t ?j with _ => _ end] =>
               destruct (keyword k v t j) as [y|]; [discriminate|]
           end.
    destruct (match_number (String c s')) as [[n r]|]; [|discriminate].
    destruct (number_value n) eqn:V; cbn [sbind] in H; try discriminate.
    inversion H; subst. now apply number_value_sraise in V.
  - intros s i acc e H. cbn [elems] in H.
    destruct (scan_once fuel s i) as [[[v r] j]| |] eqn:E; cbn [sbind] in H;
      try discriminate.
    2:{ inversion H; subst. now apply IH1 in E. }
    destruct (skip_ws r j) as [r1 j1].
    destruct r1 as [|[[] [] [] [] [] [] [] []] r2]; try discriminate.
    destruct (skip_ws r2 (S j1)) as [r3 j3]. now apply IH2 in H.
  - intros s i acc e H. cbn [members] in H.
    destruct s as [|c s']; [discriminate|].
    destruct (Ascii.eqb c (ascii_of_nat 34)); [|discriminate].
    destruct (scan_str s' (S i) i []) as [[[items r] j]| |] eqn:E;
      cbn [sbind] in H; try discriminate; [|now apply scan_str_no_raise in E].
    destruct (skip_ws r j) as [r1 j1].
    destruct r1 as [|[[] [] [] [] [] [] [] []] r2]; try discriminate.
    destruct (skip_ws r2 (S j1)) as [r3 j3].
    destruct (scan_once fuel r3 j3) as [[[v r4] j4]| |] eqn:E2; cbn [sbind] in H;
      try discriminate.
    2:{ inversion H; subst. now apply IH1 in E2. }
    destruct (skip_ws r4 j4) as [r5 j5].
    destruct r5 as [|[[] [] [] [] [] [] [] []] r6]; try discriminate.
    destruct (skip_ws r6 (S j5)) as [r7 j7]. now apply IH3 in H.
Qed.

Lemma loads_plain doc : raises_plain (Json.loads doc).
Proof.
  intros e H. unfold Json.loads in H.
  destruct (startswith doc bom); [inversion H; reflexivity|].
  destruct (skip_ws doc 0) as [s0 i0].
  destruct (scan_plain (2 * String.length doc + 2)) as (F & _ & _).
  destruct (scan_once (2 * String.length doc + 2) s0 i0) as [[[v r] j]| |] eqn:E.
  - destruct (skip_ws r j) as [r1 j1]. destruct r1; [discriminate|].
    inversion H; reflexivity.
  - inversion H; reflexivity.
  - inversion H; subst. now apply F in E.
Qed.

Lemma json_loads_plain v : raises_plain (json_loads v).
Proof.
  destruct v; cbn [json_loads]; try apply loads_plain; intros e H; inversion H; reflexivity.
Qed.

Ltac plain :=
  repeat first
    [ apply raises_plain_ok
    | apply py_get_plain | apply py_contains_plain | apply py_getitem_plain
    | apply py_getitem0_plain | apply py_float_plain | apply py_add_plain
    | apply loads_plain | apply json_loads_plain | apply normalize_object_plain
    | apply re_search_plain | apply make_response_plain
    | apply raises_plain_bind; [|intros ?]
    | apply raises_plain_try_when; [|intros ?]
    | match goal with
      | |- raises_plain (if ?b then _ else _) => destruct b
      | |- raises_plain (match ?x with _ => _ end) => destruct x
      end ].

Lemma course_from_response_plain title v : raises_plain (course_from_response title v).
Proof. unfold course_from_response. plain. Qed.

Lemma extract_score_plain s f : raises_plain (extract_score_from_env_science s f).
Proof. unfold extract_score_from_env_science. plain. Qed.

Lemma environmental_html_plain s f : raises_plain (create_environmental_science_html s f).
Proof. unfold create_environmental_science_html. plain. Qed.

Lemma claude_text_plain data : raises_plain (claude_text data).
Proof. unfold claude_text. plain. Qed.

Lemma plain_is_plain_or_500 e : is_HTTPException e = false -> plain_or_500 e.
Proof. intros H H'. congruence. Qed.

Lemma server_error_plain_or_500 d : plain_or_500 (HTTPException 500 d).
Proof. intros _. now exists d. Qed.

Lemma io_ok_ret {A} (a : A) : io_plain_or_500 (ret a).
Proof. intros log e log' H. discriminate. Qed.

Lemma io_ok_raise {A} e : plain_or_500 e -> io_plain_or_500 (@raise A e).
Proof. intros P log e' log' H. inversion H; subst. exact P. Qed.

Lemma io_ok_lift {A} (r : result A) : raises_plain r -> io_plain_or_500 (lift r).
Proof.
  intros P log e log' H. unfold lift in H. inversion H; subst.
  apply plain_is_plain_or_500. now apply P.
Qed.

Lemma io_ok_bind {A B} (m : io A) (f : A -> io B) :
  io_plain_or_500 m -> (forall a, io_plain_or_500 (f a)) -> io_plain_or_500 (iobind m f).
Proof.
  intros Hm Hf log e log' H. unfold iobind in H.
  destruct (m log) as [[a|e0] l1] eqn:E.
  - now apply (Hf a l1 e log').
  - inversion H; subst. now apply (Hm log e log').
Qed.

Lemma io_ok_post w url body :
  honest_transport w -> io_plain_or_500 (post w url body).
Proof.
  intros T log e log' H. unfold post in H.
  destruct (http_post w log url body) as [st text|e0] eqn:E; [discriminate|].
  inversion H; subst. apply plain_is_plain_or_500. now apply (T log url body).
Qed.

Lemma io_ok_claude w messages : io_plain_or_500 (Router.call_claude_api w messages).
Proof.
  intros log e log' H. rewrite call_claude_api_attempts in H. cbv zeta in H.
  repeat match type of H with
         | context [match claude_attempt ?x with _ => _ end] =>
             destruct (claude_attempt x); [discriminate|]
         end.
  inversion H; subst. apply server_error_plain_or_500.
Qed.

Lemma io_ok_openai w messages : io_plain_or_500 (Router.call_openai_api w messages).
Proof.
  intros log e log' H. rewrite call_openai_api_attempts in H. cbv zeta in H.
  repeat match type of H with
         | context [match openai_attempt ?x with _ => _ end] =>
             destruct (openai_attempt x); [discriminate|]
         end.
  inversion H; subst. apply server_error_plain_or_500.
Qed.

Ltac io_ok :=
  repeat first
    [ apply io_ok_ret
    | apply io_ok_claude | apply io_ok_openai
    | apply io_ok_post; assumption
    | apply io_ok_raise; apply server_error_plain_or_500
    | apply io_ok_lift; first [ apply course_from_response_plain | apply extract_score_plain
                              | apply environmental_html_plain | plain ]
    | apply io_ok_bind; [|intros ?]
    | match goal with
      | |- io_plain_or_500 (let '(_, _) := ?x in _) => destruct x
      | |- io_plain_or_500 (if ?b then _ else _) => destruct b
      | |- io_plain_or_500 (match ?x with _ => _ end) => destruct x
      end ].

Lemma io_ok_classify w title question :
  io_plain_or_500 (classify_frq_course w title question).
Proof. unfold classify_frq_course. io_ok. Qed.

Lemma io_ok_essay w endpoint api_name question answer :
  honest_transport w -> io_plain_or_500 (grade_essay w endpoint api_name question answer).
Proof. intros T. unfold grade_essay. io_ok. Qed.

Lemma io_ok_environmental w question answer rubric image_data :
  io_plain_or_500 (grade_environmental_science w question answer rubric image_data).
Proof. unfold grade_environmental_science. io_ok. Qed.

(** Every failure of a request to [/grade/] that reaches the handler
    surfaces with status 500: whatever the upstream services answer, an
    exception that leaves [grade_frq] is an [HTTPException] of status 500,
    the status of an upstream answer being never passed on; a request
    stopped before the handler gets the validation error. *)
Theorem grade_errors_have_status_500 (w : world) (log : list event) :
  honest_transport w ->
  (forall course_title question student_answer scoring_rubric images e,
     fst (grade_frq w course_title question student_answer scoring_rubric images log)
     = Raise e -> server_error e)
  /\ (forall f e, fst (post_grade w f log) = Raise e ->
        e = validation_error \/ server_error e).
Proof.
  intros T.
  assert (G : forall course_title question student_answer scoring_rubric images e,
     fst (grade_frq w course_title question student_answer scoring_rubric images log)
     = Raise e -> server_error e).
  { intros ct q a r imgs e H. unfold grade_frq, try_io in H.
    match type of H with
    | context [match ?body log with _ => _ end] =>
        assert (B : io_plain_or_500 body);
          [|destruct (body log) as [[x|e0] l1] eqn:E]
    end.
    - apply io_ok_bind; [apply io_ok_classify|intros c].
      apply io_ok_bind; [apply io_ok_lift, normalize_object_plain|intros n].
      destruct (select_strategy n).
      + apply io_ok_environmental.
      + now apply io_ok_essay.
      + now apply io_ok_essay.
      + io_ok.
    - discriminate.
    - specialize (B log e0 l1 E).
      destruct (is_HTTPException e0) eqn:I; cbn [raise fst] in H; inversion H; subst.
      + now apply B.
      + eexists. reflexivity. }
  split; [exact G|].
  intros f e H. unfold post_grade in H.
  destruct (required_field (form_course_title f)); [|inversion H; now left].
  destruct (required_field (form_question f)); [|inversion H; now left].
  destruct (required_field (form_student_answer f)); [|inversion H; now left].
  destruct (required_field (form_scoring_rubric f)); [|inversion H; now left].
  right. now apply G in H.
Qed.

(** ** What the strategies send and what they ignore *)

Lemma quiet_ret {A} (a : A) : quiet (ret a).
Proof. intros log. reflexivity. Qed.

Lemma quiet_raise {A} e : quiet (@raise A e).
Proof. intros log. reflexivity. Qed.

Lemma quiet_lift {A} (r : result A) : quiet (lift r).
Proof. intros log. reflexivity. Qed.

Lemma quiet_bind {A B} (m : io A) (f : A -> io B) :
  quiet m -> (forall a, quiet (f a)) -> quiet (iobind m f).
Proof.
  intros Hm Hf log. unfold iobind. specialize (Hm log).
  destruct (m log) as [[a|e] l1]; cbn [snd] in *; subst l1.
  - apply Hf.
  - reflexivity.
Qed.

Ltac quiet :=
  repeat first
    [ apply quiet_ret | apply quiet_raise | apply quiet_lift
    | apply quiet_bind; [|intros ?]
    | match goal with
      | |- quiet (let '(_, _) := ?x in _) => destruct x
      | |- quiet (if ?b then _ else _) => destruct b
      | |- quiet (match ?x with _ => _ end) => destruct x
      end ].

Lemma iobind_post {B} w url body (f : Z * string -> io B) log :
  iobind (post w url body) f log
  = match http_post w log url body with
    | HttpResponse status_code text =>
        f (status_code, text) (log ++ [EPost url body (HttpResponse status_code text)])%list
    | HttpRaise e => (Raise e, (log ++ [EPost url body (HttpRaise e)])%list)
    end.
Proof. unfold iobind, post. destruct (http_post w log url body); reflexivity. Qed.

(** The language and literature strategies post once to their endpoint,
    with the question and the essay and an empty reference text, and have
    no other interaction whatever the answer: nothing is retried.  An
    answer with another status than 200 fails the request with status 500
    and the body of the answer in the detail, and an exception of the
    transport is passed on as it is. *)
Theorem essay_endpoint_called_once
        (w : world) (endpoint api_name question student_answer : string)
        (log : list event) :
  exists out,
    http_post w log endpoint (essay_payload question student_answer) = out
    /\ snd (grade_essay w endpoint api_name question student_answer log)
       = (log ++ [EPost endpoint (essay_payload question student_answer) out])%list
    /\ match out with
       | HttpRaise e =>
           fst (grade_essay w endpoint api_name question student_answer log) = Raise e
       | HttpResponse status_code text =>
           status_code <> 200%Z ->
           fst (grade_essay w endpoint api_name question student_answer log)
           = Raise (HTTPException 500 ("Error from " ++ api_name ++ " API: " ++ text))
       end.
Proof.
  eexists. split; [reflexivity|].
  unfold grade_essay. fold (essay_payload question student_answer).
  rewrite !iobind_post.
  destruct (http_post w log endpoint (essay_payload question student_answer))
    as [status_code text|e].
  - cbv beta iota. split.
    + match goal with |- snd (?m ?l) = _ => enough (Q : quiet m) by apply Q end.
      quiet.
    + intros N. apply Z.eqb_neq in N. rewrite N. reflexivity.
  - split; reflexivity.
Qed.

Lemma try_io_bind {A B} (m : io A) (f : A -> io B) (h : exn -> io B) log :
  try_io (iobind m f) h log
  = match m log with
    | (Ok a, l1) => try_io (f a) h l1
    | (Raise e, l1) => h e l1
    end.
Proof. unfold try_io, iobind. destruct (m log) as [[a|e] l1]; reflexivity. Qed.

(** The images of a request are used by the two-stage strategy only, and
    the scoring rubric is not used by the language and literature
    strategies: a request routed elsewhere has the same outcome and the
    same interactions whatever its images, and one routed to the language
    or the literature endpoint whatever its rubric too. *)
Theorem rubric_and_images_unused
        (w : world) (course_title question student_answer : string)
        (rubric rubric' : string) (images images' : option (list string))
        (log : list event) :
  (chosen w course_title question log <> Some TwoStage ->
   grade_frq w course_title question student_answer rubric images log
   = grade_frq w course_title question student_answer rubric images' log)
  /\ (chosen w course_title question log = Some Language
      \/ chosen w course_title question log = Some Literature ->
      grade_frq w course_title question student_answer rubric images log
      = grade_frq w course_title question student_answer rubric' images' log).
Proof.
  unfold chosen, grade_frq. rewrite !try_io_bind.
  destruct (classify_frq_course w course_title question log) as [[c|e] l1].
  2:{ split; reflexivity. }
  rewrite !try_io_bind. unfold lift.
  destruct (normalize_object c) as [n|e].
  2:{ split; reflexivity. }
  destruct (select_strategy n); split; intros H;
    try reflexivity; try congruence; destruct H; congruence.
Qed.

(** ** The scoring service of [ap-frq-grader.py] *)

Lemma grader_openai_first (w : world) (messages : pyval) (log : list event) :
  let out := openai_create w log "o1" messages "medium" in
  Grader.call_openai_api w messages log
  = (match openai_attempt out with
     | Ok v => Ok v
     | Raise _ => Raise name_error_time
     end, (log ++ [ECreate "o1" messages "medium" out])%list).
Proof.
  intros out. unfold Grader.call_openai_api. cbn [Grader.call_openai_api_loop].
  unfold iobind, try_io, create, lift, ret, raise. fold out.
  destruct out as [choices|e]; cbn [openai_attempt].
  - destruct (first_content choices); reflexivity.
  - reflexivity.
Qed.

(** [call_openai_api] of the scoring service never retries, although it is
    written as a loop of three attempts with a sleep: the file does not
    import [time], so the first failure ends the call with a [NameError].
    On every environment there is exactly one request to the SDK and no
    sleep, and the text of the failure is lost. *)
Theorem grader_openai_never_retries (w : world) (messages : pyval) (log : list event) :
  exists out,
    openai_create w log "o1" messages "medium" = out
    /\ snd (Grader.call_openai_api w messages log)
       = (log ++ [ECreate "o1" messages "medium" out])%list
    /\ match openai_attempt out with
       | Ok v => fst (Grader.call_openai_api w messages log) = Ok v
       | Raise _ =>
           fst (Grader.call_openai_api w messages log)
           = Raise (Exception_ "NameError" "name 'time' is not defined")
       end.
Proof.
  exists (openai_create w log "o1" messages "medium").
  split; [reflexivity|].
  rewrite grader_openai_first. cbv zeta. cbn [fst snd]. split; [reflexivity|].
  destruct (openai_attempt _); reflexivity.
Qed.

Lemma quiet_try {A} (body : io A) (h : exn -> io A) :
  quiet body -> (forall e, quiet (h e)) -> quiet (try_io body h).
Proof.
  intros Hb Hh log. unfold try_io. specialize (Hb log).
  destruct (body log) as [[a|e] l1]; cbn [snd] in *; subst l1.
  - reflexivity.
  - apply Hh.
Qed.

Lemma try_io_raises {A} (body : io A) (h : exn -> io A) log e :
  fst (try_io body h log) = Raise e -> exists e0 l1, fst (h e0 l1) = Raise e.
Proof.
  unfold try_io. destruct (body log) as [[a|e0] l1]; cbn [fst]; intros H;
    [discriminate|eauto].
Qed.

(** [call_claude_api] of the scoring service posts exactly once, and every
    failure, be it of the transport, a status other than 200 or an answer
    without [content[0].text], is an [HTTPException] of status 500 whose
    detail starts with [Error calling Claude API: ]; for a status other
    than 200 the status of the upstream is in the detail only. *)
Theorem grader_claude_single_post (w : world) (messages : pyval) (log : list event) :
  exists out,
    http_post w log CLAUDE_API_URL (Grader.claude_payload messages) = out
    /\ snd (Grader.call_claude_api w messages log)
       = (log ++ [EPost CLAUDE_API_URL (Grader.claude_payload messages) out])%list
    /\ (forall e, fst (Grader.call_claude_api w messages log) = Raise e ->
          exists d, e = HTTPException 500 ("Error calling Claude API: " ++ d))
    /\ (forall status_code text,
          out = HttpResponse status_code text -> status_code <> 200%Z ->
          fst (Grader.call_claude_api w messages log)
          = Raise (HTTPException 500
                     ("Error calling Claude API: " ++ str_int status_code
                      ++ ": Claude API call failed: " ++ text))).
Proof.
  exists (http_post w log CLAUDE_API_URL (Grader.claude_payload messages)).
  split; [reflexivity|].
  unfold Grader.call_claude_api. rewrite try_io_bind. unfold post.
  destruct (http_post w log CLAUDE_API_URL (Grader.claude_payload messages))
    as [status_code text|e0].
  - cbv beta iota. split; [|split].
    + match goal with |- snd (?m ?l) = _ => enough (Q : quiet m) by apply Q end.
      apply quiet_try; [quiet|intros; apply quiet_raise].
    + intros e H. apply try_io_raises in H as (e0 & l1 & H).
      cbn [raise fst] in H. injection H as <-. now exists (str_exn e0).
    + intros st tx E N. inversion E; subst. apply Z.eqb_neq in N. rewrite N.
      reflexivity.
  - cbn [raise fst snd]. split; [reflexivity|]. split.
    + intros e H. injection H as <-. now exists (str_exn e0).
    + intros st tx E. discriminate.
Qed.








Lemma truthy_nonempty s : s <> "" -> truthy (PStr s) = true.
Proof.
  intros N. cbn [truthy]. apply negb_true_iff. now apply String.eqb_neq.
Qed.

(** The scoring service loses a failure of the generator: when the three
    fields are filled and the request to the SDK fails, whatever the
    failure, the answer is the error of status 500 with the text
    [Internal server error: name 'time' is not defined], after the check
    of the calculations and one request to the SDK. *)
Theorem score_lost_on_sdk_failure
        (w : world) (request : ScoringRequest) (log : list event) (e0 : exn) :
  Grader.question request <> "" -> Grader.student_answer request <> "" ->
  Grader.scoring_rubric request <> "" ->
  let j := model_dump_json request in
  let cr := calculations_check w log j in
  let log1 := (log ++ [ECheck j (fst cr) (snd cr)])%list in
  let rubric :=
    if fst cr then Grader.scoring_rubric request ++ nl ++ "Note: " ++ snd cr
    else Grader.scoring_rubric request in
  let messages :=
    user_messages (create_scoring_prompt (Grader.question request)
                                         (Grader.student_answer request) rubric) in
  openai_create w log1 "o1" messages "medium" = SdkRaise e0 ->
  score_answer w request log
  = (Raise (HTTPException 500 "Internal server error: name 'time' is not defined"),
     (log1 ++ [ECreate "o1" messages "medium" (SdkRaise e0)])%list).
Proof.
  intros Nq Na Nr j cr log1 rubric messages H.
  unfold score_answer.
  rewrite (truthy_nonempty _ Nq), (truthy_nonempty _ Na), (truthy_nonempty _ Nr).
  cbn [andb negb]. rewrite try_io_bind. unfold check. fold j. fold cr.
  destruct cr as [b reasoning] eqn:C. cbn [fst snd] in *.
  rewrite try_io_bind, grader_openai_first. cbv zeta.
  fold rubric. fold messages. fold log1. rewrite H. reflexivity.
Qed.

Lemma score_lost_on_sdk_failure_witness :
  fst (score_answer sdk_down (Build_ScoringRequest "Explain osmosis." "Water moves." "2 points")
                    [])
  = Raise (HTTPException 500 "Internal server error: name 'time' is not defined").
Proof.
  rewrite (score_lost_on_sdk_failure sdk_down
             (Build_ScoringRequest "Explain osmosis." "Water moves." "2 points") []
             (Exception_ "APIConnectionError" "Connection error."));
    [reflexivity|discriminate|discriminate|discriminate|reflexivity].
Defined.


Lemma sections_of_the_feedback_witness :
  exists earned total ap did_well improve next_steps,
    create_environmental_science_html (PStr "evaluation") (PStr feedback_example)
    = Ok (cat [env_html_1; earned; env_html_2; total; env_html_3; ap; env_html_4;
               did_well; env_html_5; improve; env_html_6; next_steps; env_html_7;
               earned; env_html_8; total; env_html_9; ap; env_html_10; "evaluation";
               env_html_11])
    /\ did_well = did_well_mark ++ feedback_well
    /\ improve = improve_mark ++ feedback_improve ++ next_steps_mark ++ feedback_next
    /\ next_steps = next_steps_mark ++ feedback_next.
Proof.
  destruct (sections_of_the_feedback "evaluation" feedback_example)
    as (e & t & a & d & i & n & E & H1 & H2 & H3).
  exists e, t, a, d, i, n. split; [exact E|]. split; [|split].
  - apply (H1 feedback_head feedback_well
              (improve_mark ++ feedback_improve ++ next_steps_mark ++ feedback_next
                 ++ feedback_tail)); vm_compute; reflexivity.
  - apply (H2 (feedback_head ++ did_well_mark ++ feedback_well)
              (feedback_improve ++ next_steps_mark ++ feedback_next) feedback_tail);
      vm_compute; reflexivity.
  - apply (H3 (feedback_head ++ did_well_mark ++ feedback_well ++ improve_mark
                 ++ feedback_improve)
              feedback_next feedback_tail); vm_compute; reflexivity.
Defined.

(** In a feedback that follows the order of the template, where the next
    steps come between the advice for improvement and the rocket, the
    section of the advice runs up to the rocket: the page shows the next
    steps twice, at the end of the section [How to Improve] and again as
    the section of their own. *)
Theorem next_steps_shown_twice (s pre a b post : string) :
  section_at improve_mark rocket pre (a ++ next_steps_mark ++ b) post = true ->
  section_at next_steps_mark rocket (pre ++ improve_mark ++ a) b post = true ->
  exists earned total ap did_well,
    create_environmental_science_html
      (PStr s) (PStr (pre ++ improve_mark ++ a ++ next_steps_mark ++ b ++ post))
    = Ok (cat [env_html_1; earned; env_html_2; total; env_html_3; ap; env_html_4;
               did_well; env_html_5;
               improve_mark ++ a ++ next_steps_mark ++ b; env_html_6;
               next_steps_mark ++ b; env_html_7;
               earned; env_html_8; total; env_html_9; ap; env_html_10; s; env_html_11]).
Proof.
  intros HI HN.
  destruct (environmental_page s (pre ++ improve_mark ++ a ++ next_steps_mark ++ b ++ post))
    as (sm & am & d & i & n & _ & _ & _ & Hi & Hn & E).
  cbv zeta in E.
  change improve_pattern with (section_pattern improve_mark rocket) in Hi.
  change next_steps_pattern with (section_pattern next_steps_mark rocket) in Hn.
  assert (E1 : pre ++ improve_mark ++ a ++ next_steps_mark ++ b ++ post
               = pre ++ improve_mark ++ (a ++ next_steps_mark ++ b) ++ post)
    by (now rewrite !app_assoc_s).
  assert (E2 : pre ++ improve_mark ++ a ++ next_steps_mark ++ b ++ post
               = (pre ++ improve_mark ++ a) ++ next_steps_mark ++ b ++ post)
    by (now rewrite !app_assoc_s).
  rewrite E1, (search_section _ _ _ _ _ HI) in Hi.
  rewrite E2, (search_section _ _ _ _ _ HN) in Hn.
  subst i n. cbn [group0] in E.
  eexists _, _, _, _. exact E.
Qed.

Lemma next_steps_shown_twice_witness :
  exists earned total ap did_well,
    create_environmental_science_html
      (PStr "evaluation")
      (PStr ((feedback_head ++ did_well_mark ++ feedback_well) ++ improve_mark
             ++ feedback_improve ++ next_steps_mark ++ feedback_next ++ feedback_tail))
    = Ok (cat [env_html_1; earned; env_html_2; total; env_html_3; ap; env_html_4;
               did_well; env_html_5;
               improve_mark ++ feedback_improve ++ next_steps_mark ++ feedback_next;
               env_html_6;
               next_steps_mark ++ feedback_next; env_html_7;
               earned; env_html_8; total; env_html_9; ap; env_html_10; "evaluation";
               env_html_11]).
Proof.
  apply (next_steps_shown_twice "evaluation"
           (feedback_head ++ did_well_mark ++ feedback_well)
           feedback_improve feedback_next feedback_tail); vm_compute; reflexivity.
Defined.

(** ** Classification at the level of the request *)

Lemma claude_first_success w messages log v :
  claude_attempt (http_post w log CLAUDE_API_URL (Router.claude_payload messages)) = Ok v ->
  Router.call_claude_api w messages log
  = (Ok v, (log ++ [EPost CLAUDE_API_URL (Router.claude_payload messages)
                          (http_post w log CLAUDE_API_URL (Router.claude_payload messages))])%list).
Proof.
  intros H. rewrite call_claude_api_attempts. cbv zeta. now rewrite H.
Qed.

Lemma claude_text_without_content d :
  usable_content d = false -> claude_text (PDict d) = Ok (get_or d "text" (PStr "")).
Proof.
  unfold usable_content, claude_text. cbn [py_contains py_getitem bind].
  destruct (dict_lookup "content" d) as [c|]; cbn [bind].
  - destruct c as [| | | | |[|x l]|]; intros H; try discriminate; apply py_get_dict.
  - intros _. apply py_get_dict.
Qed.

Lemma classify_after_call w course_title question log v l1 :
  Router.call_claude_api w (classification_messages course_title question) log = (Ok v, l1) ->
  classify_frq_course w course_title question log
  = (course_from_response course_title v, l1).
Proof.
  unfold classify_frq_course, iobind, classification_messages. now intros ->.
Qed.

(** An answer of status 200 whose body is an object without a non-empty
    list under [content] counts as a success of [call_claude_api]: the
    value under [text], or the empty string, is returned after this single
    post.  The classification of such an answer without [text] is the
    course title of the caller. *)
Theorem answer_without_content_accepted
        (w : world) (messages : pyval) (log : list event)
        (body : string) (d : list (string * pyval)) :
  http_post w log CLAUDE_API_URL (Router.claude_payload messages) = HttpResponse 200 body ->
  loads body = Ok (PDict d) ->
  usable_content d = false ->
  Router.call_claude_api w messages log
  = (Ok (get_or d "text" (PStr "")),
     (log ++ [EPost CLAUDE_API_URL (Router.claude_payload messages)
                    (HttpResponse 200 body)])%list)
  /\ (forall course_title question,
        messages = classification_messages course_title question ->
        dict_lookup "text" d = None ->
        fst (classify_frq_course w course_title question log) = Ok (PStr course_title)).
Proof.
  intros P L U.
  assert (C : Router.call_claude_api w messages log
              = (Ok (get_or d "text" (PStr "")),
                 (log ++ [EPost CLAUDE_API_URL (Router.claude_payload messages)
                                (HttpResponse 200 body)])%list)).
  { rewrite (claude_first_success w messages log (get_or d "text" (PStr ""))).
    - now rewrite P.
    - rewrite P. cbn [claude_attempt Z.eqb Pos.eqb]. rewrite L. cbn [bind].
      now apply claude_text_without_content. }
  split; [exact C|].
  intros ct q -> T. rewrite (classify_after_call _ _ _ _ _ _ C).
  unfold get_or. rewrite T. reflexivity.
Qed.

Lemma answer_without_content_accepted_witness :
  fst (classify_frq_course (constant_world 200 empty_answer "") "AP Biology" "Why?" [])
  = Ok (PStr "AP Biology").
Proof.
  apply (proj2 (answer_without_content_accepted
                  (constant_world 200 empty_answer "")
                  (classification_messages "AP Biology" "Why?") [] empty_answer []
                  eq_refl eq_refl eq_refl) "AP Biology" "Why?" eq_refl eq_refl).
Defined.

(** A classification answer that is JSON but cannot be used fails the
    request: when the text of the answer decodes to something else than an
    object, or to an object whose course is not a string, the request to
    [/grade/] ends with status 500 and the text of the attribute error,
    after the single post of the classification; no grading call is
    made. *)
Theorem unusable_classification_fails
        (w : world) (course_title question student_answer scoring_rubric : string)
        (images : option (list string)) (log : list event)
        (body text : string) (data v : pyval) :
  let messages := classification_messages course_title question in
  let log1 := (log ++ [EPost CLAUDE_API_URL (Router.claude_payload messages)
                             (HttpResponse 200 body)])%list in
  http_post w log CLAUDE_API_URL (Router.claude_payload messages) = HttpResponse 200 body ->
  loads body = Ok data -> claude_text data = Ok (PStr text) -> loads text = Ok v ->
  (is_dict v = false ->
   grade_frq w course_title question student_answer scoring_rubric images log
   = (Raise (HTTPException 500
               ("Internal server error: '" ++ type_name v
                ++ "' object has no attribute 'get'")), log1))
  /\ (forall d c,
        v = PDict d -> dict_lookup "course_of_the_frq" d = Some c -> is_str c = false ->
        grade_frq w course_title question student_answer scoring_rubric images log
        = (Raise (HTTPException 500
                    ("Internal server error: '" ++ type_name c
                     ++ "' object has no attribute 'strip'")), log1)).
Proof.
  intros messages log1 P L T V.
  assert (C : Router.call_claude_api w messages log = (Ok (PStr text), log1)).
  { rewrite (claude_first_success w messages log (PStr text)).
    - now rewrite P.
    - rewrite P. cbn [claude_attempt Z.eqb Pos.eqb]. rewrite L. exact T. }
  split.
  - intros D. unfold grade_frq. rewrite try_io_bind.
    rewrite (classify_after_call _ _ _ _ _ _ C).
    unfold course_from_response. cbn [json_loads]. rewrite V. cbn [bind].
    destruct v; try discriminate D; reflexivity.
  - intros d c -> K S. unfold grade_frq. rewrite try_io_bind.
    rewrite (classify_after_call _ _ _ _ _ _ C).
    unfold course_from_response. cbn [json_loads]. rewrite V.
    cbn [bind py_get]. rewrite K. cbn [try_when]. rewrite try_io_bind.
    unfold lift. destruct c; try discriminate S; reflexivity.
Qed.

Lemma unusable_classification_fails_witness :
  grade_frq (constant_world 200 list_answer "") "AP Biology" "Why?" "Because." "1 point"
            None []
  = (Raise (HTTPException 500
              "Internal server error: 'list' object has no attribute 'get'"),
     [EPost CLAUDE_API_URL
            (Router.claude_payload (classification_messages "AP Biology" "Why?"))
            (HttpResponse 200 list_answer)]).
Proof.
  apply (proj1 (unusable_classification_fails
                  (constant_world 200 list_answer "") "AP Biology" "Why?" "Because."
                  "1 point" None [] list_answer "[]"
                  (PDict [("content", PList [PDict [("type", PStr "text");
                                                    ("text", PStr "[]")]])])
                  (PList []) eq_refl eq_refl eq_refl eq_refl) eq_refl).
Defined.

Lemma honest_constant_world st body content : honest_transport (constant_world st body content).
Proof. intros log url b e H. discriminate. Qed.

Lemma grade_errors_have_status_500_witness :
  server_error (HTTPException 500
                  "Error calling Claude API: 503: Claude API call failed: overloaded").
Proof.
  apply (proj1 (grade_errors_have_status_500 overloaded []
                  (honest_constant_world 503 "overloaded" ""))
               "AP Biology" "Why?" "Because." "1 point" None).
  vm_compute. reflexivity.
Defined.

(** ** Examples *)

Lemma essay_endpoint_called_once_witness :
  fst (grade_essay overloaded LANG_ENDPOINT "AP Language" "Why?" "Because." [])
  = Raise (HTTPException 500 "Error from AP Language API: overloaded").
Proof.
  destruct (essay_endpoint_called_once overloaded LANG_ENDPOINT "AP Language" "Why?"
                                       "Because." []) as (out & E & _ & M).
  simpl in E. subst out. apply M. discriminate.
Defined.

Lemma rubric_and_images_unused_witness :
  grade_frq (constant_world 200 prose_answer "") "AP Language" "Why?" "Because."
            "1 point" None []
  = grade_frq (constant_world 200 prose_answer "") "AP Language" "Why?" "Because."
              "2 points" (Some ["image"]) [].
Proof.
  apply (proj2 (rubric_and_images_unused (constant_world 200 prose_answer "")
                  "AP Language" "Why?" "Because." "1 point" "2 points"
                  None (Some ["image"]) [])).
  left. vm_compute. reflexivity.
Defined.

Lemma grader_claude_single_post_witness :
  fst (Grader.call_claude_api overloaded (user_messages "prompt") [])
  = Raise (HTTPException 500
             "Error calling Claude API: 503: Claude API call failed: overloaded").
Proof.
  destruct (grader_claude_single_post overloaded (user_messages "prompt") [])
    as (out & E & _ & _ & M).
  simpl in E. subst out. apply (M 503%Z "overloaded"); [reflexivity|discriminate].
Defined.

(** ** The pages and totals of the other strategies *)



(** The general strategy: after a classification that selects it, an
    answer of the general grader with status 200 and a JSON object gives
    the response whose possible and earned points are the numbers under
    [total_points] and [awarded_points] converted with [float], an absent
    key counting for 0; the text returned is the object encoded again, the
    feedback text is empty, and the only interaction after the
    classification is the single post to the grader. *)
Theorem general_strategy_totals
        (w : world) (course_title question student_answer scoring_rubric : string)
        (images : option (list string)) (log l1 : list event)
        (c : pyval) (n text : string) (resp : list (string * pyval)) (p e : float) :
  classify_frq_course w course_title question log = (Ok c, l1) ->
  normalize_object c = Ok n -> select_strategy n = General ->
  http_post w l1 GENERAL_ENDPOINT (general_payload question student_answer scoring_rubric)
  = HttpResponse 200 text ->
  Json.loads text = Ok (PDict resp) ->
  py_float (get_or resp "total_points" (PInt 0)) = Ok p ->
  py_float (get_or resp "awarded_points" (PInt 0)) = Ok e ->
  grade_frq w course_title question student_answer scoring_rubric images log
  = (Ok (Build_GradingResponse
           (dumps (PDict resp)) "" (create_general_course_html (dumps (PDict resp))) p e),
     (l1 ++ [EPost GENERAL_ENDPOINT
                   (general_payload question student_answer scoring_rubric)
                   (HttpResponse 200 text)])%list)
  /\ (dict_lookup "total_points" resp = None -> p = S754_zero false)
  /\ (dict_lookup "awarded_points" resp = None -> e = S754_zero false).
Proof.
  intros C N S P L Hp He. split.
  - unfold grade_frq. rewrite try_io_bind, C, try_io_bind. unfold lift at 1.
    rewrite N, S. fold (general_payload question student_answer scoring_rubric).
    rewrite try_io_bind. unfold post. rewrite P. cbv beta iota.
    cbn [Z.eqb Pos.eqb negb]. rewrite try_io_bind. unfold lift at 1. rewrite L.
    rewrite try_io_bind. unfold lift at 1. rewrite py_get_dict. cbn [bind]. rewrite Hp.
    rewrite try_io_bind. unfold lift at 1. rewrite py_get_dict. cbn [bind]. rewrite He.
    reflexivity.
  - unfold get_or in Hp, He. split; intros K; rewrite K in *.
    + now injection Hp as <-.
    + now injection He as <-.
Qed.

Lemma general_strategy_totals_witness :
  fst (grade_frq (constant_world 200 points_example "") "AP Biology" "Why?" "Because."
                 "1 point" None [])
  = Ok (Build_GradingResponse
          (dumps (PDict [("total_points", PInt 5)])) ""
          (create_general_course_html (dumps (PDict [("total_points", PInt 5)])))
          (round_Z 5) (S754_zero false)).
Proof.
  rewrite (proj1 (general_strategy_totals
                    (constant_world 200 points_example "") "AP Biology" "Why?" "Because."
                    "1 point" None []
                    [EPost CLAUDE_API_URL
                       (Router.claude_payload (classification_messages "AP Biology" "Why?"))
                       (HttpResponse 200 points_example)]
                    (PStr "AP Biology") "biology" points_example
                    [("total_points", PInt 5)] (round_Z 5) (S754_zero false)
                    eq_refl eq_refl eq_refl eq_refl eq_refl eq_refl eq_refl)).
  reflexivity.
Defined.

(** ** The round trip through JSON *)

(** *** The arithmetic of UTF-8 and of the escapes *)

Ltac unbig :=
  try unfold Nat.of_num_uint, Nat.of_uint in *; cbn [Nat.of_uint_acc] in *;
  rewrite ?Nat.tail_mul_spec in *.

Ltac divlia := unbig; zify; Z.to_euclidean_division_equations; lia.

Lemma is_cont_inv c :
  is_cont c = true -> (128 <= nat_of_ascii c < 192)%nat /\ cont_bits c = (nat_of_ascii c - 128)%nat.
Proof. unfold is_cont, cont_bits. intros H. split; [lia|reflexivity]. Qed.

Lemma seq2_inv c c1 :
  seq2 c c1 = true -> (194 <= nat_of_ascii c < 224)%nat /\ is_cont c1 = true.
Proof. unfold seq2. intros H. apply andb_prop in H as [H ->]. split; [lia|reflexivity]. Qed.

Lemma seq3_inv c c1 c2 :
  seq3 c c1 c2 = true ->
  (224 <= nat_of_ascii c < 240)%nat /\ is_cont c1 = true /\ is_cont c2 = true
  /\ (nat_of_ascii c = 224 -> 160 <= nat_of_ascii c1)%nat
  /\ (nat_of_ascii c = 237 -> nat_of_ascii c1 < 160)%nat.
Proof.
  unfold seq3. intros H.
  apply andb_prop in H as [H H5]. apply andb_prop in H as [H H4].
  apply andb_prop in H as [H ->]. apply andb_prop in H as [H ->].
  repeat split; lia.
Qed.

Lemma seq4_inv c c1 c2 c3 :
  seq4 c c1 c2 c3 = true ->
  (240 <= nat_of_ascii c < 245)%nat
  /\ is_cont c1 = true /\ is_cont c2 = true /\ is_cont c3 = true
  /\ (nat_of_ascii c = 240 -> 144 <= nat_of_ascii c1)%nat
  /\ (nat_of_ascii c = 244 -> nat_of_ascii c1 < 144)%nat.
Proof.
  unfold seq4. intros H.
  apply andb_prop in H as [H H5]. apply andb_prop in H as [H H4].
  apply andb_prop in H as [H ->]. apply andb_prop in H as [H ->].
  apply andb_prop in H as [H ->].
  repeat split; lia.
Qed.

Lemma cp2_range c c1 : seq2 c c1 = true -> (128 <= cp2 c c1 < 2048)%nat.
Proof.
  intros H. apply seq2_inv in H as (H & H1). apply is_cont_inv in H1 as (H1 & E1).
  unfold cp2. rewrite E1. lia.
Qed.

Lemma cp3_range c c1 c2 :
  seq3 c c1 c2 = true ->
  (2048 <= cp3 c c1 c2 < 65536)%nat /\ (cp3 c c1 c2 < 55296 \/ 57344 <= cp3 c c1 c2)%nat.
Proof.
  intros H. apply seq3_inv in H as (H & H1 & H2 & Ha & Hb).
  apply is_cont_inv in H1 as (H1 & E1). apply is_cont_inv in H2 as (H2 & E2).
  unfold cp3. rewrite E1, E2. unbig. lia.
Qed.

Lemma cp4_range c c1 c2 c3 :
  seq4 c c1 c2 c3 = true -> (65536 <= cp4 c c1 c2 c3 < 1114112)%nat.
Proof.
  intros H. apply seq4_inv in H as (H & H1 & H2 & H3 & Ha & Hb).
  apply is_cont_inv in H1 as (H1 & E1). apply is_cont_inv in H2 as (H2 & E2).
  apply is_cont_inv in H3 as (H3 & E3).
  unfold cp4. rewrite E1, E2, E3. unbig. lia.
Qed.

(** *** String literals *)

Lemma escape_ascii_step c s :
  (nat_of_ascii c <? 128)%nat = true ->
  escape_ascii (String c s) = ascii_piece c ++ escape_ascii s.
Proof. intros H. cbn [escape_ascii]. now rewrite H. Qed.

Lemma escape_ascii_seq2 c c1 s :
  seq2 c c1 = true ->
  escape_ascii (String c (String c1 s)) = escape_cp (cp2 c c1) ++ escape_ascii s.
Proof.
  intros H. apply seq2_inv in H as (H & H1). cbn [escape_ascii].
  replace (nat_of_ascii c <? 128)%nat with false by lia.
  replace ((192 <=? nat_of_ascii c) && (nat_of_ascii c <? 224))%nat with true by lia.
  rewrite H1. reflexivity.
Qed.

Lemma escape_ascii_seq3 c c1 c2 s :
  seq3 c c1 c2 = true ->
  escape_ascii (String c (String c1 (String c2 s)))
  = escape_cp (cp3 c c1 c2) ++ escape_ascii s.
Proof.
  intros H. apply seq3_inv in H as (H & H1 & H2 & _). cbn [escape_ascii].
  replace (nat_of_ascii c <? 128)%nat with false by lia.
  replace ((192 <=? nat_of_ascii c) && (nat_of_ascii c <? 224))%nat with false by lia.
  replace ((224 <=? nat_of_ascii c) && (nat_of_ascii c <? 240))%nat with true by lia.
  rewrite H1, H2. reflexivity.
Qed.

Lemma escape_ascii_seq4 c c1 c2 c3 s :
  seq4 c c1 c2 c3 = true ->
  escape_ascii (String c (String c1 (String c2 (String c3 s))))
  = escape_cp (cp4 c c1 c2 c3) ++ escape_ascii s.
Proof.
  intros H. apply seq4_inv in H as (H & H1 & H2 & H3 & _). cbn [escape_ascii].
  replace (nat_of_ascii c <? 128)%nat with false by lia.
  replace ((192 <=? nat_of_ascii c) && (nat_of_ascii c <? 224))%nat with false by lia.
  replace ((224 <=? nat_of_ascii c) && (nat_of_ascii c <? 240))%nat with false by lia.
  replace ((240 <=? nat_of_ascii c) && (nat_of_ascii c <? 248))%nat with true by lia.
  rewrite H1, H2, H3. reflexivity.
Qed.

Lemma scan_str_plain c s i start acc :
  Ascii.eqb c (ascii_of_nat 34) = false -> Ascii.eqb c "\" = false ->
  (nat_of_ascii c <? 32)%nat = false ->
  scan_str (String c s) i start acc = scan_str s (S i) start (Byte c :: acc).
Proof. intros H1 H2 H3. cbn [scan_str]. now rewrite H1, H2, H3. Qed.

Lemma scan_str_simple e x s i start acc :
  Ascii.eqb e "u" = false -> simple_escape e = Some x ->
  scan_str (String "\" (String e s)) i start acc
  = scan_str s (i + 2) start (Byte x :: acc).
Proof.
  intros H1 H2. cbn [scan_str].
  change (Ascii.eqb "\" (ascii_of_nat 34)) with false.
  change (Ascii.eqb "\" "\") with true. cbv iota. now rewrite H1, H2.
Qed.

Lemma scan_str_unit h1 h2 h3 h4 n x y i start acc :
  hex4 h1 h2 h3 h4 = Some n ->
  scan_str (String "\" (String "u" (String h1 (String h2 (String h3 (String h4
              (String x y))))))) i start acc
  = scan_str (String x y) (i + 6) start (Unit16 n :: acc).
Proof.
  intros H. cbn [scan_str].
  change (Ascii.eqb "\" (ascii_of_nat 34)) with false.
  change (Ascii.eqb "\" "\") with true.
  change (Ascii.eqb "u" "u") with true. cbv iota. now rewrite H.
Qed.

Lemma hex_val_digit d : (d < 16)%nat -> hex_val (hex_digit d) = Some (N.of_nat d).
Proof. intros H. do 16 (destruct d as [|d]; [reflexivity|]). lia. Qed.

Lemma hex_of_4 n :
  hex_of 4 n
  = String (hex_digit ((n / 16 / 16 / 16) mod 16))
      (String (hex_digit ((n / 16 / 16) mod 16))
         (String (hex_digit ((n / 16) mod 16))
            (String (hex_digit (n mod 16)) EmptyString))).
Proof. reflexivity. Qed.

(** The decoder reads the escape of a 16-bit unit back as this unit. *)
Lemma scan_str_u_escape n x y i start acc :
  (n < 65536)%nat ->
  scan_str (u_escape n ++ String x y) i start acc
  = scan_str (String x y) (i + 6) start (Unit16 (N.of_nat n) :: acc).
Proof.
  intros H. unfold u_escape. rewrite hex_of_4. cbn [append].
  apply scan_str_unit. unfold hex4.
  rewrite !hex_val_digit by (apply Nat.mod_upper_bound; discriminate).
  f_equal. divlia.
Qed.

Lemma scan_str_small cp x y i start acc :
  (cp < 65536)%nat ->
  scan_str (escape_cp cp ++ String x y) i start acc
  = scan_str (String x y) (i + 6) start (Unit16 (N.of_nat cp) :: acc).
Proof.
  intros H. unfold escape_cp. replace (cp <? 65536)%nat with true by lia.
  now apply scan_str_u_escape.
Qed.

Lemma scan_str_pair cp x y i start acc :
  (65536 <= cp < 1114112)%nat ->
  scan_str (escape_cp cp ++ String x y) i start acc
  = scan_str (String x y) (i + 6 + 6) start
      (Unit16 (N.of_nat (low_unit cp)) :: Unit16 (N.of_nat (high_unit cp)) :: acc).
Proof.
  intros H. unfold escape_cp. replace (cp <? 65536)%nat with false by lia.
  cbv zeta. fold (high_unit cp). fold (low_unit cp).
  rewrite app_assoc_s.
  assert (T : exists a b, u_escape (low_unit cp) ++ String x y = String a b).
  { unfold u_escape. cbn [append]. eauto. }
  destruct T as (a & b & T). rewrite T.
  rewrite scan_str_u_escape by (unfold high_unit; divlia).
  rewrite <- T. apply scan_str_u_escape. unfold low_unit. divlia.
Qed.

(** The decoder reads an encoded text back, item by item. *)
Lemma scan_str_escape_bounded : forall k s,
  (String.length s <= k)%nat -> utf8_text s = true ->
  forall rest i start acc, exists j,
    scan_str (escape_ascii s ++ String (ascii_of_nat 34) rest) i start acc
    = SOk ((List.rev acc ++ items_of s)%list, rest, j).
Proof.
  induction k as [|k IH]; intros s L H rest i start acc.
  { destruct s; [|cbn in L; lia]. exists (S i). cbn. now rewrite app_nil_r. }
  destruct s as [|c s]; [exists (S i); cbn; now rewrite app_nil_r|].
  cbn [String.length] in L.
  assert (G : forall t, (String.length t <= k)%nat -> utf8_text t = true ->
              forall i' a, exists j,
                scan_str (escape_ascii t ++ String (ascii_of_nat 34) rest) i' start
                         (a ++ acc)
                = SOk ((List.rev acc ++ List.rev a ++ items_of t)%list, rest, j)).
  { intros t Lt Ht i' a. destruct (IH t Lt Ht rest i' start (a ++ acc)%list) as [j Hj].
    exists j. rewrite Hj, rev_app_distr, <- app_assoc. reflexivity. }
  assert (T : forall t, exists x y,
              escape_ascii t ++ String (ascii_of_nat 34) rest = String x y).
  { intros t. destruct (escape_ascii t); cbn; eauto. }
  clear IH. cbn [utf8_text items_of] in *.
  destruct (nat_of_ascii c <? 128)%nat eqn:Hc.
  - rewrite (escape_ascii_step c s Hc).
    destruct (T s) as (x & y & Tx).
    specialize (G s ltac:(lia) H).
    assert (G1 : forall i' a, exists j,
               scan_str (escape_ascii s ++ String (ascii_of_nat 34) rest) i' start (a :: acc)
               = SOk ((List.rev acc ++ a :: items_of s)%list, rest, j)).
    { intros i' a. exact (G i' [a]). }
    clear G H L.
    destruct c as [[] [] [] [] [] [] [] []]; try discriminate Hc; clear Hc;
      match goal with
      | |- context [ascii_piece ?c] =>
          let p := eval vm_compute in (ascii_piece c) in
          change (ascii_piece c) with p
      end;
      match goal with
      | |- context [item_of ?c] =>
          let p := eval vm_compute in (item_of c) in
          change (item_of c) with p
      end;
      cbn [append];
      first
        [ rewrite scan_str_plain by reflexivity; apply G1
        | erewrite scan_str_simple by reflexivity; apply G1
        | rewrite Tx; erewrite scan_str_unit by reflexivity; rewrite <- Tx; apply G1 ].
  - destruct s as [|c1 s1]; [discriminate|]. cbn [String.length] in L.
    destruct (seq2 c c1) eqn:S2.
    { rewrite (escape_ascii_seq2 c c1 s1 S2), app_assoc_s.
      destruct (T s1) as (x & y & Tx). rewrite Tx.
      rewrite scan_str_small by (pose proof (cp2_range c c1 S2); divlia).
      rewrite <- Tx. exact (G s1 ltac:(lia) H _ [_]). }
    destruct s1 as [|c2 s2]; [discriminate|]. cbn [String.length] in L.
    destruct (seq3 c c1 c2) eqn:S3.
    { rewrite (escape_ascii_seq3 c c1 c2 s2 S3), app_assoc_s.
      destruct (T s2) as (x & y & Tx). rewrite Tx.
      rewrite scan_str_small by (pose proof (cp3_range c c1 c2 S3); tauto).
      rewrite <- Tx. exact (G s2 ltac:(lia) H _ [_]). }
    destruct s2 as [|c3 s3]; [discriminate|]. cbn [String.length] in L.
    apply andb_prop in H as [S4 H].
    rewrite (escape_ascii_seq4 c c1 c2 c3 s3 S4), app_assoc_s.
    destruct (T s3) as (x & y & Tx). rewrite Tx.
    rewrite scan_str_pair by (exact (cp4_range c c1 c2 c3 S4)).
    rewrite <- Tx. exact (G s3 ltac:(lia) H _ [_; _]).
Qed.

Lemma scan_str_escape_ascii s :
  utf8_text s = true ->
  forall rest i start acc, exists j,
    scan_str (escape_ascii s ++ String (ascii_of_nat 34) rest) i start acc
    = SOk ((List.rev acc ++ items_of s)%list, rest, j).
Proof. intros H. now apply (scan_str_escape_bounded (String.length s)). Qed.

(** *** What the items decode to *)

Lemma ascii_of_byte c n : n = N.of_nat (nat_of_ascii c) -> ascii_of_N n = c.
Proof. intros ->. apply ascii_nat_embedding. Qed.

Lemma utf8_seq2 c c1 :
  seq2 c c1 = true -> utf8 (N.of_nat (cp2 c c1)) = String c (String c1 EmptyString).
Proof.
  intros H. pose proof (cp2_range c c1 H) as R.
  apply seq2_inv in H as (H & H1). apply is_cont_inv in H1 as (H1 & E1).
  unfold utf8. replace (N.of_nat (cp2 c c1) <? 128)%N with false by lia.
  replace (N.of_nat (cp2 c c1) <? 2048)%N with true by lia.
  unfold cp2 in *. rewrite E1 in *.
  f_equal; [|f_equal]; apply ascii_of_byte; divlia.
Qed.

Lemma utf8_seq3 c c1 c2 :
  seq3 c c1 c2 = true ->
  utf8 (N.of_nat (cp3 c c1 c2)) = String c (String c1 (String c2 EmptyString)).
Proof.
  intros H. pose proof (cp3_range c c1 c2 H) as (R & _).
  apply seq3_inv in H as (H & H1 & H2 & _).
  apply is_cont_inv in H1 as (H1 & E1). apply is_cont_inv in H2 as (H2 & E2).
  unfold utf8. replace (N.of_nat (cp3 c c1 c2) <? 128)%N with false by lia.
  replace (N.of_nat (cp3 c c1 c2) <? 2048)%N with false by lia.
  replace (N.of_nat (cp3 c c1 c2) <? 65536)%N with true by divlia.
  unfold cp3 in *. rewrite E1, E2 in *.
  f_equal; [|f_equal; [|f_equal]]; apply ascii_of_byte; divlia.
Qed.

Lemma utf8_seq4 c c1 c2 c3 :
  seq4 c c1 c2 c3 = true ->
  utf8 (N.of_nat (cp4 c c1 c2 c3))
  = String c (String c1 (String c2 (String c3 EmptyString))).
Proof.
  intros H. pose proof (cp4_range c c1 c2 c3 H) as R.
  apply seq4_inv in H as (H & H1 & H2 & H3 & _).
  apply is_cont_inv in H1 as (H1 & E1). apply is_cont_inv in H2 as (H2 & E2).
  apply is_cont_inv in H3 as (H3 & E3).
  unfold utf8. replace (N.of_nat (cp4 c c1 c2 c3) <? 128)%N with false by divlia.
  replace (N.of_nat (cp4 c c1 c2 c3) <? 2048)%N with false by divlia.
  replace (N.of_nat (cp4 c c1 c2 c3) <? 65536)%N with false by divlia.
  unfold cp4 in *. rewrite E1, E2, E3 in *.
  f_equal; [|f_equal; [|f_equal; [|f_equal]]]; apply ascii_of_byte; divlia.
Qed.

Lemma decode_unit_low hi l :
  is_high hi = false -> decode_items (Unit16 hi :: l) = utf8 hi ++ decode_items l.
Proof.
  intros H. cbn [decode_items]. rewrite H. destruct l as [|[c|lo] l']; reflexivity.
Qed.

(** The two units of a surrogate pair decode to the code point. *)
Lemma decode_pair cp l :
  (65536 <= cp < 1114112)%nat ->
  decode_items (Unit16 (N.of_nat (high_unit cp)) :: Unit16 (N.of_nat (low_unit cp)) :: l)
  = utf8 (N.of_nat cp) ++ decode_items l.
Proof.
  intros H. cbn [decode_items].
  replace (is_high (N.of_nat (high_unit cp))) with true
    by (unfold is_high, high_unit; divlia).
  replace (is_low (N.of_nat (low_unit cp))) with true
    by (unfold is_low, low_unit; divlia).
  cbn [andb].
  replace (65536 + (N.of_nat (high_unit cp) - 55296) * 1024
           + (N.of_nat (low_unit cp) - 56320))%N
    with (N.of_nat cp) by (unfold high_unit, low_unit; divlia).
  reflexivity.
Qed.

(** The items read back decode to the text. *)
Lemma decode_items_bounded : forall k s,
  (String.length s <= k)%nat -> utf8_text s = true -> decode_items (items_of s) = s.
Proof.
  induction k as [|k IH]; intros s L H.
  { destruct s; [reflexivity|cbn in L; lia]. }
  destruct s as [|c s]; [reflexivity|]. cbn [String.length] in L.
  cbn [utf8_text items_of] in *.
  destruct (nat_of_ascii c <? 128)%nat eqn:Hc.
  - specialize (IH s ltac:(lia) H). clear H L.
    destruct c as [[] [] [] [] [] [] [] []]; try discriminate Hc; clear Hc;
      match goal with
      | |- context [item_of ?c] =>
          let p := eval vm_compute in (item_of c) in
          change (item_of c) with p
      end;
      first [ cbn [decode_items]; now rewrite IH
            | rewrite decode_unit_low by reflexivity; rewrite IH; reflexivity ].
  - destruct s as [|c1 s1]; [discriminate|]. cbn [String.length] in L.
    destruct (seq2 c c1) eqn:S2.
    { rewrite decode_unit_low
        by (pose proof (cp2_range c c1 S2); unfold is_high; divlia).
      now rewrite (utf8_seq2 c c1 S2), (IH s1 ltac:(lia) H). }
    destruct s1 as [|c2 s2]; [discriminate|]. cbn [String.length] in L.
    destruct (seq3 c c1 c2) eqn:S3.
    { rewrite decode_unit_low
        by (pose proof (cp3_range c c1 c2 S3); unfold is_high; divlia).
      now rewrite (utf8_seq3 c c1 c2 S3), (IH s2 ltac:(lia) H). }
    destruct s2 as [|c3 s3]; [discriminate|]. cbn [String.length] in L.
    apply andb_prop in H as [S4 H].
    rewrite (decode_pair _ _ (cp4_range c c1 c2 c3 S4)).
    now rewrite (utf8_seq4 c c1 c2 c3 S4), (IH s3 ltac:(lia) H).
Qed.

Lemma decode_items_of s : utf8_text s = true -> decode_items (items_of s) = s.
Proof. intros H. now apply (decode_items_bounded (String.length s)). Qed.

(** *** Integers *)

Lemma digit_char_value (k : Z) (c : ascii) (acc : Z) (s : string) :
  (Z.of_nat (nat_of_ascii c) - 48 = k)%Z ->
  digits_value_from acc (String c s) = digits_value_from (10 * acc + k)%Z s.
Proof. intros <-. reflexivity. Qed.

Ltac digit_step :=
  match goal with
  | |- context [digits_value_from _ (String ?c _)] =>
      let k := eval vm_compute in (Z.of_nat (nat_of_ascii c) - 48)%Z in
      rewrite (digit_char_value k) by reflexivity
  end.

Lemma digits_value_from_acc : forall d acc,
  digits_value_from (Zpos acc) (NilEmpty.string_of_uint d) = Zpos (Pos.of_uint_acc d acc).
Proof.
  induction d; intros acc; cbn [NilEmpty.string_of_uint Pos.of_uint_acc];
    [reflexivity|..];
    digit_step; rewrite <- IHd; f_equal; lia.
Qed.

Lemma digits_value_from_zero : forall d,
  digits_value_from 0 (NilEmpty.string_of_uint d) = Z.of_N (Pos.of_uint d).
Proof.
  induction d; cbn [NilEmpty.string_of_uint Pos.of_uint]; [reflexivity|..];
    digit_step; cbn [Z.mul Z.add];
    first [exact IHd | apply digits_value_from_acc].
Qed.

Lemma digits_of_uint : forall d, all_chars is_digit (NilEmpty.string_of_uint d) = true.
Proof. induction d; cbn [NilEmpty.string_of_uint all_chars]; auto. Qed.

(** The numeral of a positive number does not begin with a zero. *)
Lemma unorm_head : forall d,
  Decimal.unorm d = Decimal.D0 Decimal.Nil
  \/ exists c s, NilEmpty.string_of_uint (Decimal.unorm d) = String c s
                 /\ is_digit c = true /\ Ascii.eqb c "0" = false.
Proof.
  induction d; cbn [Decimal.unorm]; auto;
    right; cbn [NilEmpty.string_of_uint]; eexists _, _; repeat split; reflexivity.
Qed.

Lemma to_uint_normal p : Decimal.unorm (Pos.to_uint p) = Pos.to_uint p.
Proof.
  rewrite <- DecimalPos.Unsigned.to_of, DecimalPos.Unsigned.of_to. reflexivity.
Qed.

(** The shape of the numeral of a positive number. *)
Lemma str_int_pos p :
  exists c s,
    str_int (Zpos p) = String c s /\ is_digit c = true /\ Ascii.eqb c "0" = false
    /\ all_chars is_digit s = true /\ digits_value (String c s) = Zpos p.
Proof.
  unfold str_int. cbn [Z.to_int NilZero.string_of_int]. unfold NilZero.string_of_uint.
  pose proof (DecimalPos.Unsigned.to_uint_nonzero p) as NZ.
  pose proof (to_uint_normal p) as NF.
  pose proof (digits_of_uint (Pos.to_uint p)) as D.
  pose proof (digits_value_from_zero (Pos.to_uint p)) as V.
  rewrite DecimalPos.Unsigned.of_to in V. cbn [Z.of_N] in V.
  destruct (unorm_head (Pos.to_uint p)) as [Z|(c & s & E & Hc & H0)];
    rewrite NF in *; [contradiction|].
  exists c, s.
  assert (E' : match Pos.to_uint p with
               | Decimal.Nil => "0"
               | _ => NilEmpty.string_of_uint (Pos.to_uint p)
               end = String c s).
  { destruct (Pos.to_uint p); [discriminate E|exact E..]. }
  rewrite E'. rewrite E in D, V. cbn [all_chars] in D. rewrite Hc in D.
  repeat split; auto.
Qed.

Lemma span_digits : forall ds rest,
  all_chars is_digit ds = true -> delimited rest = true ->
  span is_digit (ds ++ rest) = (ds, rest).
Proof.
  induction ds as [|c ds IH]; intros rest H D.
  - cbn [append]. destruct rest as [|c r]; [reflexivity|].
    cbn [span]. cbn [delimited] in D.
    destruct (is_digit c); [discriminate|reflexivity].
  - cbn [all_chars] in H. apply andb_prop in H as [Hc H].
    cbn [append span]. rewrite Hc, (IH rest H D). reflexivity.
Qed.

Lemma match_frac_delimited rest : delimited rest = true -> match_frac rest = ("", rest).
Proof.
  destruct rest as [|c r]; [reflexivity|].
  destruct c as [[] [] [] [] [] [] [] []]; try reflexivity; discriminate.
Qed.

Lemma match_exp_delimited rest : delimited rest = true -> match_exp rest = (None, rest).
Proof.
  destruct rest as [|c r]; [reflexivity|].
  destruct c as [[] [] [] [] [] [] [] []]; try reflexivity; discriminate.
Qed.

Lemma match_int_part_digits c ds rest :
  is_digit c = true -> all_chars is_digit ds = true ->
  (Ascii.eqb c "0" = true -> ds = "") -> delimited rest = true ->
  match_int_part (String c (ds ++ rest)) = Some (String c ds, rest).
Proof.
  intros Hc Hd Z D. unfold match_int_part.
  destruct (Ascii.eqb c "0") eqn:E.
  - rewrite (Z eq_refl). reflexivity.
  - rewrite Hc, (span_digits ds rest Hd D). reflexivity.
Qed.

(** The numeral of an integer, as the decoder splits it. *)
Lemma match_number_digits (neg : bool) c ds rest :
  is_digit c = true -> all_chars is_digit ds = true ->
  (Ascii.eqb c "0" = true -> ds = "") -> delimited rest = true ->
  match_number ((if neg then "-" else "") ++ String c (ds ++ rest))
  = Some (Numeral neg (String c ds) "" None, rest).
Proof.
  intros Hc Hd Z D. unfold match_number.
  assert (S : (match (if neg then "-" else "") ++ String c (ds ++ rest) with
               | String "-" t => (true, t)
               | _ => (false, (if neg then "-" else "") ++ String c (ds ++ rest))
               end) = (neg, String c (ds ++ rest))).
  { destruct neg; [reflexivity|]. cbn [append].
    destruct c as [[] [] [] [] [] [] [] []]; try reflexivity; discriminate Hc. }
  rewrite S, (match_int_part_digits c ds rest Hc Hd Z D).
  rewrite (match_frac_delimited rest D), (match_exp_delimited rest D). reflexivity.
Qed.

(** After the other kinds of value have been excluded, the scanner reads
    a number. *)
Lemma scan_once_number fuel c t i :
  Ascii.eqb c (ascii_of_nat 34) = false -> Ascii.eqb c "{" = false ->
  Ascii.eqb c "[" = false ->
  keyword "null" PNone (String c t) i = None ->
  keyword "true" (PBool true) (String c t) i = None ->
  keyword "false" (PBool false) (String c t) i = None ->
  keyword "NaN" (PFloat S754_nan) (String c t) i = None ->
  keyword "Infinity" (PFloat (S754_infinity false)) (String c t) i = None ->
  keyword "-Infinity" (PFloat (S754_infinity true)) (String c t) i = None ->
  scan_once (S fuel) (String c t) i
  = match match_number (String c t) with
    | Some (n, r) =>
        sbind (number_value n)
              (fun v => SOk (v, r, (i + (String.length (String c t) - String.length r))%nat))
    | None => SErr "Expecting value" i
    end.
Proof.
  intros H1 H2 H3 K1 K2 K3 K4 K5 K6. cbn [scan_once].
  now rewrite H1, H2, H3, K1, K2, K3, K4, K5, K6.
Qed.

Lemma number_value_int neg ds :
  (String.length ds <=? 4300)%nat = true ->
  number_value (Numeral neg ds "" None)
  = SOk (PInt (if neg then - digits_value ds else digits_value ds)).
Proof.
  intros H. unfold number_value. cbn [n_frac n_exp n_int n_neg].
  unfold int_max_str_digits.
  replace (4300 <? String.length ds)%nat with false; [reflexivity|].
  symmetry. apply Nat.ltb_ge. now apply Nat.leb_le.
Qed.

(** The decoder reads back the numeral of an integer. *)
Lemma scan_once_int fuel z rest i :
  plain (PInt z) = true -> delimited rest = true ->
  exists j, scan_once (S fuel) (str_int z ++ rest) i = SOk (PInt z, rest, j).
Proof.
  cbn [plain]. intros L D.
  assert (G : forall (neg : bool) c ds,
             is_digit c = true -> all_chars is_digit ds = true ->
             (Ascii.eqb c "0" = true -> ds = "") ->
             (String.length (String c ds) <=? 4300)%nat = true ->
             exists j,
               scan_once (S fuel) ((if neg then "-" else "") ++ String c (ds ++ rest)) i
               = SOk (PInt (if neg then - digits_value (String c ds)
                            else digits_value (String c ds)), rest, j)).
  { intros neg c ds Hc Hd Z Hl.
    pose proof (match_number_digits neg c ds rest Hc Hd Z D) as M.
    destruct neg; cbn [append] in *.
    - rewrite scan_once_number; try reflexivity.
      + rewrite M, (number_value_int true _ Hl). cbn [sbind]. eauto.
      + destruct c as [[] [] [] [] [] [] [] []]; try discriminate Hc; reflexivity.
    - destruct c as [[] [] [] [] [] [] [] []]; try discriminate Hc;
        rewrite scan_once_number by reflexivity;
        rewrite M, (number_value_int false _ Hl); cbn [sbind]; eauto. }
  destruct z as [|p|p].
  - apply (G false "0"%char ""); auto.
  - destruct (str_int_pos p) as (c & s & E & Hc & H0 & Hs & V).
    cbn [Z.abs] in L. rewrite E in L. rewrite E, <- V.
    assert (A : String c s ++ rest = String c (s ++ rest)) by reflexivity.
    rewrite A. apply (G false c s); auto. intros H. congruence.
  - destruct (str_int_pos p) as (c & s & E & Hc & H0 & Hs & V).
    cbn [Z.abs] in L. rewrite E in L.
    assert (N : str_int (Zneg p) = String "-" (String c s)).
    { unfold str_int in *. cbn [Z.to_int NilZero.string_of_int] in *. now rewrite E. }
    rewrite N.
    assert (A : String "-" (String c s) ++ rest = "-" ++ String c (s ++ rest)) by reflexivity.
    rewrite A. replace (Zneg p) with (- digits_value (String c s))%Z by (rewrite V; reflexivity).
    apply (G true c s); auto. intros H. congruence.
Qed.

(** *** Lists and objects *)

Lemma digit_opens c : is_digit c = true -> opens_value c = true.
Proof. destruct c as [[] [] [] [] [] [] [] []]; try reflexivity; discriminate. Qed.

(** An encoded value begins with a character that no white space and no
    closing bracket can be taken for. *)
Lemma dumps_head v :
  plain v = true -> exists c t, dumps v = String c t /\ opens_value c = true.
Proof.
  destruct v as [|b|z|f|s|l|d]; cbn [plain dumps]; intros H.
  - eexists _, _. split; reflexivity.
  - destruct b; eexists _, _; split; reflexivity.
  - destruct z as [|p|p].
    + eexists _, _. split; reflexivity.
    + destruct (str_int_pos p) as (c & s & E & Hc & _). rewrite E.
      eexists _, _. split; [reflexivity|now apply digit_opens].
    + unfold str_int. cbn [Z.to_int NilZero.string_of_int].
      eexists _, _. split; reflexivity.
  - discriminate.
  - eexists _, _. split; reflexivity.
  - eexists _, _. split; reflexivity.
  - eexists _, _. split; reflexivity.
Qed.

Lemma skip_ws_stops c t i : is_ws c = false -> skip_ws (String c t) i = (String c t, i).
Proof. intros H. cbn [skip_ws]. now rewrite H. Qed.

Lemma opens_not_ws c : opens_value c = true -> is_ws c = false.
Proof.
  unfold opens_value. intros H. apply andb_prop in H as [H _].
  apply andb_prop in H as [_ H]. now apply negb_true_iff in H.
Qed.

Lemma opens_not_bom c t : opens_value c = true -> startswith (String c t) bom = false.
Proof.
  destruct c as [[] [] [] [] [] [] [] []]; try reflexivity; discriminate.
Qed.

Lemma scan_once_string fuel t i :
  scan_once (S fuel) (String (ascii_of_nat 34) t) i
  = sbind (scan_str t (S i) i [])
          (fun '(items, r, j) => SOk (PStr (decode_items items), r, j)).
Proof. reflexivity. Qed.

Lemma scan_once_list fuel c t i :
  opens_value c = true ->
  scan_once (S fuel) (String "[" (String c t)) i = elems fuel (String c t) (S i) [].
Proof.
  intros H. cbn [scan_once].
  change (Ascii.eqb "[" (ascii_of_nat 34)) with false.
  change (Ascii.eqb "[" "{") with false.
  change (Ascii.eqb "[" "[") with true. cbv iota.
  rewrite (skip_ws_stops c t (S i) (opens_not_ws c H)).
  destruct c as [[] [] [] [] [] [] [] []]; try reflexivity; discriminate H.
Qed.

Lemma scan_once_dict fuel t i :
  scan_once (S fuel) (String "{" (String (ascii_of_nat 34) t)) i
  = members fuel (String (ascii_of_nat 34) t) (S i) [].
Proof. reflexivity. Qed.

Lemma join_cons sep x y l : join sep (x :: y :: l) = x ++ sep ++ join sep (y :: l).
Proof. reflexivity. Qed.

Lemma keys_distinct_app acc k v d :
  keys_distinct (acc ++ (k, v) :: d)%list = true ->
  existsb (String.eqb k) (List.map fst acc) = false
  /\ keys_distinct ((acc ++ [(k, v)]) ++ d)%list = true.
Proof.
  intros H. split.
  - induction acc as [|[k0 v0] acc IH]; [reflexivity|].
    cbn [app keys_distinct] in H. apply andb_prop in H as [H1 H2].
    cbn [List.map fst existsb]. rewrite (IH H2), orb_false_r.
    apply negb_true_iff in H1. rewrite List.map_app, existsb_app in H1.
    apply orb_false_iff in H1 as [_ H1]. cbn [List.map fst existsb] in H1.
    apply orb_false_iff in H1 as [H1 _]. now rewrite String.eqb_sym.
  - now rewrite <- app_assoc.
Qed.

Lemma dict_set_fresh k v acc :
  existsb (String.eqb k) (List.map fst acc) = false -> dict_set k v acc = (acc ++ [(k, v)])%list.
Proof.
  induction acc as [|[k0 v0] acc IH]; [reflexivity|].
  cbn [List.map fst existsb]. intros H. apply orb_false_iff in H as [H1 H2].
  cbn [dict_set app]. now rewrite H1, (IH H2).
Qed.

Lemma dumps_app_head v tail :
  plain v = true -> exists c T, dumps v ++ tail = String c T /\ opens_value c = true.
Proof.
  intros P. destruct (dumps_head v P) as (c & t & E & O).
  exists c, (t ++ tail). now rewrite E.
Qed.

Lemma join_dumps_head x l tail :
  plain x = true ->
  exists c T, join ", " (List.map dumps (x :: l)) ++ tail = String c T
              /\ opens_value c = true.
Proof.
  intros P. destruct (dumps_head x P) as (c & t & E & O).
  destruct l as [|y l]; cbn [List.map].
  - cbn [join]. exists c, (t ++ tail). now rewrite E.
  - rewrite join_cons, E. eexists _, _. split; [reflexivity|exact O].
Qed.

Lemma join_pairs_head k v d tail :
  exists T, join ", " (List.map dumps_pair ((k, v) :: d)) ++ tail
            = String (ascii_of_nat 34) T.
Proof.
  destruct d as [|y d]; cbn [List.map].
  - cbn [join]. unfold dumps_pair, dumps_str, dq. cbn [fst append]. eauto.
  - rewrite join_cons. unfold dumps_pair at 1. unfold dumps_str, dq. cbn [fst append]. eauto.
Qed.

(** What follows a value inside a list or an object ends the value. *)
Lemma elems_last fuel v rest j acc :
  (let '(r1, j1) := skip_ws (String "]" rest) j in
   match r1 with
   | String "]" r2 => SOk (PList (acc ++ [v])%list, r2, S j1)
   | String "," r2 =>
       let '(r3, j3) := skip_ws r2 (S j1) in elems fuel r3 j3 (acc ++ [v])%list
   | _ => SErr "Expecting ',' delimiter" j1
   end) = SOk (PList (acc ++ [v])%list, rest, S j).
Proof. reflexivity. Qed.

Lemma elems_next fuel v c T j acc :
  opens_value c = true ->
  (let '(r1, j1) := skip_ws (String "," (String " " (String c T))) j in
   match r1 with
   | String "]" r2 => SOk (PList (acc ++ [v])%list, r2, S j1)
   | String "," r2 =>
       let '(r3, j3) := skip_ws r2 (S j1) in elems fuel r3 j3 (acc ++ [v])%list
   | _ => SErr "Expecting ',' delimiter" j1
   end) = elems fuel (String c T) (S (S j)) (acc ++ [v])%list.
Proof.
  intros O. rewrite (skip_ws_stops "," _ j eq_refl). cbv beta iota.
  cbn [skip_ws]. change (is_ws " ") with true. cbv iota.
  now rewrite (opens_not_ws c O).
Qed.

Lemma elems_step fuel s i acc :
  elems (S fuel) s i acc
  = sbind (scan_once fuel s i) (fun '(v, r, j) =>
      let '(r1, j1) := skip_ws r j in
      match r1 with
      | String "]" r2 => SOk (PList (acc ++ [v])%list, r2, S j1)
      | String "," r2 =>
          let '(r3, j3) := skip_ws r2 (S j1) in elems fuel r3 j3 (acc ++ [v])%list
      | _ => SErr "Expecting ',' delimiter" j1
      end).
Proof. reflexivity. Qed.

Lemma members_step fuel t i acc :
  members (S fuel) (String (ascii_of_nat 34) t) i acc
  = sbind (scan_str t (S i) i []) (fun '(items, r, j) =>
      let key := decode_items items in
      let '(r1, j1) := skip_ws r j in
      match r1 with
      | String ":" r2 =>
          let '(r3, j3) := skip_ws r2 (S j1) in
          sbind (scan_once fuel r3 j3) (fun '(v, r4, j4) =>
            let '(r5, j5) := skip_ws r4 j4 in
            match r5 with
            | String "}" r6 => SOk (PDict (dict_set key v acc), r6, S j5)
            | String "," r6 =>
                let '(r7, j7) := skip_ws r6 (S j5) in
                members fuel r7 j7 (dict_set key v acc)
            | _ => SErr "Expecting ',' delimiter" j5
            end)
      | _ => SErr "Expecting ':' delimiter" j1
      end).
Proof. reflexivity. Qed.

Lemma members_colon fuel key c T j acc :
  opens_value c = true ->
  (let '(r1, j1) := skip_ws (String ":" (String " " (String c T))) j in
   match r1 with
   | String ":" r2 =>
       let '(r3, j3) := skip_ws r2 (S j1) in
       sbind (scan_once fuel r3 j3) (fun '(v, r4, j4) =>
         let '(r5, j5) := skip_ws r4 j4 in
         match r5 with
         | String "}" r6 => SOk (PDict (dict_set key v acc), r6, S j5)
         | String "," r6 =>
             let '(r7, j7) := skip_ws r6 (S j5) in
             members fuel r7 j7 (dict_set key v acc)
         | _ => SErr "Expecting ',' delimiter" j5
         end)
   | _ => SErr "Expecting ':' delimiter" j1
   end)
  = sbind (scan_once fuel (String c T) (S (S j))) (fun '(v, r4, j4) =>
      let '(r5, j5) := skip_ws r4 j4 in
      match r5 with
      | String "}" r6 => SOk (PDict (dict_set key v acc), r6, S j5)
      | String "," r6 =>
          let '(r7, j7) := skip_ws r6 (S j5) in
          members fuel r7 j7 (dict_set key v acc)
      | _ => SErr "Expecting ',' delimiter" j5
      end).
Proof.
  intros O. rewrite (skip_ws_stops ":" _ j eq_refl). cbv beta iota.
  cbn [skip_ws]. change (is_ws " ") with true. cbv iota.
  now rewrite (opens_not_ws c O).
Qed.

Lemma members_last fuel key v rest j acc :
  (let '(r5, j5) := skip_ws (String "}" rest) j in
   match r5 with
   | String "}" r6 => SOk (PDict (dict_set key v acc), r6, S j5)
   | String "," r6 =>
       let '(r7, j7) := skip_ws r6 (S j5) in
       members fuel r7 j7 (dict_set key v acc)
   | _ => SErr "Expecting ',' delimiter" j5
   end) = SOk (PDict (dict_set key v acc), rest, S j).
Proof. reflexivity. Qed.

Lemma members_next fuel key v T j acc :
  (let '(r5, j5) := skip_ws (String "," (String " " (String (ascii_of_nat 34) T))) j in
   match r5 with
   | String "}" r6 => SOk (PDict (dict_set key v acc), r6, S j5)
   | String "," r6 =>
       let '(r7, j7) := skip_ws r6 (S j5) in
       members fuel r7 j7 (dict_set key v acc)
   | _ => SErr "Expecting ',' delimiter" j5
   end) = members fuel (String (ascii_of_nat 34) T) (S (S j)) (dict_set key v acc).
Proof. reflexivity. Qed.

Lemma length_string c s : String.length (String c s) = S (String.length s).
Proof. reflexivity. Qed.

(** With fuel for twice the text, the scanner reads an encoded value back,
    and so the items of an encoded list and the pairs of an encoded
    object. *)
Lemma scan_dumps : forall fuel,
  (forall v rest i, plain v = true -> delimited rest = true ->
     2 * String.length (dumps v ++ rest) + 1 <= fuel ->
     exists j, scan_once fuel (dumps v ++ rest) i = SOk (v, rest, j))
  /\ (forall l acc rest i, l <> [] -> forallb plain l = true ->
        2 * String.length (join ", " (List.map dumps l) ++ String "]" rest) + 2 <= fuel ->
        exists j, elems fuel (join ", " (List.map dumps l) ++ String "]" rest) i acc
                  = SOk (PList (acc ++ l), rest, j))
  /\ (forall d acc rest i, d <> [] -> keys_distinct (acc ++ d) = true ->
        forallb (fun kv => utf8_text (fst kv) && plain (snd kv)) d = true ->
        2 * String.length (join ", " (List.map dumps_pair d) ++ String "}" rest) + 2 <= fuel ->
        exists j, members fuel (join ", " (List.map dumps_pair d) ++ String "}" rest) i acc
                  = SOk (PDict (acc ++ d), rest, j)).
Proof.
  induction fuel as [|f (IH1 & IH2 & IH3)].
  { repeat split; intros; lia. }
  split; [|split].
  - (* a value *)
    intros v rest i P D F. destruct v as [|b|z|fl|s|l|d].
    + eexists. reflexivity.
    + destruct b; eexists; reflexivity.
    + cbn [dumps]. now apply scan_once_int.
    + discriminate P.
    + cbn [plain] in P. cbn [dumps]. unfold dumps_str.
      replace ((dq ++ escape_ascii s ++ dq) ++ rest)
        with (String (ascii_of_nat 34) (escape_ascii s ++ String (ascii_of_nat 34) rest))
        by (unfold dq; cbn [append]; now rewrite app_assoc_s).
      rewrite scan_once_string.
      destruct (scan_str_escape_ascii s P rest (S i) i []) as [j Hj].
      rewrite Hj. cbn [sbind List.rev app]. rewrite (decode_items_of s P). eauto.
    + cbn [plain] in P. destruct l as [|x l'].
      { eexists. reflexivity. }
      assert (T : dumps (PList (x :: l')) ++ rest
                  = String "[" (join ", " (List.map dumps (x :: l')) ++ String "]" rest)).
      { cbn [dumps]. cbn [append]. now rewrite app_assoc_s. }
      rewrite T in *. clear T.
      assert (Px : plain x = true) by (cbn [forallb] in P; now apply andb_prop in P as [P _]).
      destruct (join_dumps_head x l' (String "]" rest) Px) as (c & tl & E & O).
      rewrite E, (scan_once_list f c tl i O), <- E.
      destruct (IH2 (x :: l') [] rest (S i) ltac:(discriminate) P) as [j Hj].
      { rewrite length_string in F. lia. }
      exists j. exact Hj.
    + cbn [plain] in P. apply andb_prop in P as [K P]. destruct d as [|[k v] d'].
      { eexists. reflexivity. }
      assert (T : dumps (PDict ((k, v) :: d')) ++ rest
                  = String "{" (join ", " (List.map dumps_pair ((k, v) :: d'))
                                  ++ String "}" rest)).
      { change (dumps (PDict ((k, v) :: d')))
          with ("{" ++ join ", " (List.map dumps_pair ((k, v) :: d')) ++ "}").
        cbn [append]. now rewrite app_assoc_s. }
      rewrite T in *. clear T.
      destruct (join_pairs_head k v d' (String "}" rest)) as (tl & E).
      rewrite E, (scan_once_dict f tl i), <- E.
      destruct (IH3 ((k, v) :: d') [] rest (S i) ltac:(discriminate) K P) as [j Hj].
      { rewrite length_string in F. lia. }
      exists j. exact Hj.
  - (* the items of a list *)
    intros l acc rest i NE P F. destruct l as [|x l']; [congruence|].
    cbn [forallb] in P. apply andb_prop in P as [Px Pl].
    rewrite elems_step. destruct l' as [|y l''].
    + cbn [List.map join] in *.
      destruct (IH1 x (String "]" rest) i Px eq_refl) as [j Hj]; [lia|].
      rewrite Hj. cbn [sbind]. rewrite elems_last. eauto.
    + assert (Py : plain y = true)
        by (cbn [forallb] in Pl; now apply andb_prop in Pl as [Pl _]).
      destruct (join_dumps_head y l'' (String "]" rest) Py) as (c & tl & E & O).
      assert (T : join ", " (List.map dumps (x :: y :: l'')) ++ String "]" rest
                  = dumps x ++ String "," (String " " (String c tl))).
      { cbn [List.map]. rewrite join_cons, !app_assoc_s. cbn [List.map] in E.
        now rewrite E. }
      rewrite T in *. clear T.
      destruct (IH1 x (String "," (String " " (String c tl))) i Px eq_refl) as [j Hj];
        [lia|].
      rewrite Hj. cbn [sbind]. rewrite (elems_next f x c tl j acc O), <- E.
      destruct (IH2 (y :: l'') (acc ++ [x])%list rest (S (S j)) ltac:(discriminate) Pl)
        as [j' Hj'].
      { rewrite length_app, !length_string in F. rewrite E, length_string. lia. }
      exists j'. rewrite Hj', <- app_assoc. reflexivity.
  - (* the pairs of an object *)
    intros d acc rest i NE K P F. destruct d as [|[k v] d']; [congruence|].
    cbn [forallb fst snd] in P. apply andb_prop in P as [Pkv Pd].
    apply andb_prop in Pkv as [Pk Pv].
    apply keys_distinct_app in K as [Fresh K].
    destruct d' as [|[k' v'] d''].
    + destruct (dumps_app_head v (String "}" rest) Pv) as (c & tl & E & O).
      assert (T : join ", " (List.map dumps_pair [(k, v)]) ++ String "}" rest
                  = String (ascii_of_nat 34)
                      (escape_ascii k ++ String (ascii_of_nat 34)
                         (String ":" (String " " (dumps v ++ String "}" rest))))).
      { cbn [List.map join]. unfold dumps_pair, dumps_str, dq. cbn [fst snd append].
        now rewrite !app_assoc_s. }
      rewrite T in *. clear T. rewrite members_step.
      destruct (scan_str_escape_ascii k Pk
                  (String ":" (String " " (dumps v ++ String "}" rest))) (S i) i [])
        as [j Hj].
      rewrite Hj. cbn [sbind List.rev app]. cbv zeta. rewrite (decode_items_of k Pk).
      rewrite E, (members_colon f k c tl j acc O), <- E.
      destruct (IH1 v (String "}" rest) (S (S j)) Pv eq_refl) as [j' Hj'].
      { rewrite length_string, length_app, !length_string in F. lia. }
      rewrite Hj'. cbn [sbind]. rewrite members_last.
      rewrite (dict_set_fresh k v acc Fresh). eauto.
    + destruct (join_pairs_head k' v' d'' (String "}" rest)) as (tl' & E').
      destruct (dumps_app_head v
                  (String "," (String " " (String (ascii_of_nat 34) tl'))) Pv)
        as (c & tl & E & O).
      assert (T : join ", " (List.map dumps_pair ((k, v) :: (k', v') :: d''))
                    ++ String "}" rest
                  = String (ascii_of_nat 34)
                      (escape_ascii k ++ String (ascii_of_nat 34)
                         (String ":" (String " "
                            (dumps v ++ String "," (String " "
                               (String (ascii_of_nat 34) tl'))))))).
      { cbn [List.map]. rewrite join_cons. cbn [List.map] in E'.
        unfold dumps_pair at 1. unfold dumps_str, dq. cbn [fst snd append].
        rewrite !app_assoc_s. cbn [append]. now rewrite E'. }
      rewrite T in *. clear T. rewrite members_step.
      destruct (scan_str_escape_ascii k Pk
                  (String ":" (String " "
                     (dumps v ++ String "," (String " " (String (ascii_of_nat 34) tl')))))
                  (S i) i []) as [j Hj].
      rewrite Hj. cbn [sbind List.rev app]. cbv zeta. rewrite (decode_items_of k Pk).
      rewrite E, (members_colon f k c tl j acc O), <- E.
      destruct (IH1 v (String "," (String " " (String (ascii_of_nat 34) tl')))
                    (S (S j)) Pv eq_refl) as [j' Hj'].
      { rewrite length_string, length_app, !length_string in F. lia. }
      rewrite Hj'. cbn [sbind]. rewrite members_next, <- E'.
      rewrite (dict_set_fresh k v acc Fresh).
      destruct (IH3 ((k', v') :: d'') (acc ++ [(k, v)])%list rest (S (S j'))
                    ltac:(discriminate) K Pd) as [j'' Hj''].
      { repeat (progress (rewrite ?length_string, ?length_app in F)).
        rewrite E', length_string. lia. }
      exists j''. rewrite Hj'', <- app_assoc. reflexivity.
Qed.

(** [json.loads] reads back what [json.dumps] has written. *)
Lemma loads_dumps (v : pyval) : plain v = true -> Json.loads (dumps v) = Ok v.
Proof.
  intros P. unfold Json.loads.
  destruct (dumps_head v P) as (c & t & E & O).
  rewrite E, (opens_not_bom c t O), (skip_ws_stops c t 0 (opens_not_ws c O)), <- E.
  destruct (scan_dumps (2 * String.length (dumps v) + 2)) as (S1 & _ & _).
  destruct (S1 v "" 0 P eq_refl) as [j Hj].
  { rewrite app_empty_r. lia. }
  rewrite app_empty_r in Hj. rewrite Hj. reflexivity.
Qed.

(** The strategies that call a grading endpoint encode the decoded answer
    again with [json.dumps] and hand this text to the renderer, which
    decodes it with [json.loads].  For an answer made of [null], booleans,
    integers of at most 4300 digits, strings of well-formed UTF-8 (every
    text without a lone surrogate), lists and objects, this round trip is
    the identity, although the encoder writes every character outside
    ASCII as an escape; so the page is the page of the answer as it was
    received: re-encoding changes nothing of what is shown. *)
Theorem page_of_reencoded_response (text : string) (v : pyval) :
  Json.loads text = Ok v -> plain v = true ->
  Json.loads (dumps v) = Ok v
  /\ create_language_literature_html (dumps v) = create_language_literature_html text
  /\ create_general_course_html (dumps v) = create_general_course_html text.
Proof.
  intros L P. pose proof (loads_dumps v P) as R.
  split; [exact R|].
  unfold create_language_literature_html, create_general_course_html.
  rewrite R, L. split; reflexivity.
Qed.

Lemma page_of_reencoded_response_witness :
  let v := PDict [("overall_feedback", PStr accented_text)] in
  Json.loads (dumps v) = Ok v
  /\ create_language_literature_html (dumps v)
     = create_language_literature_html accented_example
  /\ create_general_course_html (dumps v) = create_general_course_html accented_example.
Proof.
  apply (page_of_reencoded_response accented_example); vm_compute; reflexivity.
Defined.

(** ** The result of the two-stage strategy *)

(** When both generators of the environmental science strategy return a
    text, the response carries the two texts as they are, the page built
    from them, and the pair of points extracted from them, the earned
    points first in the pair and second in the response; the interactions
    are those of the two calls.  When the second generator returns a
    completion without content, the strategy fails with the [TypeError] of
    the search in [None], which the endpoint turns into status 500. *)
Theorem two_stage_result
        (w : world) (question student_answer scoring_rubric image_data : string)
        (log l1 l2 : list event) (s : string) (second : pyval) :
  let messages1 :=
    user_messages (create_claude_prompt question student_answer scoring_rubric image_data) in
  let messages2 := user_messages (create_openai_prompt (PStr s)) in
  Router.call_claude_api w messages1 log = (Ok (PStr s), l1) ->
  Router.call_openai_api w messages2 l1 = (Ok second, l2) ->
  (forall f, second = PStr f ->
     exists earned possible page,
       extract_score_from_env_science (PStr s) (PStr f) = Ok (earned, possible)
       /\ create_environmental_science_html (PStr s) (PStr f) = Ok page
       /\ grade_environmental_science w question student_answer scoring_rubric image_data log
          = (Ok (Build_GradingResponse s f page possible earned), l2))
  /\ (second = PNone ->
      grade_environmental_science w question student_answer scoring_rubric image_data log
      = (Raise (TypeError "expected string or bytes-like object, got 'NoneType'"), l2)).
Proof.
  intros messages1 messages2 C1 C2.
  assert (U : grade_environmental_science w question student_answer scoring_rubric
                image_data log
              = iobind (lift (extract_score_from_env_science (PStr s) second))
                  (fun score =>
                     let '(total_earned_points, total_possible_points) := score in
                     iobind (lift (create_environmental_science_html (PStr s) second))
                       (fun html_for_app =>
                          lift (make_response (PStr s) second html_for_app
                                              total_possible_points total_earned_points)))
                  l2).
  { unfold grade_environmental_science. unfold iobind at 1. fold messages1. rewrite C1.
    unfold iobind at 1. fold messages2. rewrite C2. reflexivity. }
  split.
  - intros f ->.
    destruct (environmental_page s f) as (sm & am & d & i & n & _ & _ & _ & _ & _ & E).
    cbv zeta in E.
    destruct (extract_score_from_env_science (PStr s) (PStr f)) as [[earned possible]|e] eqn:X.
    + eexists earned, possible, _. split; [reflexivity|]. split; [exact E|].
      rewrite U. unfold iobind, lift. rewrite E. reflexivity.
    + exfalso. revert X. unfold extract_score_from_env_science. cbn [re_search bind].
      destruct (search final_score_pattern f); [discriminate|].
      destruct (search total_score_pattern s); discriminate.
  - intros ->. rewrite U. reflexivity.
Qed.

Lemma two_stage_result_witness :
  exists earned possible page,
    extract_score_from_env_science (PStr "evaluation") (PStr feedback_example)
    = Ok (earned, possible)
    /\ create_environmental_science_html (PStr "evaluation") (PStr feedback_example)
       = Ok page
    /\ grade_environmental_science
         (constant_world 200 (claude_answer (dq ++ "evaluation" ++ dq)) feedback_example)
         "Why?" "Because." "1 point" "" []
       = (Ok (Build_GradingResponse "evaluation" feedback_example page possible earned),
          [EPost CLAUDE_API_URL
             (Router.claude_payload
                (user_messages (create_claude_prompt "Why?" "Because." "1 point" "")))
             (HttpResponse 200 (claude_answer (dq ++ "evaluation" ++ dq)));
           ECreate "o1" (user_messages (create_openai_prompt (PStr "evaluation"))) "medium"
             (Completion [Some feedback_example])]).
Proof.
  apply (proj1 (two_stage_result
                  (constant_world 200 (claude_answer (dq ++ "evaluation" ++ dq))
                                  feedback_example)
                  "Why?" "Because." "1 point" "" [] _ _ "evaluation"
                  (PStr feedback_example) eq_refl eq_refl) feedback_example eq_refl).
Defined.

(** ** The result of the scoring service *)

(** The successful path of [score_answer]: with the three fields filled,
    the calculations are checked on the JSON of the request as it came,
    the prompt holds the rubric followed by the note of the check when
    the check asks for it, the generator is asked once, and when the
    first choice of its answer is a text that decodes to an object
    accepted by the response model, this object is the result. *)
Theorem score_answer_result
        (w : world) (request : ScoringRequest) (log : list event)
        (choices : list (option string)) (text : string) (data : pyval)
        (r : ScoringResponse) :
  Grader.question request <> "" -> Grader.student_answer request <> "" ->
  Grader.scoring_rubric request <> "" ->
  let j := model_dump_json request in
  let cr := calculations_check w log j in
  let log1 := (log ++ [ECheck j (fst cr) (snd cr)])%list in
  let rubric :=
    if fst cr then Grader.scoring_rubric request ++ nl ++ "Note: " ++ snd cr
    else Grader.scoring_rubric request in
  let messages :=
    user_messages (create_scoring_prompt (Grader.question request)
                                         (Grader.student_answer request) rubric) in
  openai_create w log1 "o1" messages "medium" = Completion (Some text :: choices) ->
  text <> "" -> Json.loads text = Ok data -> validate_scoring_response data = Ok r ->
  score_answer w request log
  = (Ok r, (log1 ++ [ECreate "o1" messages "medium" (Completion (Some text :: choices))])%list).
Proof.
  intros Nq Na Nr j cr log1 rubric messages H Nt L V.
  unfold score_answer.
  rewrite (truthy_nonempty _ Nq), (truthy_nonempty _ Na), (truthy_nonempty _ Nr).
  cbn [andb negb]. rewrite try_io_bind. unfold check. fold j. fold cr.
  destruct cr as [b reasoning] eqn:C. cbn [fst snd] in *.
  rewrite try_io_bind, grader_openai_first. cbv zeta.
  fold rubric. fold messages. fold log1. rewrite H.
  cbn [openai_attempt first_content]. rewrite (truthy_nonempty _ Nt). cbn [negb].
  unfold try_io, lift. cbn [json_loads]. rewrite L. cbn [bind]. rewrite V. reflexivity.
Qed.

Lemma score_answer_result_witness :
  fst (score_answer noting_world
         (Build_ScoringRequest "Explain osmosis." "Water moves." "2 points") [])
  = Ok (Build_ScoringResponse (round_Z 4) (round_Z 3) (round_Z 75) "Good." ["Add units."]).
Proof.
  rewrite (score_answer_result noting_world
             (Build_ScoringRequest "Explain osmosis." "Water moves." "2 points") []
             [] scoring_example
             (PDict [("total_points", PInt 4); ("awarded_points", PInt 3);
                     ("score", PInt 75); ("rationale_for_the_score", PStr "Good.");
                     ("feedback_to_the_student", PList [PStr "Add units."])])
             (Build_ScoringResponse (round_Z 4) (round_Z 3) (round_Z 75) "Good."
                                    ["Add units."]));
    [reflexivity|discriminate|discriminate|discriminate|reflexivity|discriminate
    |reflexivity|reflexivity].
Defined.
